(** * A shallow embedding of [clean.py]

    [clean.py] normalises CSV exports with pandas: it rewrites the column
    headers, cleans every cell (currency, percentage, date) and audits the
    cleaned frame against the original one.

    The embedding follows the source function by function.  Python text is a
    [string] whose characters are read as code points below 256.  Python
    floats are binary64 numbers ([PrimFloat.float]); [float(s)] is embedded in
    full (grammar and correctly rounded value).  The pandas entry points
    ([to_numeric], [to_datetime], the aggregates) and [repr] of a float are
    fields of the record [External]: every theorem holds for all their
    possible behaviours, and [Reference.env] is one small instance used to run
    the functions on concrete frames. *)

From Stdlib Require Import List String Ascii ZArith NArith Bool Lia PeanoNat.
From Stdlib Require Import DecimalString DecimalPos.
From Stdlib Require Import Floats.
Import ListNotations.

Set Warnings "-inexact-float".

Local Open Scope string_scope.
Local Open Scope list_scope.

(* ================================================================== *)
(** * Python string operations *)
(* ================================================================== *)

Module Text.

(** [c.isspace()] for a code point below 256: TAB..CR, FS..US, space, NEL and
    the no-break space. *)
Definition is_space (c : ascii) : bool :=
  let n := N_of_ascii c in
  ((9 <=? n) && (n <=? 13) || (28 <=? n) && (n <=? 32) || (n =? 133) || (n =? 160))%N.

(** [s.lstrip()] *)
Fixpoint lstrip (s : string) : string :=
  match s with
  | EmptyString => EmptyString
  | String c r => if is_space c then lstrip r else s
  end.

(** [s.rstrip(c)] for a one-character argument, and [s.rstrip()] when [drop]
    is [is_space]. *)
Fixpoint rstrip_with (drop : ascii -> bool) (s : string) : string :=
  match s with
  | EmptyString => EmptyString
  | String c r =>
      match rstrip_with drop r with
      | EmptyString => if drop c then EmptyString else String c EmptyString
      | r' => String c r'
      end
  end.

Definition rstrip (s : string) : string := rstrip_with is_space s.

Definition rstrip_char (c : ascii) (s : string) : string :=
  rstrip_with (Ascii.eqb c) s.

(** [s.strip()] *)
Definition strip (s : string) : string := lstrip (rstrip s).

(** [s.replace(old, new)] for a one-character [old]. *)
Fixpoint replace (old : ascii) (new : string) (s : string) : string :=
  match s with
  | EmptyString => EmptyString
  | String c r =>
      if Ascii.eqb c old then (new ++ replace old new r)%string
      else String c (replace old new r)
  end.

(** [c in s] for a one-character [c]. *)
Fixpoint has_char (c : ascii) (s : string) : bool :=
  match s with
  | EmptyString => false
  | String d r => Ascii.eqb d c || has_char c r
  end.

(** [sub in s] *)
Fixpoint contains (sub s : string) : bool :=
  String.prefix sub s ||
  match s with
  | EmptyString => false
  | String _ r => contains sub r
  end.

(** [s.endswith(suffix)] *)
Fixpoint endswith (suffix s : string) : bool :=
  String.eqb s suffix ||
  match s with
  | EmptyString => false
  | String _ r => endswith suffix r
  end.

(** [c.lower()] for a code point below 256. *)
Definition lower_char (c : ascii) : ascii :=
  let n := N_of_ascii c in
  if ((65 <=? n) && (n <=? 90) || (192 <=? n) && (n <=? 222) && negb (n =? 215))%N
  then ascii_of_N (n + 32)
  else c.

(** [s.lower()] *)
Fixpoint lower (s : string) : string :=
  match s with
  | EmptyString => EmptyString
  | String c r => String (lower_char c) (lower r)
  end.

(** The decimal digits [0]..[9]: what [float], [int] and the regular
    expression class [\d] accept below 256. *)
Definition is_decimal (c : ascii) : bool :=
  let n := N_of_ascii c in ((48 <=? n) && (n <=? 57))%N.

(** [c.isdigit()] below 256 also holds for the superscripts two, three and
    one (178, 179, 185). *)
Definition is_digit_char (c : ascii) : bool :=
  let n := N_of_ascii c in
  is_decimal c || ((n =? 178) || (n =? 179) || (n =? 185))%N.

Fixpoint all_chars (p : ascii -> bool) (s : string) : bool :=
  match s with
  | EmptyString => true
  | String c r => p c && all_chars p r
  end.

(** [s.isdigit()]: at least one character, all of them digits. *)
Definition isdigit (s : string) : bool :=
  match s with
  | EmptyString => false
  | _ => all_chars is_digit_char s
  end.

(** [re.search(r'\d{1,2}:\d{2}', s)] finds a match exactly when some digit is
    followed by a colon and two digits (a second leading digit adds nothing
    to a search). *)
Fixpoint search_time (s : string) : bool :=
  match s with
  | EmptyString => false
  | String a r =>
      match r with
      | String b (String c (String d _)) =>
          is_decimal a && Ascii.eqb b ":" && is_decimal c && is_decimal d
      | _ => false
      end || search_time r
  end.

(** The character of a decimal digit, and the fixed-width decimal form that
    [strftime] uses for each field. *)
Definition digit_char (d : N) : ascii := ascii_of_N (48 + d mod 10).

Fixpoint fixed_digits (width : nat) (n : N) : string :=
  match width with
  | O => EmptyString
  | S w => (fixed_digits w (n / 10) ++ String (digit_char n) EmptyString)%string
  end.

End Text.

(* ================================================================== *)
(** * Python's [float(s)] *)
(* ================================================================== *)

Module PyFloat.
Import Text.

(** Underscores may only stand between two digits; they are removed before
    the number is read.  [prev] is the character just read. *)
Fixpoint remove_underscores (prev : ascii) (s : string) : option string :=
  match s with
  | EmptyString => if Ascii.eqb prev "_" then None else Some EmptyString
  | String c r =>
      if Ascii.eqb c "_" then
        if is_decimal prev then remove_underscores c r else None
      else if Ascii.eqb prev "_" && negb (is_decimal c) then None
      else option_map (String c) (remove_underscores c r)
  end.

Definition digit_value (c : ascii) : N := (N_of_ascii c - 48)%N.

(** The longest prefix of decimal digits, and what follows it. *)
Fixpoint take_digits (s : string) : list N * string :=
  match s with
  | String c r =>
      if is_decimal c
      then let (ds, t) := take_digits r in (digit_value c :: ds, t)
      else ([], s)
  | EmptyString => ([], s)
  end.

Definition digits_to_N (ds : list N) : N :=
  fold_left (fun acc d => (10 * acc + d)%N) ds 0%N.

Definition take_sign (s : string) : bool * string :=
  match s with
  | String "-" r => (true, r)
  | String "+" r => (false, r)
  | _ => (false, s)
  end.

(** What a float literal denotes before rounding: [mantissa * 10^exp10]. *)
Inductive literal :=
| LitNan
| LitInf
| LitDec (mantissa : N) (exp10 : Z).

Definition parse_exponent (s : string) : option Z :=
  match s with
  | EmptyString => Some 0%Z
  | String c r =>
      if Ascii.eqb (lower_char c) "e" then
        let (neg, r1) := take_sign r in
        match take_digits r1 with
        | ((_ :: _) as ds, EmptyString) =>
            let e := Z.of_N (digits_to_N ds) in
            Some (if neg then (- e)%Z else e)
        | _ => None
        end
      else None
  end.

(** [digits [. digits] [e [sign] digits]] with at least one mantissa digit. *)
Definition parse_decimal (s : string) : option literal :=
  let (ip, r1) := take_digits s in
  let (fp, r2) :=
    match r1 with
    | String "." r => take_digits r
    | _ => ([], r1)
    end in
  match ip ++ fp with
  | [] => None
  | ds =>
      match parse_exponent r2 with
      | Some e => Some (LitDec (digits_to_N ds) (e - Z.of_nat (List.length fp)))
      | None => None
      end
  end.

Definition parse_literal (s : string) : option (bool * literal) :=
  let (neg, r) := take_sign s in
  let l := lower r in
  if String.eqb l "inf" || String.eqb l "infinity" then Some (neg, LitInf)
  else if String.eqb l "nan" then Some (neg, LitNan)
  else option_map (pair neg) (parse_decimal r).

(** The binary64 number nearest to a literal (ties to even). *)
Definition round_literal (neg : bool) (l : literal) : spec_float :=
  match l with
  | LitNan => S754_nan
  | LitInf => S754_infinity neg
  | LitDec N0 _ => S754_zero neg
  | LitDec (Npos p) (Zneg k) =>
      SFdiv prec emax (S754_finite neg p 0) (S754_finite false (Pos.pow 10 k) 0)
  | LitDec (Npos p) Z0 => binary_round prec emax neg p 0
  | LitDec (Npos p) (Zpos k) => binary_round prec emax neg (p * Pos.pow 10 k) 0
  end.

(** [float(s)] on text without surrounding whitespace. *)
Definition parse (s : string) : option float :=
  match remove_underscores "000" s with
  | Some t =>
      option_map (fun '(neg, l) => SF2Prim (round_literal neg l)) (parse_literal t)
  | None => None
  end.

(** [float(s)]: [None] stands for [ValueError].  Every call of the source
    passes stripped text. *)
Definition py_float (s : string) : option float := parse (strip s).

End PyFloat.

(* ================================================================== *)
(** * Cells, frames and the external functions *)
(* ================================================================== *)

Import Text PyFloat.

(** A cell of a frame read by [pandas.read_csv]: text, an integer, a float
    (NaN is the missing marker) or a boolean. *)
Inductive cell :=
| CStr (s : string)
| CInt (z : Z)
| CFloat (f : float)
| CBool (b : bool).

(** The fields of a pandas timestamp that [strftime] prints. *)
Record Timestamp := {
  year : N; month : N; day : N;
  hour : N; minute : N; second : N; microsecond : N
}.

(** Outcome of [pd.to_datetime(text, errors='coerce')]: a timestamp, [NaT],
    or a [ValueError]/[TypeError]. *)
Inductive parsed :=
| Parsed (t : Timestamp)
| NaT
| ParseError.

(** A numpy scalar: a value of a series of numbers and what its statistics
    return, of dtype float64 (NaN is the missing marker), int64, uint64 or
    bool. *)
Inductive scalar :=
| Float64 (x : float)
| Int64 (z : Z)
| UInt64 (z : Z)
| Bool_ (b : bool).

(** The functions of Python and pandas that the program calls and that are
    not part of it. *)
Record External := {
  (** [str(x)] for a float [x] *)
  float_repr : float -> string;
  (** [pd.to_numeric] on one value: [None] when it cannot be read (an
      exception under [errors='raise'], NaN under [errors='coerce']),
      otherwise the number it is read as *)
  to_numeric : cell -> option scalar;
  (** [pd.to_datetime(text, errors='coerce')] *)
  to_datetime : string -> parsed;
  (** [pd.to_datetime(series, errors='coerce', infer_datetime_format=True)]:
      [None] when the call raises, otherwise one entry per value, itself
      [None] for [NaT] *)
  to_datetime_series : list cell -> option (list (option Timestamp));
  (** [Series.mean()], [.min()], [.max()], [.sum()] of a series of numbers:
      the result has the dtype pandas gives it (the minimum of booleans is a
      boolean, the sum of int64 values an int64, every mean a float64) *)
  series_mean : list scalar -> scalar;
  series_min : list scalar -> scalar;
  series_max : list scalar -> scalar;
  series_sum : list scalar -> scalar;
  (** [Series.nunique()] *)
  nunique : list cell -> nat
}.

(** A frame: its columns in order, each a label and the values of its rows.
    Labels may repeat. *)
Definition frame := list (string * list cell).

Definition columns (df : frame) : list string := map fst df.

(** [len(df)] *)
Definition nrows (df : frame) : nat :=
  match df with
  | [] => 0
  | (_, s) :: _ => List.length s
  end.

(** [df[label]] is a series when the label occurs once and a frame of all
    the columns that carry it otherwise. *)
Inductive selection :=
| Series (s : list cell)
| Frame (cols : list (list cell)).

Definition has_label (label : string) (p : string * list cell) : bool :=
  String.eqb (fst p) label.

Definition select (df : frame) (label : string) : selection :=
  match filter (has_label label) df with
  | [(_, s)] => Series s
  | l => Frame (map snd l)
  end.

(** [df[label] = s] for a label of [df]. *)
Definition assign (df : frame) (label : string) (s : list cell) : frame :=
  map (fun p => if String.eqb (fst p) label then (fst p, s) else p) df.

(** [pd.isna(value)] *)
Definition isna (value : cell) : bool :=
  match value with
  | CFloat f => is_nan f
  | _ => false
  end.

(** A missing value: null-like, or text that is empty or all whitespace. *)
Definition is_missing (value : cell) : bool :=
  isna value ||
  match value with
  | CStr s => String.eqb (strip s) ""
  | _ => false
  end.

(* ================================================================== *)
(** * [clean_column_headers] *)
(* ================================================================== *)

(** The chain of [.str.replace] calls, in order. *)
Definition header_rules : list (ascii * string) :=
  [ (" "%char, "_"); ("-"%char, "_");
    ("#"%char, "Num"); ("$"%char, "Dol"); ("%"%char, "pct");
    ("/"%char, ""); ("@"%char, ""); ("*"%char, ""); ("^"%char, "");
    ("&"%char, ""); ("("%char, ""); (")"%char, ""); ("{"%char, "");
    ("}"%char, ""); ("["%char, ""); ("]"%char, "") ].

Definition apply_rules (rules : list (ascii * string)) (s : string) : string :=
  fold_left (fun acc r => replace (fst r) (snd r) acc) rules s.

(** One label through [.str.strip()] and the replacements. *)
Definition clean_header (name : string) : string :=
  apply_rules header_rules (strip name).

Definition clean_column_headers (df : frame) : frame :=
  map (fun p => (clean_header (fst p), snd p)) df.

(* ================================================================== *)
(** * The value cleaners *)
(* ================================================================== *)

Section Cleaners.

Variable env : External.

(** [str(value)] *)
Definition py_str (value : cell) : string :=
  match value with
  | CStr s => s
  | CInt z => NilZero.string_of_int (Z.to_int z)
  | CFloat f => float_repr env f
  | CBool true => "True"
  | CBool false => "False"
  end.

(** [strftime] with the three formats of the source: every field has a
    fixed width and leading zeros (four digits for the year). *)
Definition strftime_date (d : Timestamp) : string :=
  (fixed_digits 4 (year d) ++ "-" ++ fixed_digits 2 (month d) ++ "-"
   ++ fixed_digits 2 (day d))%string.

Definition strftime_seconds (d : Timestamp) : string :=
  (strftime_date d ++ " " ++ fixed_digits 2 (hour d) ++ ":"
   ++ fixed_digits 2 (minute d) ++ ":" ++ fixed_digits 2 (second d))%string.

Definition strftime_micro (d : Timestamp) : string :=
  (strftime_seconds d ++ "." ++ fixed_digits 6 (microsecond d))%string.

Definition rate_terms : list string := ["pct"; "percent"; "rate"].

Definition date_keywords : list string :=
  [ "date"; "time"; "timestamp"; "datetime";
    "created"; "updated"; "modified"; "deleted";
    "start"; "end"; "due"; "expire"; "birth"; "dob" ].

Definition date_suffixes : list string := ["_at"; "_on"].

(** [any(term in column_name.lower() for term in ...)] *)
Definition is_rate_column (column_name : string) : bool :=
  existsb (fun term => contains term (lower column_name)) rate_terms.

Definition is_date_column (column_name : string) : bool :=
  existsb (fun keyword => contains keyword (lower column_name)) date_keywords
  || existsb (fun suffix => endswith suffix (lower column_name)) date_suffixes.

(** The first [try] block: the text is a float strictly between -1 and 1 and
    has a decimal point. *)
Definition is_small_decimal (value_str : string) : bool :=
  match py_float value_str with
  | Some float_val =>
      PrimFloat.ltb (-1) float_val && PrimFloat.ltb float_val 1
      && has_char "." value_str
  | None => false
  end.

Definition is_plain_8_digits (value_str : string) : bool :=
  isdigit value_str && Nat.eqb (String.length value_str) 8.

Definition format_date (has_time_in_original : bool) (d : Timestamp) : string :=
  if has_time_in_original then
    if (0 <? microsecond d)%N
    then rstrip_char "." (rstrip_char "0" (strftime_micro d))
    else strftime_seconds d
  else strftime_date d.

Definition detect_and_clean_dates (value : cell) (column_name : string) : cell :=
  if isna value || String.eqb (strip (py_str value)) "" then value
  else
    let value_str := strip (py_str value) in
    if is_rate_column column_name then value
    else if is_small_decimal value_str then value
    else if is_plain_8_digits value_str && negb (is_date_column column_name)
    then value
    else
      let has_time_in_original := search_time value_str in
      match to_datetime env value_str with
      | Parsed parsed_date => CStr (format_date has_time_in_original parsed_date)
      | NaT => value
      | ParseError => value
      end.

(** Both cleaners remove characters with [replace(c, '')] and strip. *)
Definition clean_currency_and_numbers (value : cell) : cell :=
  if isna value then value
  else
    let value_str := strip (py_str value) in
    let cleaned := strip (replace "," "" (replace "$" "" value_str)) in
    match py_float cleaned with
    | Some _ => CStr cleaned
    | None => value
    end.

Definition clean_percentage (value : cell) : cell :=
  if isna value then value
  else
    let value_str := strip (py_str value) in
    if has_char "%" value_str then
      let cleaned := strip (replace "," "" (replace "%" "" value_str)) in
      match py_float cleaned with
      | Some x => CFloat (x / 100)
      | None => CStr cleaned
      end
    else value.

(* ================================================================== *)
(** * The cleaning pipeline (the per-file body of [clean_csv_files]) *)
(* ================================================================== *)

(** [x.strip() if isinstance(x, str) else x] *)
Definition strip_cell (x : cell) : cell :=
  match x with
  | CStr s => CStr (strip s)
  | _ => x
  end.

(** [df.map(...)] *)
Definition strip_values (df : frame) : frame :=
  map (fun p => (fst p, map strip_cell (snd p))) df.

(** A column without rows. *)
Definition no_rows (s : list cell) : bool :=
  match s with
  | [] => true
  | _ :: _ => false
  end.

(** [df[col] = df[col].apply(f)].  When the label repeats, [df[col]] is a
    frame and [DataFrame.apply] passes whole series to [f], whose test
    [if pd.isna(value)] raises [ValueError]; the handler of [clean_csv_files]
    then gives up the file: [None].  A frame without rows is the exception:
    [DataFrame.apply] then calls [f] on an empty series only to see what it
    returns, ignores the error and returns a copy of the frame, so the
    assignment changes nothing.  A label that no column carries is a
    [KeyError]. *)
Definition apply_column (f : cell -> cell) (df : frame) (col : string)
  : option frame :=
  match select df col with
  | Series s => Some (assign df col (map f s))
  | Frame [] => None
  | Frame cols => if forallb no_rows cols then Some df else None
  end.

Definition parses_numeric (x : cell) : bool :=
  match to_numeric env x with
  | Some _ => true
  | None => false
  end.

(** The [try] around [pd.to_numeric(df[col], errors='raise')]: true when
    every value is read, false on [ValueError] or [TypeError]. *)
Definition is_numeric_column (df : frame) (col : string) : bool :=
  match select df col with
  | Series s => forallb (fun x => parses_numeric x) s
  | Frame _ => false
  end.

(** The body of [for col in df.columns]. *)
Definition clean_column (df : frame) (col : string) : option frame :=
  match apply_column clean_currency_and_numbers df col with
  | None => None
  | Some df1 =>
      match apply_column clean_percentage df1 col with
      | None => None
      | Some df2 =>
          if is_numeric_column df2 col then Some df2
          else apply_column (fun x => detect_and_clean_dates x col) df2 col
      end
  end.

(** One turn of the loop; an exception of an earlier turn has ended it. *)
Definition loop_step (acc : option frame) (col : string) : option frame :=
  match acc with
  | Some d => clean_column d col
  | None => None
  end.

Definition clean_columns (df : frame) : option frame :=
  fold_left loop_step (columns df) (Some df).

(** Header cleaning, whitespace stripping and the column loop, on a copy of
    the frame that was read. *)
Definition clean_frame (df_original : frame) : option frame :=
  clean_columns (strip_values (clean_column_headers df_original)).

End Cleaners.

(* ================================================================== *)
(** * [audit_dataframe] *)
(* ================================================================== *)

(** The exceptions of the audit: the two [ValueError]s pandas raises when a
    comparison involves the null counts of a frame instead of a series, and
    the [TypeError] of numpy when one boolean is subtracted from another. *)
Inductive exn :=
| AmbiguousTruthValue
| NotIdenticallyLabeled
| BooleanSubtract.

(** The [WARNING] lines of the log, with the values they print.  The other
    lines (the heading and the final PASS or FAIL line, which repeats
    [audit_passed]) are not kept. *)
Inductive warning :=
| RowCountMismatch (original cleaned : nat)
| ColumnCountMismatch (original cleaned : nat)
| NullCountChanged (col : string) (orig_nulls clean_nulls : nat)
| MeanChanged (col : string) (orig_mean clean_mean : scalar)
| MinChanged (col : string) (orig_min clean_min : scalar)
| MaxChanged (col : string) (orig_max clean_max : scalar)
| SumChanged (col : string) (orig_sum clean_sum : scalar)
| DateCountChanged (col : string) (orig_count clean_count : nat)
| MinDateChanged (col : string) (orig_date clean_date : N * N * N)
| MaxDateChanged (col : string) (orig_date clean_date : N * N * N)
| NonNullCountChanged (col : string) (orig_count clean_count : nat)
| UniqueCountChanged (col : string) (orig_unique clean_unique : nat)
| AuditError (col : string) (e : exn).

(** What the audit updates: the warnings written so far and [audit_passed]. *)
Record audit_state := {
  log : list warning;
  audit_passed : bool
}.

(** [write_log(log_path, "WARNING: ...")] followed by [audit_passed = False]. *)
Definition warn (w : warning) (st : audit_state) : audit_state :=
  {| log := log st ++ [w]; audit_passed := false |}.

Definition warn_if (b : bool) (w : warning) (st : audit_state) : audit_state :=
  if b then warn w st else st.

(** [a / b > 0.8] for two counts.  The quotient of the source is a binary64
    division; it exceeds the double 0.8 exactly when [5 * a > 4 * b], for
    every [b] below 10^15 (and [0 / 0] is NaN, which exceeds nothing). *)
Definition exceeds_80_percent (a b : nat) : bool := (4 * b <? 5 * a)%nat.

Definition tolerance : float := 0.01.

(** [abs(x - y) > tolerance] for two floats. *)
Definition differ (x y : float) : bool :=
  PrimFloat.ltb tolerance (PrimFloat.abs (x - y)).

(** Arithmetic of numpy scalars.  An int64 result wraps around, as does a
    uint64 one; an integer becomes the nearest float64 when the other
    operand is a float64, and int64 with uint64 gives float64. *)
Definition int64_wrap (z : Z) : Z := ((z + 2 ^ 63) mod 2 ^ 64 - 2 ^ 63)%Z.

Definition uint64_wrap (z : Z) : Z := (z mod 2 ^ 64)%Z.

Definition float_of_int (z : Z) : float :=
  SF2Prim (binary_normalize prec emax z 0 false).

Definition Z_of_bool (b : bool) : Z := if b then 1%Z else 0%Z.

Definition to_float64 (v : scalar) : float :=
  match v with
  | Float64 x => x
  | Int64 z => float_of_int z
  | UInt64 z => float_of_int z
  | Bool_ b => float_of_int (Z_of_bool b)
  end.

(** [x - y]: [None] is the [TypeError] of two booleans. *)
Definition scalar_sub (x y : scalar) : option scalar :=
  match x, y with
  | Bool_ _, Bool_ _ => None
  | Int64 a, Int64 b => Some (Int64 (int64_wrap (a - b)))
  | Int64 a, Bool_ b => Some (Int64 (int64_wrap (a - Z_of_bool b)))
  | Bool_ a, Int64 b => Some (Int64 (int64_wrap (Z_of_bool a - b)))
  | UInt64 a, UInt64 b => Some (UInt64 (uint64_wrap (a - b)))
  | UInt64 a, Bool_ b => Some (UInt64 (uint64_wrap (a - Z_of_bool b)))
  | Bool_ a, UInt64 b => Some (UInt64 (uint64_wrap (Z_of_bool a - b)))
  | _, _ => Some (Float64 (to_float64 x - to_float64 y))
  end.

(** [abs(v)] *)
Definition scalar_abs (v : scalar) : scalar :=
  match v with
  | Float64 x => Float64 (PrimFloat.abs x)
  | Int64 z => Int64 (int64_wrap (Z.abs z))
  | UInt64 z => UInt64 z
  | Bool_ b => Bool_ b
  end.

(** [v > tolerance]: the scalar is compared as a float64. *)
Definition exceeds_tolerance (v : scalar) : bool :=
  PrimFloat.ltb tolerance (to_float64 v).

(** [abs(x - y) > tolerance] for two statistics. *)
Definition differs (x y : scalar) : option bool :=
  match scalar_sub x y with
  | Some d => Some (exceeds_tolerance (scalar_abs d))
  | None => None
  end.

(** Timestamps in chronological order. *)
Definition ts_key (t : Timestamp) : N :=
  ((((((year t * 13 + month t) * 32 + day t) * 24 + hour t) * 60
      + minute t) * 61 + second t) * 1000000 + microsecond t)%N.

Definition ts_pick (better : N -> N -> bool) (acc : option Timestamp)
  (x : option Timestamp) : option Timestamp :=
  match acc, x with
  | Some a, Some t => if better (ts_key t) (ts_key a) then Some t else Some a
  | None, _ => x
  | _, None => acc
  end.

(** [dates.min()] and [dates.max()], which skip [NaT]. *)
Definition dates_min (l : list (option Timestamp)) : option Timestamp :=
  fold_left (ts_pick N.ltb) l None.

Definition dates_max (l : list (option Timestamp)) : option Timestamp :=
  fold_left (ts_pick (fun x y => N.ltb y x)) l None.

(** [timestamp.date()] *)
Definition date_of (t : option Timestamp) : N * N * N :=
  match t with
  | Some d => (year d, month d, day d)
  | None => (0, 0, 0)%N
  end.

Definition date_eqb (a b : N * N * N) : bool :=
  let '(y1, m1, d1) := a in
  let '(y2, m2, d2) := b in
  (y1 =? y2)%N && (m1 =? m2)%N && (d1 =? d2)%N.

Definition count {A : Type} (p : A -> bool) (l : list A) : nat :=
  List.length (filter p l).

(** [notna()] on a value of a numeric series. *)
Definition notna_scalar (v : scalar) : bool :=
  match v with
  | Float64 x => negb (is_nan x)
  | _ => true
  end.

Definition notna_date (d : option Timestamp) : bool :=
  match d with
  | Some _ => true
  | None => false
  end.

Section Audit.

Variable env : External.

(** [pd.to_numeric(series, errors='coerce')] *)
Definition to_numeric_coerce (s : list cell) : list scalar :=
  map (fun x => match to_numeric env x with Some v => v | None => Float64 nan end) s.

(** One [if abs(orig - clean) > tolerance] of the numeric block, unless an
    earlier one has raised: the state reached, and the exception when the
    subtraction raises. *)
Definition check (changed : scalar -> scalar -> warning) (orig clean : scalar)
  (r : audit_state * option exn) : audit_state * option exn :=
  match r with
  | (st, None) =>
      match differs orig clean with
      | Some b => (warn_if b (changed orig clean) st, None)
      | None => (st, Some BooleanSubtract)
      end
  | (_, Some _) => r
  end.

(** The comparisons of a numeric column.  The result is the state reached
    and the exception that ended the block, if any: what was written before
    it stays written. *)
Definition numeric_checks (clean_col : string) (orig_numeric clean_numeric : list scalar)
  (st : audit_state) : audit_state * option exn :=
  let orig_mean := series_mean env orig_numeric in
  let clean_mean := series_mean env clean_numeric in
  let orig_min := series_min env orig_numeric in
  let clean_min := series_min env clean_numeric in
  let orig_max := series_max env orig_numeric in
  let clean_max := series_max env clean_numeric in
  let orig_sum := series_sum env orig_numeric in
  let clean_sum := series_sum env clean_numeric in
  let r := check (MeanChanged clean_col) orig_mean clean_mean (st, None) in
  let r := check (MinChanged clean_col) orig_min clean_min r in
  let r := check (MaxChanged clean_col) orig_max clean_max r in
  check (SumChanged clean_col) orig_sum clean_sum r.

(** The comparisons of a date column. *)
Definition date_checks (clean_col : string)
  (orig_dates clean_dates : list (option Timestamp))
  (st : audit_state) : audit_state :=
  let orig_date_count := count notna_date orig_dates in
  let clean_date_count := count notna_date clean_dates in
  let st := warn_if (negb (Nat.eqb orig_date_count clean_date_count))
              (DateCountChanged clean_col orig_date_count clean_date_count) st in
  if Nat.ltb 0 orig_date_count && Nat.ltb 0 clean_date_count then
    let orig_min_date := date_of (dates_min orig_dates) in
    let clean_min_date := date_of (dates_min clean_dates) in
    let orig_max_date := date_of (dates_max orig_dates) in
    let clean_max_date := date_of (dates_max clean_dates) in
    let st := warn_if (negb (date_eqb orig_min_date clean_min_date))
                (MinDateChanged clean_col orig_min_date clean_min_date) st in
    warn_if (negb (date_eqb orig_max_date clean_max_date))
      (MaxDateChanged clean_col orig_max_date clean_max_date) st
  else st.

(** The comparisons of a string column. *)
Definition text_checks (clean_col : string) (orig_series clean_series : list cell)
  (st : audit_state) : audit_state :=
  let orig_unique := nunique env orig_series in
  let clean_unique := nunique env clean_series in
  let orig_count := count (fun x => negb (isna x)) orig_series in
  let clean_count := count (fun x => negb (isna x)) clean_series in
  let st := warn_if (negb (Nat.eqb orig_count clean_count))
              (NonNullCountChanged clean_col orig_count clean_count) st in
  warn_if (negb (Nat.eqb orig_unique clean_unique))
    (UniqueCountChanged clean_col orig_unique clean_unique) st.

(** The date block and the string checks.  The bare [except] of the date
    block hides a failing [pd.to_datetime] and lets the string checks run. *)
Definition later_checks (clean_col : string) (orig_series clean_series : list cell)
  (st : audit_state) : audit_state :=
  match to_datetime_series env orig_series, to_datetime_series env clean_series with
  | Some orig_dates, Some clean_dates =>
      if exceeds_80_percent (count notna_date orig_dates) (List.length orig_dates)
      then date_checks clean_col orig_dates clean_dates st
      else text_checks clean_col orig_series clean_series st
  | _, _ => text_checks clean_col orig_series clean_series st
  end.

(** The statements after the null-count check, for two series.  A numeric
    block that runs to its end is followed by [continue].  When one of its
    subtractions raises, its bare [except] passes: the state is the one
    reached, and the date block and the string checks follow as for a column
    that is not numeric. *)
Definition typed_checks (clean_col : string) (orig_series clean_series : list cell)
  (st : audit_state) : audit_state :=
  let orig_numeric := to_numeric_coerce orig_series in
  let clean_numeric := to_numeric_coerce clean_series in
  if exceeds_80_percent (count notna_scalar orig_numeric) (List.length orig_numeric)
  then
    match numeric_checks clean_col orig_numeric clean_numeric st with
    | (st, None) => st
    | (st, Some _) => later_checks clean_col orig_series clean_series st
    end
  else later_checks clean_col orig_series clean_series st.

(** The body of the outer [try], for one pair of labels.  The result is the
    state reached and the exception that left the block, if any.  With a
    repeated label the null counts are a series, and [if orig_nulls !=
    clean_nulls] raises before anything is written. *)
Definition column_checks (df_original df_cleaned : frame)
  (orig_col clean_col : string) (st : audit_state) : audit_state * option exn :=
  match select df_original orig_col, select df_cleaned clean_col with
  | Series orig_series, Series clean_series =>
      let orig_nulls := count isna orig_series in
      let clean_nulls := count isna clean_series in
      let st := warn_if (negb (Nat.eqb orig_nulls clean_nulls))
                  (NullCountChanged clean_col orig_nulls clean_nulls) st in
      (typed_checks clean_col orig_series clean_series st, None)
  | Frame orig_cols, Frame clean_cols =>
      if String.eqb orig_col clean_col
         && Nat.eqb (List.length orig_cols) (List.length clean_cols)
      then (st, Some AmbiguousTruthValue)
      else (st, Some NotIdenticallyLabeled)
  | _, _ => (st, Some AmbiguousTruthValue)
  end.

(** One turn of the loop: the [try] and its [except Exception]. *)
Definition audit_column (df_original df_cleaned : frame)
  (st : audit_state) (pair : string * string) : audit_state :=
  let (orig_col, clean_col) := pair in
  match column_checks df_original df_cleaned orig_col clean_col st with
  | (st', None) => st'
  | (st', Some e) => warn (AuditError clean_col e) st'
  end.

(** The checks before the loop. *)
Definition shape_checks (df_original df_cleaned : frame) : audit_state :=
  let st := {| log := []; audit_passed := true |} in
  let st := warn_if (negb (Nat.eqb (nrows df_original) (nrows df_cleaned)))
              (RowCountMismatch (nrows df_original) (nrows df_cleaned)) st in
  warn_if (negb (Nat.eqb (List.length (columns df_original))
                 (List.length (columns df_cleaned))))
    (ColumnCountMismatch (List.length (columns df_original))
       (List.length (columns df_cleaned))) st.

(** [audit_dataframe]: the warnings written to the log and the verdict. *)
Definition audit_dataframe (df_original df_cleaned : frame) : audit_state :=
  fold_left (audit_column df_original df_cleaned)
    (combine (columns df_original) (columns df_cleaned))
    (shape_checks df_original df_cleaned).

End Audit.

(* ================================================================== *)
(** * [clean_csv_files] *)
(* ================================================================== *)

(** What [pd.read_csv(input_path)] does with one entry of the input
    directory: it returns a frame or raises. *)
Inductive read_result :=
| ReadOk (df : frame)
| ReadFails (message : string).

(** The exception that the [try] of one file catches: the one of
    [pd.read_csv], or the [ValueError] of a repeated label in the column
    loop. *)
Inductive file_error :=
| ReadError (message : string)
| CleaningError.

(** What [clean_csv_files] writes to the log, in the order of the source.
    An alert and the list printed under it form one entry, and so do the
    heading of the log and the section that [audit_dataframe] writes; blank
    lines and rules are not kept. *)
Inductive log_entry :=
| LogHeading
| NoCsvFiles
| FoundFiles (n : nat)
| FileHeading (csv_file : string)
| OriginalDimensions (rows cols : nat)
| AutoHeaderAlert (unnamed_cols : list string)
| LongHeaderWarning (long_headers : list (string * nat))
| AuditSection (warnings : list warning) (passed : bool)
| CleanedDimensions (rows cols : nat)
| StatusSuccess
| OutputLine (csv_file : string)
| ErrorLine (e : file_error)
| Completed.

(** The log file and the files written to the output directory. *)
Record run_state := {
  run_log : list log_entry;
  written : list (string * frame)
}.

Definition write (entries : list log_entry) (st : run_state) : run_state :=
  {| run_log := run_log st ++ entries; written := written st |}.

(** [df.to_csv(output_path, index=False)], which is taken to succeed. *)
Definition save (csv_file : string) (df : frame) (st : run_state) : run_state :=
  {| run_log := run_log st; written := written st ++ [(csv_file, df)] |}.

(** [f.endswith('.csv')] *)
Definition is_csv (f : string) : bool := endswith ".csv" f.

(** [[col for col in df.columns if str(col).startswith('Unnamed:')]] *)
Definition unnamed_cols (df : frame) : list string :=
  filter (String.prefix "Unnamed:") (columns df).

(** [[col for col in df.columns if len(col) > 32]] *)
Definition long_headers (df : frame) : list string :=
  filter (fun col => Nat.ltb 32 (String.length col)) (columns df).

Section Orchestration.

Variable env : External.

(** The body of [for csv_file in csv_files], with its [try] and [except]. *)
Definition process_file (st : run_state) (entry : string * read_result)
  : run_state :=
  let (csv_file, r) := entry in
  let st := write [FileHeading csv_file] st in
  match r with
  | ReadFails message => write [ErrorLine (ReadError message)] st
  | ReadOk df_original =>
      let st := write [OriginalDimensions (nrows df_original)
                         (List.length (columns df_original))] st in
      let st := match unnamed_cols df_original with
                | [] => st
                | cols => write [AutoHeaderAlert cols] st
                end in
      let df := clean_column_headers df_original in
      let st := match long_headers df with
                | [] => st
                | hs => write [LongHeaderWarning
                                 (map (fun h => (h, String.length h)) hs)] st
                end in
      let df := strip_values df in
      match clean_columns env df with
      | None => write [ErrorLine CleaningError] st
      | Some df =>
          let audit := audit_dataframe env df_original df in
          let st := write [AuditSection (log audit) (audit_passed audit)] st in
          let st := save csv_file df st in
          write [CleanedDimensions (nrows df) (List.length (columns df));
                 StatusSuccess; OutputLine csv_file] st
      end
  end.

(** [clean_csv_files] on a listing of the input directory, each name with
    what reading it gives.  Creating the directories, the time stamps and
    the messages printed to the screen are left out. *)
Definition clean_csv_files (listing : list (string * read_result)) : run_state :=
  let st := write [LogHeading] {| run_log := []; written := [] |} in
  let csv_files := filter (fun entry => is_csv (fst entry)) listing in
  match csv_files with
  | [] => write [NoCsvFiles] st
  | _ =>
      let st := write [FoundFiles (List.length csv_files)] st in
      let st := fold_left process_file csv_files st in
      write [Completed] st
  end.

End Orchestration.

(* ================================================================== *)
(** * A reference instance of the external functions *)
(* ================================================================== *)

(** A small stand-in for pandas, used to run the program on concrete
    frames.  The theorems below quantify over every [External]. *)
Module Reference.

(** Text of an integer: digits after an optional sign. *)
Definition read_integer (s : string) : option Z :=
  let (neg, r) := take_sign s in
  match take_digits r with
  | ((_ :: _) as ds, EmptyString) =>
      let n := Z.of_N (digits_to_N ds) in
      Some (if neg then (- n)%Z else n)
  | _ => None
  end.

(** An integer in the first dtype that holds it. *)
Definition integer (z : Z) : scalar :=
  if ((- 2 ^ 63 <=? z) && (z <? 2 ^ 63))%Z then Int64 z
  else if ((0 <=? z) && (z <? 2 ^ 64))%Z then UInt64 z
  else Float64 (float_of_int z).

(** [pd.to_numeric] on one value: numbers and booleans as they are, the
    empty string as NaN, other text without underscores as an integer or
    through the float grammar. *)
Definition to_numeric (x : cell) : option scalar :=
  match x with
  | CStr s =>
      if String.eqb s "" then Some (Float64 nan)
      else if has_char "_" s then None
      else
        match read_integer (strip s) with
        | Some z => Some (integer z)
        | None => option_map Float64 (py_float s)
        end
  | CInt z => Some (integer z)
  | CFloat f => Some (Float64 f)
  | CBool b => Some (Bool_ b)
  end.

Definition number (ds : list N) : N := digits_to_N ds.

(** The layout of a date and of the time of day that follows it. *)
Inductive date_layout :=
| Dashed
| Slashed
| Compact.

Inductive time_layout :=
| NoTime
| Minutes
| Seconds.

Definition same_layout (a b : date_layout * time_layout) : bool :=
  match fst a, fst b with
  | Dashed, Dashed | Slashed, Slashed | Compact, Compact => true
  | _, _ => false
  end
  && match snd a, snd b with
     | NoTime, NoTime | Minutes, Minutes | Seconds, Seconds => true
     | _, _ => false
     end.

(** A time of day [H:MM] or [H:MM:SS] after one space, or nothing. *)
Definition read_time (s : string) : option (time_layout * (N * N * N)) :=
  match s with
  | EmptyString => Some (NoTime, (0, 0, 0)%N)
  | String " " r =>
      match take_digits r with
      | ((_ :: _) as h, String ":" r1) =>
          match take_digits r1 with
          | ([m1; m2], EmptyString) =>
              Some (Minutes, (number h, number [m1; m2], 0%N))
          | ([m1; m2], String ":" r2) =>
              match take_digits r2 with
              | ([s1; s2], EmptyString) =>
                  Some (Seconds, (number h, number [m1; m2], number [s1; s2]))
              | _ => None
              end
          | _ => None
          end
      | _ => None
      end
  | _ => None
  end.

Definition leap_year (y : N) : bool :=
  ((y mod 4 =? 0) && negb (y mod 100 =? 0) || (y mod 400 =? 0))%N.

Definition days_in_month (y m : N) : N :=
  if (m =? 2)%N then (if leap_year y then 29 else 28)%N
  else if ((m =? 4) || (m =? 6) || (m =? 9) || (m =? 11))%N then 30%N
  else 31%N.

Definition make_timestamp (y m d : N) (t : N * N * N) : option Timestamp :=
  let '(h, mi, s) := t in
  if ((1 <=? m) && (m <=? 12) && (1 <=? d) && (d <=? days_in_month y m)
      && (h <? 24) && (mi <? 60) && (s <? 60))%N
  then Some {| year := y; month := m; day := d;
               hour := h; minute := mi; second := s; microsecond := 0 |}
  else None.

Definition dated (l : date_layout) (y m d : N) (rest : string)
  : option ((date_layout * time_layout) * Timestamp) :=
  match read_time rest with
  | Some (tl, t) =>
      match make_timestamp y m d t with
      | Some ts => Some ((l, tl), ts)
      | None => None
      end
  | None => None
  end.

(** The layouts [YYYY-MM-DD] and [M/D/YYYY], each with an optional time of
    day, and [YYYYMMDD]. *)
Definition read_datetime (s : string)
  : option ((date_layout * time_layout) * Timestamp) :=
  match take_digits s with
  | ([y1; y2; y3; y4], String "-" r1) =>
      match take_digits r1 with
      | ([m1; m2], String "-" r2) =>
          match take_digits r2 with
          | ([d1; d2], r3) =>
              dated Dashed (number [y1; y2; y3; y4]) (number [m1; m2])
                (number [d1; d2]) r3
          | _ => None
          end
      | _ => None
      end
  | ([y1; y2; y3; y4; m1; m2; d1; d2], EmptyString) =>
      dated Compact (number [y1; y2; y3; y4]) (number [m1; m2])
        (number [d1; d2]) ""
  | ((_ :: _) as m, String "/" r1) =>
      match take_digits r1 with
      | ((_ :: _) as d, String "/" r2) =>
          match take_digits r2 with
          | ([y1; y2; y3; y4], r3) =>
              dated Slashed (number [y1; y2; y3; y4]) (number m) (number d) r3
          | _ => None
          end
      | _ => None
      end
  | _ => None
  end.

(** [pd.to_datetime] on text: a date in one of these layouts; anything else
    is [NaT]. *)
Definition to_datetime (s : string) : parsed :=
  match read_datetime s with
  | Some (_, t) => Parsed t
  | None => NaT
  end.

Definition epoch : Timestamp :=
  {| year := 1970; month := 1; day := 1;
     hour := 0; minute := 0; second := 0; microsecond := 0 |}.

(** The layout that the first value of a series shows, if it is a date:
    the other texts are then read in that layout only. *)
Definition guessed_layout (s : list cell) : option (date_layout * time_layout) :=
  match filter (fun x => negb (is_missing x)) s with
  | CStr t :: _ => option_map fst (read_datetime t)
  | _ => None
  end.

(** One value of a series: text as above, a number as nanoseconds since the
    epoch (here always less than a microsecond after it). *)
Definition datetime_of_cell (guess : option (date_layout * time_layout)) (x : cell)
  : option Timestamp :=
  match x with
  | CStr s =>
      match read_datetime s, guess with
      | Some (l, t), Some g => if same_layout l g then Some t else None
      | Some (_, t), None => Some t
      | None, _ => None
      end
  | CFloat f => if is_nan f then None else Some epoch
  | CInt _ => Some epoch
  | CBool _ => None
  end.

Definition is_bool (x : cell) : bool :=
  match x with
  | CBool _ => true
  | _ => false
  end.

(** A series of booleans has a dtype that is not convertible: the call
    raises.  In any other series a boolean becomes [NaT]. *)
Definition to_datetime_series (s : list cell) : option (list (option Timestamp)) :=
  match s with
  | _ :: _ =>
      if forallb is_bool s then None
      else Some (map (datetime_of_cell (guessed_layout s)) s)
  | [] => Some []
  end.

(** The dtype of a series of numbers: bool or an integer dtype when every
    value is of that kind, float64 otherwise. *)
Inductive dtype :=
| DFloat
| DInt
| DUInt
| DBool.

Definition dtype_of (l : list scalar) : dtype :=
  match l with
  | [] => DFloat
  | _ :: _ =>
      if forallb (fun v => match v with Bool_ _ => true | _ => false end) l
      then DBool
      else if forallb (fun v => match v with
                                | Int64 _ | Bool_ _ => true
                                | _ => false
                                end) l
      then DInt
      else if forallb (fun v => match v with
                                | UInt64 _ | Bool_ _ => true
                                | Int64 z => (0 <=? z)%Z
                                | Float64 _ => false
                                end) l
      then DUInt
      else DFloat
  end.

Definition to_Z (v : scalar) : Z :=
  match v with
  | Int64 z => z
  | UInt64 z => z
  | Bool_ b => Z_of_bool b
  | Float64 _ => 0%Z
  end.

(** The values that are not NaN, as floats. *)
Definition present (l : list scalar) : list float :=
  filter (fun f => negb (is_nan f)) (map to_float64 l).

Definition float_sum (l : list scalar) : float :=
  fold_left PrimFloat.add (present l) 0%float.

Definition integer_sum (l : list scalar) : Z :=
  fold_left Z.add (map to_Z l) 0%Z.

Definition series_sum (l : list scalar) : scalar :=
  match dtype_of l with
  | DFloat => Float64 (float_sum l)
  | DUInt => UInt64 (uint64_wrap (integer_sum l))
  | DInt | DBool => Int64 (int64_wrap (integer_sum l))
  end.

Definition series_mean (l : list scalar) : scalar :=
  Float64 (float_sum l / float_of_int (Z.of_nat (List.length (present l)))).

Definition pick {A : Type} (better : A -> A -> bool) (none : A) (l : list A) : A :=
  match l with
  | [] => none
  | x :: r => fold_left (fun a b => if better b a then b else a) r x
  end.

Definition extreme (below : bool) (l : list scalar) : scalar :=
  match dtype_of l with
  | DFloat =>
      Float64 (pick (fun b a => if below then PrimFloat.ltb b a else PrimFloat.ltb a b)
                 nan (present l))
  | DBool =>
      Bool_ (if below
             then forallb (fun v => (to_Z v =? 1)%Z) l
             else existsb (fun v => (to_Z v =? 1)%Z) l)
  | DInt =>
      Int64 (pick (fun b a => if below then (b <? a)%Z else (a <? b)%Z) 0%Z
               (map to_Z l))
  | DUInt =>
      UInt64 (pick (fun b a => if below then (b <? a)%Z else (a <? b)%Z) 0%Z
                (map to_Z l))
  end.

Definition series_min (l : list scalar) : scalar := extreme true l.

Definition series_max (l : list scalar) : scalar := extreme false l.

(** Python equality of two cells. *)
Definition cell_eqb (a b : cell) : bool :=
  match a, b with
  | CStr s, CStr t => String.eqb s t
  | CStr _, _ | _, CStr _ => false
  | _, _ =>
      match to_numeric a, to_numeric b with
      | Some x, Some y => PrimFloat.eqb (to_float64 x) (to_float64 y)
      | _, _ => false
      end
  end.

Fixpoint distinct (l : list cell) : list cell :=
  match l with
  | [] => []
  | x :: r => x :: filter (fun y => negb (cell_eqb x y)) (distinct r)
  end.

Definition nunique (l : list cell) : nat :=
  List.length (distinct (filter (fun x => negb (isna x)) l)).

(** [repr] of a float: the shortest decimal whose nearest float is the
    float itself, found by rounding the exact value to 1, 2, ... 17 digits,
    and printed the way Python prints it. *)
Definition ge_pow10 (num den : N) (k : Z) : bool :=
  match k with
  | Zneg p => (den <=? num * 10 ^ Npos p)%N
  | _ => (10 ^ Z.to_N k * den <=? num)%N
  end.

(** The [k] with [10^k <= num/den < 10^(k+1)]. *)
Definition decimal_exponent (num den : N) : Z :=
  let est := ((Z.of_N (N.log2 num) - Z.of_N (N.log2 den)) * 30103 / 100000)%Z in
  if ge_pow10 num den (est + 1) then (est + 1)%Z
  else if ge_pow10 num den est then est
  else (est - 1)%Z.

(** The integer nearest to [num * 10^s / den], ties to even. *)
Definition scaled_round (num den : N) (s : Z) : N :=
  let a := match s with Zneg _ => num | _ => (num * 10 ^ Z.to_N s)%N end in
  let b := match s with Zneg p => (den * 10 ^ Npos p)%N | _ => den end in
  let q := (a / b)%N in
  match (2 * (a mod b) ?= b)%N with
  | Lt => q
  | Gt => (q + 1)%N
  | Eq => if N.even q then q else (q + 1)%N
  end.

(** The digits and the position of the decimal point. *)
Fixpoint shortest (fuel : nat) (n : N) (num den : N) (k : Z) (target : spec_float)
  : N * Z :=
  let d := scaled_round num den (Z.of_N n - 1 - k) in
  let '(d', k') :=
    if (d =? 10 ^ n)%N then ((10 ^ (n - 1))%N, (k + 1)%Z) else (d, k) in
  match fuel with
  | O => (d', (k' + 1)%Z)
  | S fuel' =>
      if SFeqb (round_literal false (LitDec d' (k' - Z.of_N n + 1))) target
      then (d', (k' + 1)%Z)
      else shortest fuel' (n + 1) num den k target
  end.

Definition digits_of (n : N) : string := NilZero.string_of_uint (N.to_uint n).

Definition zeros (k : Z) : string := fixed_digits (Z.to_nat k) 0.

Definition print_digits (ds : string) (decpt : Z) : string :=
  let n := Z.of_nat (String.length ds) in
  if ((decpt <=? -4) || (16 <? decpt))%Z then
    let e := (decpt - 1)%Z in
    (String.substring 0 1 ds
     ++ (if (1 <? n)%Z then "." ++ String.substring 1 (String.length ds - 1) ds else "")
     ++ (if (e <? 0)%Z then "e-" else "e+")
     ++ (if (Z.abs e <? 10)%Z then "0" else "")
     ++ digits_of (Z.to_N (Z.abs e)))%string
  else if (decpt <=? 0)%Z then ("0." ++ zeros (- decpt) ++ ds)%string
  else if (decpt <? n)%Z then
    (String.substring 0 (Z.to_nat decpt) ds ++ "."
     ++ String.substring (Z.to_nat decpt) (String.length ds - Z.to_nat decpt) ds)%string
  else (ds ++ zeros (decpt - n) ++ ".0")%string.

Definition float_repr (f : float) : string :=
  match Prim2SF f with
  | S754_nan => "nan"
  | S754_zero false => "0.0"
  | S754_zero true => "-0.0"
  | S754_infinity false => "inf"
  | S754_infinity true => "-inf"
  | S754_finite s m e =>
      let num := match e with Zneg _ => Npos m | _ => (Npos m * 2 ^ Z.to_N e)%N end in
      let den := match e with Zneg p => (2 ^ Npos p)%N | _ => 1%N end in
      let '(d, decpt) :=
        shortest 17 1 num den (decimal_exponent num den) (S754_finite false m e) in
      ((if s then "-" else "") ++ print_digits (digits_of d) decpt)%string
  end.

Definition env : External :=
  Build_External float_repr to_numeric to_datetime to_datetime_series
    series_mean series_min series_max series_sum nunique.

End Reference.

(* ================================================================== *)
(** * Notions used to state the properties *)
(* ================================================================== *)

Definition empty_state : audit_state := {| log := []; audit_passed := true |}.

(** A state after more warnings: the verdict stays [true] only when there
    are none. *)
Definition extend (ws : list warning) (st : audit_state) : audit_state :=
  {| log := log st ++ ws;
     audit_passed := audit_passed st && match ws with [] => true | _ => false end |}.

(** The role the audit gives a column. *)
Inductive role :=
| Numeric
| Date
| Text.

(** A character that can stand in text that [float] accepts: a digit, a
    sign, the point, the underscore, and the letters of an exponent, of
    [inf], [infinity] and [nan] in either case. *)
Definition literal_char (c : ascii) : bool :=
  is_decimal c || has_char (lower_char c) "+-._einfatyn".

(** A statistic that is the float NaN. *)
Definition scalar_is_nan (v : scalar) : bool := negb (notna_scalar v).

(** The two values a numeric warning reports. *)
Definition reported (w : warning) : option (scalar * scalar) :=
  match w with
  | MeanChanged _ a b | MinChanged _ a b | MaxChanged _ a b | SumChanged _ a b =>
      Some (a, b)
  | _ => None
  end.

(** The column that a warning of the per-column comparisons names. *)
Definition compared_column (w : warning) : option string :=
  match w with
  | NullCountChanged col _ _
  | MeanChanged col _ _ | MinChanged col _ _ | MaxChanged col _ _
  | SumChanged col _ _
  | DateCountChanged col _ _ | MinDateChanged col _ _ | MaxDateChanged col _ _
  | NonNullCountChanged col _ _ | UniqueCountChanged col _ _ => Some col
  | RowCountMismatch _ _ | ColumnCountMismatch _ _ | AuditError _ _ => None
  end.

(** The entries of the log that end the processing of a file. *)
Definition is_status (e : log_entry) : bool :=
  match e with
  | StatusSuccess | ErrorLine _ => true
  | _ => false
  end.

Definition is_success (e : log_entry) : bool :=
  match e with
  | StatusSuccess => true
  | _ => false
  end.

(** The statistic a warning reports. *)
Definition warning_role (w : warning) : option role :=
  match w with
  | MeanChanged _ _ _ | MinChanged _ _ _ | MaxChanged _ _ _ | SumChanged _ _ _ =>
      Some Numeric
  | DateCountChanged _ _ _ | MinDateChanged _ _ _ | MaxDateChanged _ _ _ =>
      Some Date
  | NonNullCountChanged _ _ _ | UniqueCountChanged _ _ _ => Some Text
  | _ => None
  end.

Section Notions.

Variable env : External.

(** The text the cleaners look at: [str(value).strip()]. *)
Definition text_of (value : cell) : string := strip (py_str env value).

(** What both numeric cleaners try to read: the text without the listed
    character and without commas. *)
Definition without (c : ascii) (value_str : string) : string :=
  strip (replace "," "" (replace c "" value_str)).

(** The three cleaners on one cell of a column, as the loop body applies
    them to a whole series. *)
Definition clean_series (col : string) (s : list cell) : list cell :=
  let s2 := map (clean_percentage env) (map (clean_currency_and_numbers env) s) in
  if forallb (parses_numeric env) s2 then s2
  else map (fun x => detect_and_clean_dates env x col) s2.

(** A column once the loop has gone through the labels [ls]. *)
Definition cleaned_if (ls : list string) (p : string * list cell)
  : string * list cell :=
  if existsb (String.eqb (fst p)) ls
  then (fst p, clean_series (fst p) (snd p))
  else p.

(** One column of the cleaned frame, from the column that was read. *)
Definition cleaned_column (p : string * list cell) : string * list cell :=
  (clean_header (fst p),
   clean_series (clean_header (fst p)) (map strip_cell (snd p))).

(** The column after the currency and the percentage cleaner. *)
Definition before_dates (s : list cell) : list cell :=
  map (clean_percentage env)
    (map (clean_currency_and_numbers env) (map strip_cell s)).

(** The gate of the date detector for one column [p] of the frame that was
    read and the column [p'] that cleaning made of it. *)
Definition gate_respected (p p' : string * list cell) : Prop :=
  let col := clean_header (fst p) in
  let s2 := before_dates (snd p) in
  fst p' = col
  /\ (forallb (parses_numeric env) s2 = true -> snd p' = s2)
  /\ (existsb (fun x => negb (parses_numeric env x)) s2 = true ->
      snd p' = map (fun x => detect_and_clean_dates env x col) s2).


(** Values of a column that [pd.to_numeric] reads as a number, and entries
    of a converted column that are dates. *)
Definition numeric_hits (s : list cell) : nat :=
  count notna_scalar (to_numeric_coerce env s).

(** The role as the audit decides it: both fractions are taken over all the
    rows of the column. *)
Definition role_by_rows (orig_series clean_series : list cell) : role :=
  if (4 * List.length orig_series <? 5 * numeric_hits orig_series)%nat then Numeric
  else
    match to_datetime_series env orig_series, to_datetime_series env clean_series with
    | Some orig_dates, Some _ =>
        if (4 * List.length orig_dates <? 5 * count notna_date orig_dates)%nat
        then Date else Text
    | _, _ => Text
    end.

(** The role with both fractions taken over the values that are not
    missing. *)
Definition role_by_present_values (orig_series : list cell) : role :=
  let present := count (fun x => negb (is_missing x)) orig_series in
  if (4 * present <? 5 * numeric_hits orig_series)%nat then Numeric
  else
    match to_datetime_series env orig_series with
    | Some orig_dates =>
        if (4 * present <? 5 * count notna_date orig_dates)%nat then Date else Text
    | None => Text
    end.

(** A frame that the column loop gets through: a column whose cleaned header
    is also that of another column has no rows. *)
Definition cleanable (df : frame) : Prop :=
  Forall (fun p =>
            count_occ string_dec (map clean_header (columns df))
              (clean_header (fst p)) = 1
            \/ snd p = []) df.

(** No label among the first [k] occurs again after them. *)
Definition prefix_apart (k : nat) (labels : list string) : Prop :=
  forall l, In l (firstn k labels) -> ~ In l (skipn k labels).



(** What one entry of the listing adds to the output directory. *)
Definition file_output (entry : string * read_result) : list (string * frame) :=
  match snd entry with
  | ReadOk df_original =>
      match clean_frame env df_original with
      | Some df => [(fst entry, df)]
      | None => []
      end
  | ReadFails _ => []
  end.

(** The warnings of each family of checks, as lists. *)
Definition emit (b : bool) (w : warning) : list warning :=
  if b then [w] else [].

(** The statistics the numeric block compares, in its order. *)
Definition statistics (clean_col : string) (orig_numeric clean_numeric : list scalar)
  : list ((scalar -> scalar -> warning) * scalar * scalar) :=
  [ (MeanChanged clean_col, series_mean env orig_numeric, series_mean env clean_numeric);
    (MinChanged clean_col, series_min env orig_numeric, series_min env clean_numeric);
    (MaxChanged clean_col, series_max env orig_numeric, series_max env clean_numeric);
    (SumChanged clean_col, series_sum env orig_numeric, series_sum env clean_numeric) ].

(** The warnings of the comparisons up to the first one that raises, and
    whether one does. *)
Fixpoint until_raise (l : list ((scalar -> scalar -> warning) * scalar * scalar))
  : list warning * bool :=
  match l with
  | [] => ([], false)
  | (changed, orig, clean) :: rest =>
      match differs orig clean with
      | None => ([], true)
      | Some b =>
          (emit b (changed orig clean) ++ fst (until_raise rest),
           snd (until_raise rest))
      end
  end.

Definition numeric_warnings (clean_col : string)
  (orig_numeric clean_numeric : list scalar) : list warning :=
  fst (until_raise (statistics clean_col orig_numeric clean_numeric)).

(** A comparison of the numeric block raises. *)
Definition numeric_raises (clean_col : string)
  (orig_numeric clean_numeric : list scalar) : bool :=
  snd (until_raise (statistics clean_col orig_numeric clean_numeric)).

(** Two statistics that cannot be subtracted: both are booleans. *)
Definition both_boolean (t : (scalar -> scalar -> warning) * scalar * scalar) : Prop :=
  exists a b, snd (fst t) = Bool_ a /\ snd t = Bool_ b.

Definition date_warnings (clean_col : string)
  (orig_dates clean_dates : list (option Timestamp)) : list warning :=
  let orig_date_count := count notna_date orig_dates in
  let clean_date_count := count notna_date clean_dates in
  emit (negb (Nat.eqb orig_date_count clean_date_count))
    (DateCountChanged clean_col orig_date_count clean_date_count)
  ++ if Nat.ltb 0 orig_date_count && Nat.ltb 0 clean_date_count then
       emit (negb (date_eqb (date_of (dates_min orig_dates))
                            (date_of (dates_min clean_dates))))
         (MinDateChanged clean_col (date_of (dates_min orig_dates))
            (date_of (dates_min clean_dates)))
       ++ emit (negb (date_eqb (date_of (dates_max orig_dates))
                               (date_of (dates_max clean_dates))))
            (MaxDateChanged clean_col (date_of (dates_max orig_dates))
               (date_of (dates_max clean_dates)))
     else [].

Definition text_warnings (clean_col : string)
  (orig_series clean_series : list cell) : list warning :=
  let orig_count := count (fun x => negb (isna x)) orig_series in
  let clean_count := count (fun x => negb (isna x)) clean_series in
  emit (negb (Nat.eqb orig_count clean_count))
    (NonNullCountChanged clean_col orig_count clean_count)
  ++ emit (negb (Nat.eqb (nunique env orig_series) (nunique env clean_series)))
       (UniqueCountChanged clean_col (nunique env orig_series)
          (nunique env clean_series)).

(** The role of a column that is not audited as numeric. *)
Definition later_role (orig_series clean_series : list cell) : role :=
  match to_datetime_series env orig_series, to_datetime_series env clean_series with
  | Some orig_dates, Some _ =>
      if (4 * List.length orig_dates <? 5 * count notna_date orig_dates)%nat
      then Date else Text
  | _, _ => Text
  end.

(** The warnings of the date block or of the string checks. *)
Definition later_warnings (clean_col : string) (orig_series clean_series : list cell)
  : list warning :=
  match later_role orig_series clean_series with
  | Date =>
      match to_datetime_series env orig_series,
            to_datetime_series env clean_series with
      | Some orig_dates, Some clean_dates =>
          date_warnings clean_col orig_dates clean_dates
      | _, _ => []
      end
  | _ => text_warnings clean_col orig_series clean_series
  end.

(** The comparisons that follow from the role of a column.  For a numeric
    column whose comparison raises, the warnings written before the
    exception are followed by those of the date block or the string
    checks. *)
Definition role_warnings (clean_col : string) (orig_series clean_series : list cell)
  : list warning :=
  match role_by_rows orig_series clean_series with
  | Numeric =>
      numeric_warnings clean_col (to_numeric_coerce env orig_series)
        (to_numeric_coerce env clean_series)
      ++ if numeric_raises clean_col (to_numeric_coerce env orig_series)
              (to_numeric_coerce env clean_series)
         then later_warnings clean_col orig_series clean_series
         else []
  | _ => later_warnings clean_col orig_series clean_series
  end.

(** The warnings one pair of labels adds to the log. *)
Definition column_warnings (df_original df_cleaned : frame)
  (pair : string * string) : list warning :=
  log (audit_column env df_original df_cleaned empty_state pair).

End Notions.

(* ================================================================== *)
(** * Frames used in the examples *)
(* ================================================================== *)

Module Examples.

(** The table of the end-to-end scenario and its cleaned form. *)
Definition sales : frame :=
  [ ("Date", [CStr "1/1/2024"; CStr "1/2/2024"]);
    ("Revenue", [CStr "$1,000"; CStr "$2,500"]);
    ("Growth_pct", [CStr "5%"; CStr "-3%"]) ].

Definition sales_cleaned : frame :=
  [ ("Date", [CStr "2024-01-01"; CStr "2024-01-02"]);
    ("Revenue", [CStr "1000"; CStr "2500"]);
    ("Growth_pct", [CFloat 0.05; CFloat (-0.03)]) ].



(** Three numbers and one missing value, and the same column with one number
    changed a hundredfold. *)
Definition scores : list cell := [CFloat 1; CFloat 2; CFloat 3; CFloat nan].

Definition scores_changed : list cell :=
  [CFloat 1; CFloat 2; CFloat 300; CFloat nan].

(** A column of booleans, and the same column with one value changed. *)
Definition flags : list cell := [CBool true; CBool false].

Definition flags_changed : list cell := [CBool true; CBool true].







(** Two headers that clean to the same label. *)
Definition collided : frame :=
  [("a b", [CStr "u"]); ("a_b", [CStr "v"]); ("c", [CStr "w"])].

Definition collided_cleaned : frame :=
  [("a_b", [CStr "u"]); ("a_b", [CStr "v"]); ("c", [CStr "w"])].

(** Frames with two and with three columns; in [wide_repeated] the third
    column carries the label of the first. *)
Definition narrow : frame := [("a_b", [CStr "u"]); ("c", [CStr "v"])].

Definition wide : frame :=
  [("a_b", [CStr "u"]); ("c", [CStr "v"]); ("d", [CStr "w"])].

Definition wide_repeated : frame :=
  [("a_b", [CStr "u"]); ("c", [CStr "v"]); ("a_b", [CStr "w"])].

(** Four columns; the label that comes twice is not one of the first two. *)
Definition wide_twice : frame :=
  [("a_b", [CStr "u"]); ("c", [CStr "v"]); ("d", [CStr "w"]); ("d", [CStr "x"])].

(** Two headers that clean to the same label, in a table without rows. *)
Definition collided_empty : frame := [("a b", []); ("a_b", [])].

(** A price written with and without the dollar sign. *)
Definition prices : frame := [("Price", [CStr "$1"; CStr "1"])].

Definition prices_cleaned : frame := [("Price", [CStr "1"; CStr "1"])].

(** A numeric column and the same column with one value a hundredfold. *)
Definition counts : frame := [("n", [CStr "1"; CStr "2"])].

Definition counts_changed : frame := [("n", [CStr "1"; CStr "200"])].

(** A header of 39 characters, with a percent sign. *)
Definition surveyed : frame :=
  [("Share of revenue (%) from new customers", [CStr "5%"; CStr "about 5%"])].

Definition surveyed_cleaned : frame :=
  [("Share_of_revenue_pct_from_new_customers", [CFloat 0.05; CStr "about 5"])].

(** An input directory: two tables that clean, a file that is no table, and
    a table whose headers collide. *)
Definition folder : list (string * read_result) :=
  [ ("sales.csv", ReadOk sales);
    ("notes.txt", ReadFails "not a table");
    ("collided.csv", ReadOk collided);
    ("prices.csv", ReadOk prices) ].

End Examples.

(* ================================================================== *)
(** * Facts about the string operations *)
(* ================================================================== *)

Module TextFacts.

Lemma rstrip_with_cons drop c r :
  rstrip_with drop (String c r) =
  match rstrip_with drop r with
  | EmptyString => if drop c then EmptyString else String c EmptyString
  | r' => String c r'
  end.
Proof. reflexivity. Qed.

Lemma lstrip_idem s : lstrip (lstrip s) = lstrip s.
Proof.
  induction s as [|c r IH]; simpl; [reflexivity|].
  destruct (is_space c) eqn:E; [exact IH|].
  simpl. now rewrite E.
Qed.

Lemma rstrip_with_idem drop s :
  rstrip_with drop (rstrip_with drop s) = rstrip_with drop s.
Proof.
  induction s as [|c r IH]; [reflexivity|].
  rewrite rstrip_with_cons.
  destruct (rstrip_with drop r) as [|d r'] eqn:E.
  - destruct (drop c) eqn:D; [reflexivity|].
    simpl. now rewrite D.
  - rewrite rstrip_with_cons, IH. reflexivity.
Qed.

Lemma rstrip_lstrip s : rstrip (lstrip s) = lstrip (rstrip s).
Proof.
  unfold rstrip.
  induction s as [|c r IH]; [reflexivity|].
  rewrite rstrip_with_cons. simpl lstrip at 1.
  destruct (is_space c) eqn:E.
  - rewrite IH. destruct (rstrip_with is_space r); simpl; now rewrite ?E.
  - rewrite rstrip_with_cons.
    destruct (rstrip_with is_space r); simpl; now rewrite E.
Qed.

Lemma strip_idem s : strip (strip s) = strip s.
Proof.
  unfold strip.
  rewrite rstrip_lstrip.
  unfold rstrip. rewrite rstrip_with_idem.
  apply lstrip_idem.
Qed.

Lemma append_assoc (a b c : string) :
  ((a ++ b) ++ c)%string = (a ++ (b ++ c))%string.
Proof. induction a as [|x a IH]; cbn; [reflexivity|now rewrite IH]. Qed.

Lemma has_char_app c a b :
  has_char c (a ++ b)%string = has_char c a || has_char c b.
Proof.
  induction a as [|d r IH]; simpl; [reflexivity|].
  now rewrite IH, orb_assoc.
Qed.

Lemma has_char_lstrip_false c s :
  has_char c s = false -> has_char c (lstrip s) = false.
Proof.
  induction s as [|d r IH]; simpl; [easy|].
  intros H. apply orb_false_iff in H as [H1 H2].
  destruct (is_space d); [auto|]. simpl. now rewrite H1, H2.
Qed.

Lemma has_char_rstrip_with_false drop c s :
  has_char c s = false -> has_char c (rstrip_with drop s) = false.
Proof.
  induction s as [|d r IH]; [easy|].
  rewrite rstrip_with_cons. simpl. intros H.
  apply orb_false_iff in H as [H1 H2]. specialize (IH H2).
  destruct (rstrip_with drop r).
  - destruct (drop d); simpl; now rewrite ?H1.
  - simpl in *. now rewrite H1, IH.
Qed.

Lemma has_char_strip_false c s :
  has_char c s = false -> has_char c (strip s) = false.
Proof.
  intros H. apply has_char_lstrip_false, has_char_rstrip_with_false, H.
Qed.

Lemma has_char_replace_false c old new s :
  has_char c s = false -> has_char c new = false ->
  has_char c (replace old new s) = false.
Proof.
  intros Hs Hn. induction s as [|d r IH]; [reflexivity|].
  simpl in *. apply orb_false_iff in Hs as [H1 H2].
  destruct (Ascii.eqb d old).
  - now rewrite has_char_app, Hn, IH.
  - simpl. now rewrite H1, IH.
Qed.

Lemma has_char_replace_self old new s :
  has_char old new = false -> has_char old (replace old new s) = false.
Proof.
  intros Hn. induction s as [|d r IH]; [reflexivity|].
  simpl. destruct (Ascii.eqb d old) eqn:E.
  - now rewrite has_char_app, Hn, IH.
  - simpl. now rewrite E, IH.
Qed.

Lemma replace_absent old new s :
  has_char old s = false -> replace old new s = s.
Proof.
  induction s as [|d r IH]; [reflexivity|].
  simpl. intros H. apply orb_false_iff in H as [H1 H2].
  now rewrite H1, IH.
Qed.

Lemma has_char_lstrip_true c s :
  is_space c = false -> has_char c s = true -> has_char c (lstrip s) = true.
Proof.
  intros Hc. induction s as [|d r IH]; simpl; [easy|].
  intros H. destruct (is_space d) eqn:E; [|exact H].
  apply orb_true_iff in H as [H|H]; [|auto].
  apply Ascii.eqb_eq in H. congruence.
Qed.

Lemma has_char_rstrip_with_true drop c s :
  drop c = false -> has_char c s = true ->
  has_char c (rstrip_with drop s) = true.
Proof.
  intros Hc. induction s as [|d r IH]; [easy|].
  rewrite rstrip_with_cons. simpl. intros H.
  destruct (Ascii.eqb d c) eqn:E.
  - apply Ascii.eqb_eq in E. subst d.
    destruct (rstrip_with drop r); [rewrite Hc|]; simpl; now rewrite Ascii.eqb_refl.
  - simpl in H. specialize (IH H).
    destruct (rstrip_with drop r) as [|a t]; [discriminate|].
    change (Ascii.eqb d c || has_char c (String a t) = true).
    now rewrite IH, orb_true_r.
Qed.

(** Removing a visible character and stripping: stripping first changes
    nothing. *)
Lemma lstrip_remove_lstrip c s :
  is_space c = false ->
  lstrip (replace c "" (lstrip s)) = lstrip (replace c "" s).
Proof.
  intros Hc. induction s as [|d r IH]; [reflexivity|].
  cbn [lstrip]. destruct (is_space d) eqn:Ed; [|reflexivity].
  rewrite IH. cbn [replace].
  destruct (Ascii.eqb d c) eqn:E.
  - apply Ascii.eqb_eq in E. congruence.
  - cbn [lstrip]. now rewrite Ed.
Qed.

Lemma rstrip_remove_rstrip c s :
  is_space c = false ->
  rstrip (replace c "" (rstrip s)) = rstrip (replace c "" s).
Proof.
  intros Hc. unfold rstrip. induction s as [|d r IH]; [reflexivity|].
  rewrite rstrip_with_cons. cbn [replace].
  destruct (Ascii.eqb d c) eqn:E.
  - apply Ascii.eqb_eq in E. subst d. rewrite Hc.
    destruct (rstrip_with is_space r) as [|a t] eqn:Er.
    + cbn [replace]. rewrite Ascii.eqb_refl. cbn [String.append].
      rewrite <- IH. reflexivity.
    + cbn [replace]. rewrite Ascii.eqb_refl. cbn [String.append]. exact IH.
  - rewrite rstrip_with_cons, <- IH.
    destruct (rstrip_with is_space r) as [|a t] eqn:Er.
    + cbn [replace rstrip_with].
      destruct (is_space d) eqn:Ed; [reflexivity|].
      cbn [replace]. rewrite E. cbn [rstrip_with]. now rewrite Ed.
    + cbn [replace]. rewrite E. now rewrite rstrip_with_cons.
Qed.

Lemma strip_remove_strip c s :
  is_space c = false ->
  strip (replace c "" (strip s)) = strip (replace c "" s).
Proof.
  intros Hc. unfold strip.
  rewrite <- rstrip_lstrip, (lstrip_remove_lstrip c _ Hc).
  rewrite rstrip_lstrip, (rstrip_remove_rstrip c _ Hc). reflexivity.
Qed.

(** [float] strips its argument itself. *)
Lemma py_float_strip s : py_float (strip s) = py_float s.
Proof. unfold py_float. now rewrite strip_idem. Qed.



End TextFacts.

(* ================================================================== *)
(** * The value cleaners *)
(* ================================================================== *)

Import TextFacts.

Section CleanerFacts.

Variable env : External.


Lemma present_not_na value : is_missing value = false -> isna value = false.
Proof. unfold is_missing. intros H. now apply orb_false_iff in H. Qed.

(** ** The currency cleaner *)

Lemma clean_currency_unfold value :
  isna value = false ->
  clean_currency_and_numbers env value =
  match py_float (without "$" (text_of env value)) with
  | Some _ => CStr (without "$" (text_of env value))
  | None => value
  end.
Proof.
  intros H. unfold clean_currency_and_numbers. now rewrite H.
Qed.

Lemma without_unstripped c s :
  is_space c = false ->
  without c (strip s) = strip (replace "," "" (replace c "" s)).
Proof.
  intros Hc. unfold without.
  rewrite <- (strip_remove_strip "," (replace c "" (strip s))) by reflexivity.
  rewrite (strip_remove_strip c s Hc).
  now rewrite strip_remove_strip.
Qed.

(** C5.  For a present value, let [cleaned] be its text with every dollar sign
    and comma removed (and stripped).  When that text reads as a float the
    currency cleaner returns the text [cleaned] itself, digit for digit;
    otherwise it returns the value it was given.  So ["$1,200.50"] becomes
    ["1200.50"] and ["N/A$"] stays as it is. *)
Theorem clean_currency_and_numbers_spec (value : cell) :
  is_missing value = false ->
  let removed := replace "," "" (replace "$" "" (py_str env value)) in
  let cleaned := strip removed in
  (forall x, py_float removed = Some x ->
     clean_currency_and_numbers env value = CStr cleaned)
  /\ (py_float removed = None -> clean_currency_and_numbers env value = value)
  /\ clean_currency_and_numbers env (CStr "$1,200.50") = CStr "1200.50"
  /\ clean_currency_and_numbers env (CStr "N/A$") = CStr "N/A$".
Proof.
  intros Hp removed cleaned.
  pose proof (clean_currency_unfold value (present_not_na value Hp)) as E.
  unfold text_of in E. rewrite without_unstripped in E by reflexivity.
  fold removed in E. fold cleaned in E. unfold cleaned in E at 1.
  rewrite py_float_strip in E.
  repeat split.
  - intros x Hx. now rewrite E, Hx.
  - intros Hx. now rewrite E, Hx.
Qed.

(** ** The percentage cleaner *)

Lemma clean_percentage_unfold value :
  isna value = false ->
  clean_percentage env value =
  if has_char "%" (text_of env value) then
    match py_float (without "%" (text_of env value)) with
    | Some x => CFloat (x / 100)
    | None => CStr (without "%" (text_of env value))
    end
  else value.
Proof.
  intros H. unfold clean_percentage. now rewrite H.
Qed.

(** What the percentage cleaner does with a present value: without a percent
    sign the value is returned; with one, the text without percent signs and
    commas is read as a float and divided by 100, and when it cannot be read
    that same text (commas removed, stripped) is returned. *)
Lemma clean_percentage_spec (value : cell) :
  is_missing value = false ->
  let value_str := text_of env value in
  let cleaned := without "%" value_str in
  (has_char "%" value_str = false -> clean_percentage env value = value)
  /\ (has_char "%" value_str = true ->
      (forall x, py_float cleaned = Some x ->
         clean_percentage env value = CFloat (x / 100))
      /\ (py_float cleaned = None -> clean_percentage env value = CStr cleaned)).
Proof.
  intros Hp value_str cleaned.
  pose proof (clean_percentage_unfold value (present_not_na value Hp)) as E.
  fold value_str cleaned in E.
  split; [|split]; intros; rewrite E; repeat match goal with
    | H : _ = _ |- _ => rewrite H; clear H end; reflexivity.
Qed.

(** C3, the two examples of the claim, and the fallback on text with a
    comma: the comma goes too, although the comment in the source says that
    only the percent sign is removed. *)
Lemma clean_percentage_examples :
  clean_percentage env (CStr "25%") = CFloat 0.25
  /\ clean_percentage env (CStr "abc%") = CStr "abc"
  /\ clean_percentage env (CStr "a,b%") = CStr "ab".
Proof. repeat split. Qed.

(** ** Missing values *)








(** ** Characters the cleaners cannot introduce *)






(** ** The date detector *)

(** The guards of the date detector in the order of the source, for a value
    that is present. *)
Lemma detect_and_clean_dates_unfold value column_name :
  isna value || String.eqb (text_of env value) "" = false ->
  detect_and_clean_dates env value column_name =
  if is_rate_column column_name then value
  else if is_small_decimal (text_of env value) then value
  else if is_plain_8_digits (text_of env value)
          && negb (is_date_column column_name) then value
  else match to_datetime env (text_of env value) with
       | Parsed d => CStr (format_date (search_time (text_of env value)) d)
       | _ => value
       end.
Proof.
  intros H. unfold detect_and_clean_dates. fold (text_of env value).
  rewrite H. now destruct (to_datetime env (text_of env value)).
Qed.

(** C6.  The date detector returns a present value unchanged whenever a skip
    rule fires: the column name contains pct, percent or rate; or the text
    reads as a float strictly between -1 and 1 and has a decimal point; or
    the text is eight digits and the column name has no date keyword and no
    suffix _at or _on; or the date parse fails.  The rules are tried in this
    order, and ["20240115"] in a column named [id] is returned as it is. *)
Theorem detect_and_clean_dates_skips (value : cell) (column_name : string) :
  is_missing value = false ->
  is_rate_column column_name = true
  \/ is_small_decimal (text_of env value) = true
  \/ (is_plain_8_digits (text_of env value) = true
      /\ is_date_column column_name = false)
  \/ to_datetime env (text_of env value) = NaT
  \/ to_datetime env (text_of env value) = ParseError ->
  detect_and_clean_dates env value column_name = value
  /\ detect_and_clean_dates env value column_name
     = (if isna value || String.eqb (text_of env value) "" then value
        else if is_rate_column column_name then value
        else if is_small_decimal (text_of env value) then value
        else if is_plain_8_digits (text_of env value)
                && negb (is_date_column column_name) then value
        else match to_datetime env (text_of env value) with
             | Parsed d => CStr (format_date (search_time (text_of env value)) d)
             | _ => value
             end)
  /\ detect_and_clean_dates env (CStr "20240115") "id" = CStr "20240115".
Proof.
  intros Hp Hrule.
  assert (E : detect_and_clean_dates env value column_name
              = (if isna value || String.eqb (text_of env value) "" then value
                 else if is_rate_column column_name then value
                 else if is_small_decimal (text_of env value) then value
                 else if is_plain_8_digits (text_of env value)
                         && negb (is_date_column column_name) then value
                 else match to_datetime env (text_of env value) with
                      | Parsed d =>
                          CStr (format_date (search_time (text_of env value)) d)
                      | _ => value
                      end)).
  { destruct (isna value || String.eqb (text_of env value) "") eqn:G.
    - unfold detect_and_clean_dates. fold (text_of env value). now rewrite G.
    - apply detect_and_clean_dates_unfold, G. }
  split; [|split; [exact E|reflexivity]].
  rewrite E.
  destruct (isna value || String.eqb (text_of env value) ""); [reflexivity|].
  destruct (is_rate_column column_name); [reflexivity|].
  destruct (is_small_decimal (text_of env value)); [reflexivity|].
  destruct (is_plain_8_digits (text_of env value)) eqn:E8;
    destruct (is_date_column column_name) eqn:Ed; cbn [negb andb];
    try reflexivity;
    destruct Hrule as [H|[H|[[H1 H2]|[H|H]]]]; try discriminate;
    now rewrite H.
Qed.

(** When no rule fires and the parse succeeds, the value is rewritten. *)
Lemma detect_and_clean_dates_rewrites value column_name d :
  isna value || String.eqb (text_of env value) "" = false ->
  is_rate_column column_name = false ->
  is_small_decimal (text_of env value) = false ->
  is_plain_8_digits (text_of env value) && negb (is_date_column column_name) = false ->
  to_datetime env (text_of env value) = Parsed d ->
  detect_and_clean_dates env value column_name =
  CStr (format_date (search_time (text_of env value)) d).
Proof.
  intros H0 H1 H2 H3 H4.
  rewrite (detect_and_clean_dates_unfold _ _ H0). now rewrite H1, H2, H3, H4.
Qed.

End CleanerFacts.

(** The rate terms, the date keywords and the two suffixes, as the source
    lists them, matched against the lower-cased column name. *)
Lemma column_name_rules column_name :
  (is_rate_column column_name = true <->
   exists term, In term ["pct"; "percent"; "rate"]
                /\ contains term (lower column_name) = true)
  /\ (is_date_column column_name = true <->
      (exists keyword,
          In keyword [ "date"; "time"; "timestamp"; "datetime"; "created";
                       "updated"; "modified"; "deleted"; "start"; "end";
                       "due"; "expire"; "birth"; "dob" ]
          /\ contains keyword (lower column_name) = true)
      \/ (exists suffix, In suffix ["_at"; "_on"]
                         /\ endswith suffix (lower column_name) = true)).
Proof.
  unfold is_rate_column, is_date_column. split.
  - apply existsb_exists.
  - rewrite orb_true_iff, !existsb_exists. reflexivity.
Qed.

(* ================================================================== *)
(** * Header normalisation *)
(* ================================================================== *)

(** C7.  A column name is stripped; then space and hyphen become an
    underscore; then [#], [$] and [%] become Num, Dol and pct; then the
    characters / @ * ^ & ( ) { } [ ] are deleted, in this order.  So
    ["Revenue (%)"] becomes ["Revenue_pct"], ["Item/Code#"] becomes
    ["ItemCodeNum"], and ["A (%)"] becomes ["A_pct"]: its space is replaced
    before the parentheses go. *)
Theorem clean_header_spec :
  (forall name,
     clean_header name =
     replace "]" "" (replace "[" "" (replace "}" "" (replace "{" ""
       (replace ")" "" (replace "(" "" (replace "&" "" (replace "^" ""
         (replace "*" "" (replace "@" "" (replace "/" ""
           (replace "%" "pct" (replace "$" "Dol" (replace "#" "Num"
             (replace "-" "_" (replace " " "_" (strip name)))))))))))))))))
  /\ (forall df,
        columns (clean_column_headers df) = map clean_header (columns df)
        /\ map snd (clean_column_headers df) = map snd df)
  /\ clean_header "Revenue (%)" = "Revenue_pct"
  /\ clean_header "Item/Code#" = "ItemCodeNum"
  /\ clean_header "A (%)" = "A_pct".
Proof.
  repeat split.
  - unfold columns, clean_column_headers. rewrite !map_map. reflexivity.
  - unfold clean_column_headers. rewrite map_map. reflexivity.
Qed.

(** C7 as the claim words it: ["A (%)"] does not become ["A pct"]. *)
Lemma clean_header_keeps_no_space :
  clean_header "A (%)" = "A_pct" /\ clean_header "A (%)" <> "A pct".
Proof. split; [reflexivity|discriminate]. Qed.

(* ================================================================== *)
(** * Frames: selecting and assigning a column by its label *)
(* ================================================================== *)

Section FrameFacts.

Lemma select_unfold df l :
  select df l =
  match filter (has_label l) df with
  | [(_, s)] => Series s
  | r => Frame (map snd r)
  end.
Proof. reflexivity. Qed.

Lemma filter_label_length df l :
  List.length (filter (has_label l) df) = count_occ string_dec (columns df) l.
Proof.
  induction df as [|[n s] df IH]; [reflexivity|].
  cbn [filter columns map fst count_occ]. unfold has_label at 1. cbn [fst].
  destruct (string_dec n l) as [->|N].
  - rewrite String.eqb_refl. cbn [List.length]. now rewrite IH.
  - apply String.eqb_neq in N. rewrite N. exact IH.
Qed.

Lemma filter_label_absent df l :
  ~ In l (columns df) -> filter (has_label l) df = [].
Proof.
  intros H. apply length_zero_iff_nil.
  rewrite filter_label_length. now apply count_occ_not_In.
Qed.

Lemma select_series_once df l s :
  select df l = Series s -> count_occ string_dec (columns df) l = 1.
Proof.
  rewrite select_unfold, <- filter_label_length.
  destruct (filter (has_label l) df) as [|[n s0] [|q r]]; now intros.
Qed.

Lemma select_nodup df p :
  NoDup (columns df) -> In p df -> select df (fst p) = Series (snd p).
Proof.
  rewrite select_unfold.
  induction df as [|a df IH]; [easy|].
  cbn [columns map]. intros ND [->|Hin].
  - inversion ND as [|? ? Hn _]; subst.
    cbn [filter]. unfold has_label at 1. rewrite String.eqb_refl.
    rewrite (filter_label_absent df (fst p) Hn). now destruct p.
  - inversion ND as [|? ? Hn ND']; subst.
    cbn [filter]. unfold has_label at 1.
    destruct (String.eqb (fst a) (fst p)) eqn:E.
    + apply String.eqb_eq in E. exfalso. apply Hn. rewrite E.
      now apply in_map.
    + now apply IH.
Qed.

Lemma nodup_same_label df p q :
  NoDup (columns df) -> In p df -> In q df -> fst p = fst q -> p = q.
Proof.
  intros ND Hp Hq E.
  pose proof (select_nodup df p ND Hp) as Sp.
  pose proof (select_nodup df q ND Hq) as Sq.
  rewrite E in Sp. rewrite Sq in Sp.
  destruct p, q. cbn in *. congruence.
Qed.

Lemma columns_assign df l s : columns (assign df l s) = columns df.
Proof.
  unfold columns, assign. rewrite map_map. apply map_ext.
  intros p. now destruct (String.eqb (fst p) l).
Qed.

Lemma assign_assign df l s t : assign (assign df l s) l t = assign df l t.
Proof.
  unfold assign. rewrite map_map. apply map_ext. intros p.
  destruct (String.eqb (fst p) l) eqn:E; cbn [fst]; now rewrite E.
Qed.

Lemma in_assign df l s : In l (columns df) -> In (l, s) (assign df l s).
Proof.
  unfold columns, assign. intros H. apply in_map_iff in H as (p & <- & Hp).
  apply in_map_iff. exists p. now rewrite String.eqb_refl.
Qed.

Lemma select_assign df l s :
  NoDup (columns df) -> In l (columns df) -> select (assign df l s) l = Series s.
Proof.
  intros ND H.
  apply (select_nodup (assign df l s) (l, s)).
  - now rewrite columns_assign.
  - now apply in_assign.
Qed.

End FrameFacts.

(* ================================================================== *)
(** * The column loop of the pipeline *)
(* ================================================================== *)

Section PipelineFacts.

Variable env : External.

Lemma loop_from_none ls : fold_left (loop_step env) ls None = None.
Proof. induction ls; [reflexivity|exact IHls]. Qed.

Lemma filter_label_assign df l t :
  filter (has_label l) (assign df l t)
  = map (fun p => (fst p, t)) (filter (has_label l) df).
Proof.
  unfold assign. induction df as [|p df IH]; [reflexivity|].
  cbn [map filter].
  assert (L : has_label l (if String.eqb (fst p) l then (fst p, t) else p)
              = has_label l p).
  { unfold has_label. destruct (String.eqb (fst p) l) eqn:E; cbn [fst];
      now rewrite ?E. }
  rewrite L. destruct (has_label l p) eqn:E.
  - unfold has_label in E. rewrite E. cbn [map]. now rewrite IH.
  - exact IH.
Qed.

Lemma select_assign_series df l s t :
  select df l = Series s -> select (assign df l t) l = Series t.
Proof.
  rewrite !select_unfold, filter_label_assign.
  destruct (filter (has_label l) df) as [|[n s0] [|q r]]; now intros.
Qed.

(** A label that occurs once names one column. *)
Lemma select_of_count df l :
  count_occ string_dec (columns df) l = 1 ->
  exists s,
    select df l = Series s /\ In (l, s) df
    /\ forall q, In q df -> fst q = l -> q = (l, s).
Proof.
  rewrite <- filter_label_length, select_unfold.
  destruct (filter (has_label l) df) as [|[n s0] [|q r]] eqn:F; try discriminate.
  intros _. exists s0.
  assert (Hin : In (n, s0) (filter (has_label l) df)) by (rewrite F; now left).
  apply filter_In in Hin as [Hin Hl]. unfold has_label in Hl. cbn [fst] in Hl.
  apply String.eqb_eq in Hl. subst n.
  split; [reflexivity|]. split; [exact Hin|].
  intros q Hq E.
  assert (Hf : In q (filter (has_label l) df)).
  { apply filter_In. split; [exact Hq|]. unfold has_label.
    now apply String.eqb_eq. }
  rewrite F in Hf. destruct Hf as [<-|[]]. reflexivity.
Qed.

(** The columns that a selection by a repeated label returns. *)
Lemma select_frame df l cols :
  select df l = Frame cols -> cols = map snd (filter (has_label l) df).
Proof.
  rewrite select_unfold.
  destruct (filter (has_label l) df) as [|[n s0] [|q r]]; intros [= <-];
    reflexivity.
Qed.

Lemma no_rows_nil s : no_rows s = true -> s = [].
Proof. destruct s; [reflexivity|discriminate]. Qed.

Lemma in_assign_other df l t q :
  fst q <> l -> (In q (assign df l t) <-> In q df).
Proof.
  intros N. unfold assign. rewrite in_map_iff. split.
  - intros (p & E & Hp). destruct (String.eqb (fst p) l) eqn:El.
    + apply String.eqb_eq in El. subst q. cbn [fst] in N. contradiction.
    + now subst q.
  - intros Hq. exists q. split; [|exact Hq].
    apply String.eqb_neq in N. now rewrite N.
Qed.

(** Assigning no rows to columns that have none changes nothing. *)
Lemma assign_no_rows df l :
  (forall q, In q df -> fst q = l -> snd q = []) -> assign df l [] = df.
Proof.
  intros H. unfold assign. rewrite <- (map_id df) at 2.
  apply map_ext_in. intros p Hp.
  destruct (String.eqb (fst p) l) eqn:E; [|reflexivity].
  apply String.eqb_eq in E. specialize (H p Hp E).
  destruct p as [n s]. cbn [fst snd] in *. now subst s.
Qed.

Lemma apply_column_some f df col df' :
  apply_column f df col = Some df' ->
  columns df' = columns df
  /\ ((exists s, select df col = Series s /\ df' = assign df col (map f s))
      \/ (df' = df /\ forall q, In q df -> fst q = col -> snd q = [])).
Proof.
  unfold apply_column. destruct (select df col) as [s|cols] eqn:S.
  - intros [= <-]. split; [apply columns_assign|]. left. now exists s.
  - destruct cols as [|c cols]; [discriminate|].
    destruct (forallb no_rows (c :: cols)) eqn:E; [|discriminate].
    intros [= <-]. split; [reflexivity|]. right. split; [reflexivity|].
    intros q Hq El. apply select_frame in S.
    rewrite forallb_forall in E. apply no_rows_nil, E. rewrite S.
    apply in_map. apply filter_In. split; [exact Hq|].
    unfold has_label. now apply String.eqb_eq.
Qed.

(** What a turn of the loop needs of its label, and what it leaves alone. *)
Lemma clean_column_some df col df' :
  clean_column env df col = Some df' ->
  columns df' = columns df
  /\ (count_occ string_dec (columns df) col = 1
      \/ forall q, In q df -> fst q = col -> snd q = [])
  /\ forall q, fst q <> col -> In q df -> In q df'.
Proof.
  assert (A : forall f d d',
             apply_column f d col = Some d' ->
             columns d' = columns d
             /\ (count_occ string_dec (columns d) col = 1
                 \/ forall q, In q d -> fst q = col -> snd q = [])
             /\ forall q, fst q <> col -> In q d -> In q d').
  { intros f d d' H. apply apply_column_some in H as [C [(s & S & ->)|[-> E]]].
    - split; [exact C|]. split; [left; exact (select_series_once d col s S)|].
      intros q N Hq. now apply in_assign_other.
    - split; [reflexivity|]. split; [now right|]. auto. }
  unfold clean_column.
  destruct (apply_column _ df col) as [df1|] eqn:E1; [|discriminate].
  destruct (apply_column _ df1 col) as [df2|] eqn:E2; [|discriminate].
  apply A in E1 as (C1 & Q1 & K1). apply A in E2 as (C2 & _ & K2).
  destruct (is_numeric_column env df2 col).
  - intros [= <-]. split; [congruence|]. split; [exact Q1|]. auto.
  - intros E3. apply A in E3 as (C3 & _ & K3).
    split; [congruence|]. split; [exact Q1|]. auto.
Qed.

(** A label that names one column: the column is cleaned in place. *)
Lemma clean_column_series df col s :
  select df col = Series s ->
  clean_column env df col = Some (assign df col (clean_series env col s)).
Proof.
  intros S0.
  assert (A : forall f t,
             apply_column f (assign df col t) col
             = Some (assign df col (map f t))).
  { intros f t. unfold apply_column.
    rewrite (select_assign_series df col s t S0). now rewrite assign_assign. }
  unfold clean_column.
  replace (apply_column (clean_currency_and_numbers env) df col)
    with (Some (assign df col (map (clean_currency_and_numbers env) s)))
    by (unfold apply_column; now rewrite S0).
  rewrite A. unfold is_numeric_column.
  rewrite (select_assign_series df col s _ S0).
  unfold clean_series.
  destruct (forallb _ _); [reflexivity|apply A].
Qed.

(** A label whose columns have no rows: nothing changes. *)
Lemma clean_column_no_rows df col :
  In col (columns df) ->
  (forall q, In q df -> fst q = col -> snd q = []) ->
  clean_column env df col = Some df.
Proof.
  intros Hin E.
  destruct (select df col) as [s|cols] eqn:S.
  - rewrite (clean_column_series df col s S).
    assert (s = []).
    { assert (C : count_occ string_dec (columns df) col = 1)
        by exact (select_series_once df col s S).
      destruct (select_of_count df col C) as (s' & S' & Hs & _).
      rewrite S in S'. injection S' as <-. exact (E (col, s) Hs eq_refl). }
    subst s. f_equal. now apply assign_no_rows.
  - assert (A : forall f, apply_column f df col = Some df).
    { intros f. unfold apply_column. rewrite S.
      pose proof (select_frame df col cols S) as C.
      apply in_map_iff in Hin as (p & El & Hp).
      assert (Hf : In (snd p) cols).
      { rewrite C. apply in_map. apply filter_In. split; [exact Hp|].
        unfold has_label. now apply String.eqb_eq. }
      destruct cols as [|c cols]; [destruct Hf|].
      replace (forallb no_rows (c :: cols)) with true; [reflexivity|].
      symmetry. apply forallb_forall. intros x Hx. rewrite C in Hx.
      apply in_map_iff in Hx as (q & <- & Hq). apply filter_In in Hq as [Hq Hl].
      unfold has_label in Hl. apply String.eqb_eq in Hl.
      now rewrite (E q Hq Hl). }
    unfold clean_column. rewrite !A. unfold is_numeric_column.
    now rewrite S.
Qed.

Lemma clean_series_nil col : clean_series env col [] = [].
Proof. reflexivity. Qed.

Lemma count_occ_cons_once (l x : string) ls :
  count_occ string_dec (l :: ls) x = 1 -> In x ls ->
  x <> l /\ count_occ string_dec ls x = 1.
Proof.
  intros C Hin. cbn [count_occ] in C.
  destruct (string_dec l x) as [->|N].
  - exfalso. apply (count_occ_In string_dec) in Hin. lia.
  - split; [congruence|exact C].
Qed.

(** The loop over labels [ls]: each of them names one column and comes once,
    or names columns without rows. *)
Lemma loop_cleanable ls : forall df,
  (forall l, In l ls ->
     (count_occ string_dec (columns df) l = 1 /\ count_occ string_dec ls l = 1)
     \/ (In l (columns df) /\ forall q, In q df -> fst q = l -> snd q = [])) ->
  fold_left (loop_step env) ls (Some df) = Some (map (cleaned_if env ls) df).
Proof.
  induction ls as [|l ls IH]; intros df H.
  - cbn [fold_left]. f_equal. symmetry. apply map_id.
  - cbn [fold_left loop_step].
    destruct (H l (or_introl eq_refl)) as [[Cd Cl]|[Hin E]].
    + destruct (select_of_count df l Cd) as (s & S & Hs & U).
      assert (Nl : ~ In l ls).
      { intros Hl. apply (count_occ_In string_dec) in Hl.
        cbn [count_occ] in Cl. destruct (string_dec l l); [lia|congruence]. }
      rewrite (clean_column_series df l s S).
      rewrite IH.
      * f_equal. unfold assign. rewrite map_map. apply map_ext_in.
        intros p Hp. unfold cleaned_if. cbn [existsb].
        destruct (String.eqb (fst p) l) eqn:El.
        -- apply String.eqb_eq in El. rewrite (U p Hp El). cbn [fst snd orb].
           replace (existsb (String.eqb l) ls) with false; [reflexivity|].
           symmetry. apply not_true_is_false. intros Hx.
           apply existsb_exists in Hx as (x & Hx & Ex).
           apply String.eqb_eq in Ex. now subst x.
        -- cbn [orb]. reflexivity.
      * intros l' Hl'. rewrite columns_assign.
        destruct (H l' (or_intror Hl')) as [[Cd' Cl']|[Hin' E']].
        -- left. split; [exact Cd'|].
           exact (proj2 (count_occ_cons_once l l' ls Cl' Hl')).
        -- right. split; [exact Hin'|]. intros q Hq Eq.
           assert (N : fst q <> l) by (intros El; apply Nl; congruence).
           apply (in_assign_other df l _ q N) in Hq. auto.
    + rewrite (clean_column_no_rows df l Hin E). rewrite IH.
      * f_equal. apply map_ext_in. intros p Hp. unfold cleaned_if. cbn [existsb].
        destruct (String.eqb (fst p) l) eqn:El; [|reflexivity].
        apply String.eqb_eq in El. pose proof (E p Hp El) as Ep.
        destruct p as [n s]. cbn [fst snd orb] in *. subst s.
        now destruct (existsb _ ls).
      * intros l' Hl'.
        destruct (H l' (or_intror Hl')) as [[Cd' Cl']|B]; [left|now right].
        split; [exact Cd'|].
        exact (proj2 (count_occ_cons_once l l' ls Cl' Hl')).
Qed.

Lemma loop_some ls : forall df df',
  fold_left (loop_step env) ls (Some df) = Some df' ->
  forall l, In l ls ->
    count_occ string_dec (columns df) l = 1
    \/ forall q, In q df -> fst q = l -> snd q = [].
Proof.
  induction ls as [|a ls IH]; intros df df' H l Hl; [easy|].
  cbn [fold_left loop_step] in H.
  destruct (clean_column env df a) as [df1|] eqn:E.
  - apply clean_column_some in E as (C & Q & K).
    destruct (string_dec l a) as [->|N]; [exact Q|].
    destruct Hl as [->|Hl]; [congruence|].
    destruct (IH df1 df' H l Hl) as [C1|E1].
    + left. now rewrite <- C.
    + right. intros q Hq El. apply E1; [|exact El].
      apply K; [congruence|exact Hq].
  - now rewrite loop_from_none in H.
Qed.

Lemma columns_prepared df :
  columns (strip_values (clean_column_headers df)) = map clean_header (columns df).
Proof.
  unfold columns, strip_values, clean_column_headers. rewrite !map_map.
  reflexivity.
Qed.

Lemma in_prepared df q :
  In q (strip_values (clean_column_headers df)) <->
  exists p, In p df /\ q = (clean_header (fst p), map strip_cell (snd p)).
Proof.
  unfold strip_values, clean_column_headers. rewrite map_map, in_map_iff.
  cbn [fst snd]. split; intros (p & A & B); exists p; auto.
Qed.

Lemma clean_frame_cleanable df :
  cleanable df -> clean_frame env df = Some (map (cleaned_column env) df).
Proof.
  intros Hc. unfold cleanable in Hc. rewrite Forall_forall in Hc.
  unfold clean_frame, clean_columns. rewrite loop_cleanable.
  - f_equal. rewrite columns_prepared.
    unfold strip_values, clean_column_headers. rewrite !map_map.
    apply map_ext_in. intros p Hp. unfold cleaned_if, cleaned_column. cbn [fst snd].
    replace (existsb _ _) with true; [reflexivity|].
    symmetry. apply existsb_exists. exists (clean_header (fst p)).
    split; [|apply String.eqb_refl].
    unfold columns. rewrite map_map.
    apply in_map_iff. now exists p.
  - intros l Hl. rewrite columns_prepared in *.
    destruct (Nat.eq_dec (count_occ string_dec (map clean_header (columns df)) l) 1)
      as [C|C]; [now left|right].
    split; [exact Hl|]. intros q Hq El.
    apply in_prepared in Hq as (p & Hp & ->). cbn [fst snd] in *.
    destruct (Hc p Hp) as [C1|E1]; [congruence|now rewrite E1].
Qed.

Lemma nodup_cleanable df :
  NoDup (map clean_header (columns df)) -> cleanable df.
Proof.
  intros ND. apply Forall_forall. intros p Hp. left.
  apply (proj1 (NoDup_count_occ' string_dec _) ND).
  unfold columns. rewrite map_map. apply in_map_iff. now exists p.
Qed.

Lemma clean_frame_nodup df :
  NoDup (map clean_header (columns df)) ->
  clean_frame env df = Some (map (cleaned_column env) df).
Proof. intros ND. now apply clean_frame_cleanable, nodup_cleanable. Qed.

Lemma clean_frame_some df df' :
  clean_frame env df = Some df' ->
  cleanable df /\ df' = map (cleaned_column env) df.
Proof.
  intros H.
  assert (C : cleanable df).
  { apply Forall_forall. intros p Hp.
    unfold clean_frame, clean_columns in H.
    destruct (loop_some _ _ _ H (clean_header (fst p))) as [C|E].
    - rewrite columns_prepared. unfold columns. rewrite map_map.
      apply in_map_iff. now exists p.
    - left. now rewrite <- columns_prepared.
    - right.
      assert (K : map strip_cell (snd p) = []).
      { apply (E (clean_header (fst p), map strip_cell (snd p)));
          [|reflexivity].
        apply in_prepared. now exists p. }
      now destruct (snd p). }
  split; [exact C|].
  rewrite (clean_frame_cleanable df C) in H. congruence.
Qed.

End PipelineFacts.

(* ================================================================== *)
(** * The pipeline, column by column and cell by cell *)
(* ================================================================== *)

Section PipelineTheorems.

Variable env : External.

Lemma Forall2_map_right {A B : Type} (R : A -> B -> Prop) (g : A -> B) l :
  (forall x, In x l -> R x (g x)) -> Forall2 R l (map g l).
Proof.
  induction l as [|a l IH]; intros H; cbn [map]; constructor.
  - apply H. now left.
  - apply IH. intros x Hx. apply H. now right.
Qed.

Lemma existsb_negb_forallb {A : Type} (p : A -> bool) l :
  existsb (fun x => negb (p x)) l = negb (forallb p l).
Proof.
  induction l as [|a l IH]; [reflexivity|].
  cbn [existsb forallb]. rewrite IH. now destruct (p a).
Qed.

(** C4.  In every column the pipeline processes, once the currency and the
    percentage cleaner have run: when every value of the column is read by
    the strict numeric parse, the column is left as it is and the date
    detector is applied to none of its cells; when at least one value fails
    the parse, the date detector is applied to every cell of the column,
    with the cleaned header as column name. *)
Theorem date_detector_gate (df df' : frame) :
  clean_frame env df = Some df' ->
  Forall2 (gate_respected env) df df'.
Proof.
  intros H. apply clean_frame_some in H as [_ ->].
  apply Forall2_map_right. intros p _.
  unfold gate_respected, cleaned_column, clean_series. cbn [fst snd].
  fold (before_dates env (snd p)).
  rewrite existsb_negb_forallb.
  destruct (forallb (parses_numeric env) (before_dates env (snd p)));
    repeat split; intros; try discriminate; reflexivity.
Qed.



End PipelineTheorems.

(* ================================================================== *)
(** * The audit: how the log grows *)
(* ================================================================== *)

Section AuditFacts.

Variable env : External.

Lemma extend_nil st : extend [] st = st.
Proof.
  destruct st as [l b]. unfold extend. cbn. now rewrite app_nil_r, andb_true_r.
Qed.

Lemma extend_extend a b st : extend b (extend a st) = extend (a ++ b) st.
Proof.
  destruct st as [l p]. unfold extend. cbn. rewrite app_assoc. f_equal.
  destruct a, b; cbn; now rewrite ?andb_true_r, ?andb_false_r.
Qed.

Lemma warn_extend w st : warn w st = extend [w] st.
Proof. unfold warn, extend. now rewrite andb_false_r. Qed.

Lemma warn_if_extend b w st : warn_if b w st = extend (emit b w) st.
Proof.
  unfold warn_if, emit. destruct b; [apply warn_extend|now rewrite extend_nil].
Qed.

(** The comparisons of the numeric block, one after the other. *)
Lemma checks_raised l st e :
  fold_left (fun r t => check (fst (fst t)) (snd (fst t)) (snd t) r) l (st, Some e)
  = (st, Some e).
Proof. induction l as [|t l IH]; [reflexivity|exact IH]. Qed.

Lemma checks_extend l : forall st,
  fold_left (fun r t => check (fst (fst t)) (snd (fst t)) (snd t) r) l (st, None)
  = (extend (fst (until_raise l)) st,
     if snd (until_raise l) then Some BooleanSubtract else None).
Proof.
  induction l as [|[[changed o] c] l IH]; intros st.
  - cbn. now rewrite extend_nil.
  - cbn [fold_left fst snd until_raise check].
    destruct (differs o c) as [b|].
    + rewrite IH, warn_if_extend, extend_extend. reflexivity.
    + rewrite checks_raised. cbn [fst snd]. now rewrite extend_nil.
Qed.

Lemma numeric_checks_extend col a b st :
  numeric_checks env col a b st
  = (extend (numeric_warnings env col a b) st,
     if numeric_raises env col a b then Some BooleanSubtract else None).
Proof. exact (checks_extend (statistics env col a b) st). Qed.

Lemma date_checks_extend col a b st :
  date_checks col a b st = extend (date_warnings col a b) st.
Proof.
  unfold date_checks, date_warnings. cbv zeta.
  destruct (Nat.ltb 0 (count notna_date a) && Nat.ltb 0 (count notna_date b)).
  - rewrite !warn_if_extend, !extend_extend. now rewrite <- ?app_assoc.
  - rewrite warn_if_extend. now rewrite app_nil_r.
Qed.

Lemma text_checks_extend col a b st :
  text_checks env col a b st = extend (text_warnings env col a b) st.
Proof.
  unfold text_checks, text_warnings.
  rewrite !warn_if_extend, !extend_extend. now rewrite <- ?app_assoc.
Qed.

Lemma length_to_numeric_coerce s :
  List.length (to_numeric_coerce env s) = List.length s.
Proof. apply length_map. Qed.

Lemma later_checks_extend col o c st :
  later_checks env col o c st = extend (later_warnings env col o c) st.
Proof.
  unfold later_checks, later_warnings, later_role, exceeds_80_percent.
  destruct (to_datetime_series env o) as [d|]; [|apply text_checks_extend].
  destruct (to_datetime_series env c) as [d'|]; [|apply text_checks_extend].
  destruct (4 * List.length d <? 5 * _)%nat;
    [apply date_checks_extend|apply text_checks_extend].
Qed.

(** A column that is not numeric has the role of the later blocks. *)
Lemma role_by_rows_later o c :
  (4 * List.length o <? 5 * numeric_hits env o)%nat = false ->
  role_by_rows env o c = later_role env o c
  /\ later_role env o c <> Numeric.
Proof.
  intros H. unfold role_by_rows, later_role. rewrite H.
  destruct (to_datetime_series env o) as [d|]; cbv beta iota;
    [|split; [reflexivity|discriminate]].
  destruct (to_datetime_series env c) as [d'|]; cbv beta iota;
    [|split; [reflexivity|discriminate]].
  destruct (4 * List.length d <? _)%nat; cbv beta iota; split;
    try reflexivity; discriminate.
Qed.

Lemma later_role_not_numeric o c : later_role env o c <> Numeric.
Proof.
  unfold later_role.
  destruct (to_datetime_series env o) as [d|]; cbv beta iota; [|discriminate].
  destruct (to_datetime_series env c) as [d'|]; cbv beta iota; [|discriminate].
  destruct (4 * List.length d <? _)%nat; cbv beta iota; discriminate.
Qed.

Lemma role_warnings_later col o c :
  role_by_rows env o c <> Numeric ->
  role_warnings env col o c = later_warnings env col o c.
Proof.
  unfold role_warnings. now destruct (role_by_rows env o c).
Qed.

Lemma role_numeric_iff o c :
  role_by_rows env o c = Numeric
  <-> (4 * List.length o <? 5 * numeric_hits env o)%nat = true.
Proof.
  destruct (4 * List.length o <? 5 * numeric_hits env o)%nat eqn:E.
  - unfold role_by_rows. rewrite E. now split.
  - destruct (role_by_rows_later o c E) as [R N]. rewrite R.
    split; [intros K; now destruct N|discriminate].
Qed.

Lemma typed_checks_extend col o c st :
  typed_checks env col o c st = extend (role_warnings env col o c) st.
Proof.
  unfold typed_checks, exceeds_80_percent. rewrite length_to_numeric_coerce.
  fold (numeric_hits env o).
  destruct (4 * List.length o <? 5 * numeric_hits env o)%nat eqn:E.
  - unfold role_warnings. rewrite (proj2 (role_numeric_iff o c) E).
    rewrite numeric_checks_extend.
    destruct (numeric_raises env col _ _).
    + now rewrite later_checks_extend, extend_extend.
    + now rewrite app_nil_r.
  - rewrite role_warnings_later; [apply later_checks_extend|].
    destruct (role_by_rows_later o c E) as [-> N]. exact N.
Qed.

(** Whether the body of the [try] raises depends on the two selections
    only, and nothing is written before it does. *)
Lemma column_checks_raises df_o df_c oc cc st e :
  snd (column_checks env df_o df_c oc cc st) = Some e ->
  forall st', column_checks env df_o df_c oc cc st' = (st', Some e).
Proof.
  unfold column_checks.
  destruct (select df_o oc), (select df_c cc); cbn [snd]; try discriminate;
    try (intros [= <-]; reflexivity).
  destruct (_ && _); intros [= <-]; reflexivity.
Qed.

Lemma column_checks_returns df_o df_c oc cc st :
  snd (column_checks env df_o df_c oc cc st) = None ->
  exists o c,
    select df_o oc = Series o /\ select df_c cc = Series c
    /\ forall st',
        column_checks env df_o df_c oc cc st'
        = (extend (emit (negb (Nat.eqb (count isna o) (count isna c)))
                     (NullCountChanged cc (count isna o) (count isna c))
                   ++ role_warnings env cc o c) st', None).
Proof.
  unfold column_checks.
  destruct (select df_o oc) as [o|], (select df_c cc) as [c|]; cbn [snd];
    try discriminate.
  - intros _. exists o, c. repeat split. intros st'.
    now rewrite typed_checks_extend, warn_if_extend, extend_extend.
  - destruct (_ && _); discriminate.
Qed.

Lemma audit_column_extend df_o df_c st pair :
  audit_column env df_o df_c st pair
  = extend (column_warnings env df_o df_c pair) st.
Proof.
  destruct pair as [oc cc]. unfold column_warnings, audit_column.
  destruct (snd (column_checks env df_o df_c oc cc st)) as [e|] eqn:E.
  - rewrite !(column_checks_raises _ _ _ _ _ _ E). now rewrite !warn_extend.
  - destruct (column_checks_returns _ _ _ _ _ E) as (o & c & _ & _ & K).
    rewrite !K. cbn [extend log empty_state app]. reflexivity.
Qed.

Lemma audit_loop_extend df_o df_c pairs st :
  fold_left (audit_column env df_o df_c) pairs st
  = extend (flat_map (column_warnings env df_o df_c) pairs) st.
Proof.
  revert st. induction pairs as [|p pairs IH]; intros st.
  - cbn. now rewrite extend_nil.
  - cbn [fold_left flat_map]. now rewrite IH, audit_column_extend, extend_extend.
Qed.

(** The log is the warnings about the shape followed by the warnings of each
    pair of labels, in order; the verdict is [true] when the log is empty. *)
Lemma audit_dataframe_log df_o df_c :
  audit_dataframe env df_o df_c
  = extend (flat_map (column_warnings env df_o df_c)
              (combine (columns df_o) (columns df_c)))
      (shape_checks df_o df_c).
Proof. apply audit_loop_extend. Qed.

Lemma extend_failed ws st w : In w ws -> audit_passed (extend ws st) = false.
Proof.
  destruct ws; [easy|]. intros _. unfold extend. cbn. apply andb_false_r.
Qed.

Lemma extend_failed_before ws st :
  audit_passed st = false -> audit_passed (extend ws st) = false.
Proof. intros H. unfold extend. cbn. now rewrite H. Qed.

End AuditFacts.

(* ================================================================== *)
(** * The audit: roles, exceptions and unequal column counts *)
(* ================================================================== *)

Section AuditTheorems.

Variable env : External.

Lemma Forall_emit (P : warning -> Prop) b w : P w -> Forall P (emit b w).
Proof. intros H. destruct b; cbn; auto. Qed.

Lemma until_raise_Forall (P : warning -> Prop) l :
  (forall t, In t l -> P (fst (fst t) (snd (fst t)) (snd t))) ->
  Forall P (fst (until_raise l)).
Proof.
  induction l as [|[[changed o] c] l IH]; intros H; [constructor|].
  cbn [until_raise]. destruct (differs o c) as [b|]; [|constructor].
  cbn [fst]. apply Forall_app. split.
  - apply Forall_emit. exact (H (changed, o, c) (or_introl eq_refl)).
  - apply IH. intros t Ht. apply H. now right.
Qed.

Lemma numeric_warnings_family col a b :
  Forall (fun w => warning_role w = Some Numeric) (numeric_warnings env col a b).
Proof.
  apply until_raise_Forall. intros t Ht. cbn in Ht.
  repeat (destruct Ht as [<-|Ht]; [reflexivity|]). destruct Ht.
Qed.

Lemma later_warnings_family col o c :
  Forall (fun w => warning_role w = Some (later_role env o c))
    (later_warnings env col o c).
Proof.
  unfold later_warnings, later_role.
  destruct (to_datetime_series env o) as [d|]; cbv beta iota.
  2:{ unfold text_warnings. cbv zeta. apply Forall_app; split; now apply Forall_emit. }
  destruct (to_datetime_series env c) as [d'|]; cbv beta iota.
  2:{ unfold text_warnings. cbv zeta. apply Forall_app; split; now apply Forall_emit. }
  destruct (4 * List.length d <? _)%nat; cbv beta iota.
  - unfold date_warnings. cbv zeta.
    apply Forall_app; split; [now apply Forall_emit|].
    destruct (_ && _); [|constructor].
    apply Forall_app; split; now apply Forall_emit.
  - unfold text_warnings. cbv zeta. apply Forall_app; split; now apply Forall_emit.
Qed.

(** Only two booleans cannot be subtracted. *)
Lemma differs_none a b :
  differs a b = None <-> exists x y, a = Bool_ x /\ b = Bool_ y.
Proof.
  unfold differs. split.
  - destruct a, b; cbn; try discriminate. intros _. eauto.
  - intros (x & y & -> & ->). reflexivity.
Qed.

Lemma until_raise_raises l :
  snd (until_raise l) = true <-> Exists both_boolean l.
Proof.
  induction l as [|[[changed o] c] l IH]; cbn [until_raise].
  - split; [discriminate|]. intros H. inversion H.
  - destruct (differs o c) as [b|] eqn:D; cbn [snd].
    + rewrite IH. split; [now right|].
      intros H. inversion H as [? ? K|]; subst; [|assumption].
      destruct K as (x & y & Ex & Ey). cbn [fst snd] in *.
      assert (differs o c = None) by (apply differs_none; eauto).
      congruence.
    + split; [|reflexivity]. intros _. left.
      apply differs_none in D as (x & y & -> & ->). exists x, y. now split.
Qed.

(** C2.  For a pair of columns that the audit compares, the original column
    is Numeric exactly when the values that parse as numeric are more than
    0.8 of all its rows (missing values count in the denominator); otherwise
    it is Date exactly when both date conversions return and the values that
    parse as a date are more than 0.8 of all its rows; otherwise it is Text.
    After the null-count check the audit compares the statistics of that
    role and no others, with one exception: in a Numeric column a comparison
    raises exactly when both statistics it subtracts are booleans, and then
    the numeric comparisons made before it are followed by those of the date
    block or the string checks, as for a column that is not numeric. *)
Theorem audit_role_of_column (df_o df_c : frame) (oc cc : string)
  (o c : list cell) :
  select df_o oc = Series o ->
  select df_c cc = Series c ->
  let r := role_by_rows env o c in
  let orig_numeric := to_numeric_coerce env o in
  let clean_numeric := to_numeric_coerce env c in
  (r = Numeric <-> 4 * List.length o < 5 * numeric_hits env o)
  /\ (r = Date <->
      ~ 4 * List.length o < 5 * numeric_hits env o
      /\ exists d d',
           to_datetime_series env o = Some d
           /\ to_datetime_series env c = Some d'
           /\ 4 * List.length d < 5 * count notna_date d)
  /\ (r = Text <-> r <> Numeric /\ r <> Date)
  /\ column_warnings env df_o df_c (oc, cc)
     = emit (negb (Nat.eqb (count isna o) (count isna c)))
         (NullCountChanged cc (count isna o) (count isna c))
       ++ role_warnings env cc o c
  /\ (r <> Numeric ->
      Forall (fun w => warning_role w = Some r) (role_warnings env cc o c))
  /\ (r = Numeric ->
      Forall (fun w => warning_role w = Some Numeric)
        (numeric_warnings env cc orig_numeric clean_numeric)
      /\ (numeric_raises env cc orig_numeric clean_numeric = true
          <-> Exists both_boolean (statistics env cc orig_numeric clean_numeric))
      /\ (numeric_raises env cc orig_numeric clean_numeric = false ->
          role_warnings env cc o c
          = numeric_warnings env cc orig_numeric clean_numeric)
      /\ (numeric_raises env cc orig_numeric clean_numeric = true ->
          role_warnings env cc o c
          = numeric_warnings env cc orig_numeric clean_numeric
            ++ later_warnings env cc o c
          /\ Forall (fun w => warning_role w = Some (later_role env o c))
               (later_warnings env cc o c))).
Proof.
  intros So Sc r orig_numeric clean_numeric.
  assert (R : r = role_by_rows env o c) by reflexivity.
  unfold role_by_rows in R.
  assert (RN : r = Numeric <-> 4 * List.length o < 5 * numeric_hits env o).
  { unfold r. rewrite role_numeric_iff. apply Nat.ltb_lt. }
  split; [exact RN|].
  split; [|split; [|split; [|split]]].
  - split.
    + intros E. split; [rewrite <- RN; congruence|].
      rewrite E in R.
      destruct (_ <? _)%nat; [discriminate|].
      destruct (to_datetime_series env o) as [d|]; [|discriminate].
      destruct (to_datetime_series env c) as [d'|]; [|discriminate].
      exists d, d'. split; [reflexivity|]. split; [reflexivity|].
      destruct (Nat.ltb_spec (4 * List.length d) (5 * count notna_date d));
        [assumption|discriminate].
    + intros (N & d & d' & Ed & Ed' & L).
      apply Nat.ltb_nlt in N. apply Nat.ltb_lt in L.
      now rewrite N, Ed, Ed', L in R.
  - split.
    + intros E. split; congruence.
    + intros [N D]. destruct r; congruence.
  - unfold column_warnings, audit_column, column_checks. rewrite So, Sc.
    rewrite typed_checks_extend, warn_if_extend, extend_extend.
    cbn [extend log empty_state app]. reflexivity.
  - intros N. rewrite (role_warnings_later env cc o c N).
    assert (E : (4 * List.length o <? 5 * numeric_hits env o)%nat = false).
    { apply not_true_is_false. intros K. apply N.
      now apply role_numeric_iff. }
    unfold r. rewrite (proj1 (role_by_rows_later env o c E)).
    apply later_warnings_family.
  - intros N. split; [apply numeric_warnings_family|].
    split; [apply until_raise_raises|].
    unfold role_warnings. fold r. rewrite N. fold orig_numeric clean_numeric.
    split.
    + intros ->. apply app_nil_r.
    + intros ->. split; [reflexivity|apply later_warnings_family].
Qed.

Lemma role_warnings_column col o c :
  Forall (fun w => compared_column w = Some col) (role_warnings env col o c).
Proof.
  assert (N : Forall (fun w => compared_column w = Some col)
                (numeric_warnings env col (to_numeric_coerce env o)
                   (to_numeric_coerce env c))).
  { apply until_raise_Forall. intros t Ht. cbn in Ht.
    repeat (destruct Ht as [<-|Ht]; [reflexivity|]). destruct Ht. }
  assert (T : Forall (fun w => compared_column w = Some col)
                (text_warnings env col o c)).
  { unfold text_warnings. apply Forall_app. split; now apply Forall_emit. }
  assert (L : Forall (fun w => compared_column w = Some col)
                (later_warnings env col o c)).
  { unfold later_warnings. destruct (later_role env o c); try exact T.
    destruct (to_datetime_series env o), (to_datetime_series env c);
      try constructor.
    unfold date_warnings. apply Forall_app. split; [now apply Forall_emit|].
    destruct (_ && _); [|constructor].
    apply Forall_app. split; now apply Forall_emit. }
  unfold role_warnings. destruct (role_by_rows env o c); try exact L.
  apply Forall_app. split; [exact N|].
  destruct (numeric_raises env col _ _); [exact L|constructor].
Qed.

(** C8.  No exception aborts the audit: the log is made of the warnings that
    each pair of columns produces on its own, in order.  When the checks of
    a pair raise, that is, when an exception leaves the body of the [try] of
    the loop, the pair adds exactly one warning and the verdict is fail.
    For a pair of two series nothing leaves that body: an exception inside
    the numeric block or the date block is passed over there, adds no
    warning of its own, and the pair gets the null-count check and the
    comparisons of its role. *)
Theorem audit_error_is_contained (df_o df_c : frame)
  (pre post : list (string * string)) (orig_col clean_col : string) :
  combine (columns df_o) (columns df_c) = pre ++ (orig_col, clean_col) :: post ->
  log (audit_dataframe env df_o df_c)
  = log (shape_checks df_o df_c)
    ++ flat_map (column_warnings env df_o df_c) pre
    ++ column_warnings env df_o df_c (orig_col, clean_col)
    ++ flat_map (column_warnings env df_o df_c) post
  /\ (forall st e,
        snd (column_checks env df_o df_c orig_col clean_col st) = Some e ->
        column_warnings env df_o df_c (orig_col, clean_col)
        = [AuditError clean_col e]
        /\ audit_passed (audit_dataframe env df_o df_c) = false)
  /\ (forall a b o c,
        In (a, b) (pre ++ (orig_col, clean_col) :: post) ->
        select df_o a = Series o -> select df_c b = Series c ->
        column_warnings env df_o df_c (a, b)
        = emit (negb (Nat.eqb (count isna o) (count isna c)))
            (NullCountChanged b (count isna o) (count isna c))
          ++ role_warnings env b o c
        /\ Forall (fun w => compared_column w = Some b)
             (column_warnings env df_o df_c (a, b))).
Proof.
  intros Hpairs.
  assert (L : log (audit_dataframe env df_o df_c)
              = log (shape_checks df_o df_c)
                ++ flat_map (column_warnings env df_o df_c) pre
                ++ column_warnings env df_o df_c (orig_col, clean_col)
                ++ flat_map (column_warnings env df_o df_c) post).
  { rewrite audit_dataframe_log, Hpairs, flat_map_app. reflexivity. }
  split; [exact L|]. split.
  - intros st e Hraise.
    assert (W : column_warnings env df_o df_c (orig_col, clean_col)
                = [AuditError clean_col e]).
    { unfold column_warnings, audit_column.
      now rewrite (column_checks_raises env _ _ _ _ _ _ Hraise). }
    split; [exact W|].
    rewrite audit_dataframe_log, Hpairs, flat_map_app.
    cbn [flat_map]. rewrite W.
    apply (extend_failed _ _ (AuditError clean_col e)).
    apply in_or_app. right. now left.
  - intros a b o c _ So Sc.
    assert (W : column_warnings env df_o df_c (a, b)
                = emit (negb (Nat.eqb (count isna o) (count isna c)))
                    (NullCountChanged b (count isna o) (count isna c))
                  ++ role_warnings env b o c).
    { unfold column_warnings, audit_column, column_checks. rewrite So, Sc.
      rewrite typed_checks_extend, warn_if_extend, extend_extend.
      cbn [extend log empty_state app]. reflexivity. }
    split; [exact W|]. rewrite W.
    apply Forall_app. split; [now apply Forall_emit|].
    apply role_warnings_column.
Qed.

Lemma flat_map_ext_in {A B : Type} (f g : A -> list B) l :
  (forall x, In x l -> f x = g x) -> flat_map f l = flat_map g l.
Proof.
  induction l as [|a l IH]; intros H; [reflexivity|].
  cbn [flat_map]. rewrite (H a (or_introl eq_refl)), IH; [reflexivity|].
  intros x Hx. apply H. now right.
Qed.

Lemma combine_shorter {A B : Type} (l : list A) (l' : list B) :
  let k := Nat.min (List.length l) (List.length l') in
  combine l l' = combine (firstn k l) (firstn k l').
Proof.
  intros k. rewrite <- combine_firstn.
  symmetry. replace k with (List.length (combine l l')); [apply firstn_all|].
  apply length_combine.
Qed.

Lemma columns_skipn k df : columns (skipn k df) = skipn k (columns df).
Proof. unfold columns. symmetry. apply skipn_map. Qed.

(** A label that does not come back after the first [k] columns selects the
    same columns in the frame and in its first [k] columns. *)
Lemma select_firstn df k l :
  ~ In l (skipn k (columns df)) -> select (firstn k df) l = select df l.
Proof.
  intros N. rewrite !select_unfold.
  rewrite <- (firstn_skipn k df) at 2. rewrite filter_app.
  rewrite (filter_label_absent (skipn k df) l).
  - now rewrite app_nil_r.
  - now rewrite columns_skipn.
Qed.

(** C10.  When the two frames have different numbers of columns and no label
    of the first [min(original columns, cleaned columns)] columns of a frame
    occurs again after them, the audit records the column-count warning,
    fails, and runs the per-column checks on the pairs of those first
    columns by position only: its log is the one it writes for the two
    frames cut down to that prefix, so the columns beyond the prefix add
    nothing. *)
Theorem audit_stops_at_shorter_frame (df_o df_c : frame) :
  let k := Nat.min (List.length (columns df_o)) (List.length (columns df_c)) in
  prefix_apart k (columns df_o) ->
  prefix_apart k (columns df_c) ->
  List.length (columns df_o) <> List.length (columns df_c) ->
  List.length (combine (columns df_o) (columns df_c)) = k
  /\ log (audit_dataframe env df_o df_c)
     = log (shape_checks df_o df_c)
       ++ flat_map (column_warnings env (firstn k df_o) (firstn k df_c))
            (combine (columns (firstn k df_o)) (columns (firstn k df_c)))
  /\ In (ColumnCountMismatch (List.length (columns df_o))
           (List.length (columns df_c)))
        (log (audit_dataframe env df_o df_c))
  /\ audit_passed (audit_dataframe env df_o df_c) = false.
Proof.
  intros k Ao Ac Hne.
  assert (Hshape : In (ColumnCountMismatch (List.length (columns df_o))
                         (List.length (columns df_c)))
                     (log (shape_checks df_o df_c))
                   /\ audit_passed (shape_checks df_o df_c) = false).
  { unfold shape_checks. apply Nat.eqb_neq in Hne. rewrite Hne. cbn [negb].
    rewrite !warn_if_extend, extend_extend. cbn [emit].
    match goal with
    | |- In ?w (log (extend ?ws _)) /\ _ =>
        assert (Hw : In w ws) by (apply in_or_app; right; now left)
    end.
    split; [|exact (extend_failed _ _ _ Hw)].
    cbn [extend log]. apply in_or_app. now right. }
  destruct Hshape as [Hin Hfail].
  split; [apply length_combine|].
  rewrite audit_dataframe_log.
  split; [|split].
  - cbn [extend log]. f_equal.
    unfold columns at 3 4. rewrite <- !firstn_map. fold (columns df_o) (columns df_c).
    rewrite (combine_shorter (columns df_o) (columns df_c)). fold k.
    apply flat_map_ext_in. intros [oc cc] Hp.
    pose proof (in_combine_l _ _ _ _ Hp) as Ho.
    pose proof (in_combine_r _ _ _ _ Hp) as Hc.
    unfold column_warnings, audit_column, column_checks.
    now rewrite (select_firstn df_o k oc (Ao oc Ho)),
      (select_firstn df_c k cc (Ac cc Hc)).
  - cbn [extend log]. apply in_or_app. now left.
  - now apply extend_failed_before.
Qed.

End AuditTheorems.

(* ================================================================== *)
(** * Cleaning a cleaned frame again *)
(* ================================================================== *)

Module FormatFacts.

Lemma digit_char_decimal n : is_decimal (digit_char n) = true.
Proof.
  unfold digit_char.
  assert (H : (n mod 10 < 10)%N) by (apply N.mod_lt; discriminate).
  generalize dependent (n mod 10)%N. intros k H.
  destruct k as [|p]; [reflexivity|].
  do 4 (destruct p as [p|p|]; try reflexivity; try (exfalso; lia)).
Qed.

Lemma decimal_is_plain c :
  is_decimal c = true ->
  is_space c = false /\ Ascii.eqb "." c = false
  /\ Ascii.eqb c "$" = false /\ Ascii.eqb c "," = false /\ Ascii.eqb c "%" = false.
Proof.
  destruct c as [[] [] [] [] [] [] [] []]; cbn; intros H;
    try discriminate H; repeat split.
Qed.

Lemma fixed_digits_chars w : forall n c,
  has_char c (fixed_digits w n) = true -> is_decimal c = true.
Proof.
  induction w as [|w IH]; intros n c; cbn [fixed_digits]; [discriminate|].
  rewrite has_char_app. intros H. apply orb_true_iff in H as [H|H].
  - exact (IH _ _ H).
  - cbn [has_char] in H. rewrite orb_false_r in H.
    apply Ascii.eqb_eq in H. subst c. apply digit_char_decimal.
Qed.

Lemma rstrip_with_app drop a b :
  rstrip_with drop (a ++ b)%string =
  match rstrip_with drop b with
  | EmptyString => rstrip_with drop a
  | r => (a ++ r)%string
  end.
Proof.
  induction a as [|c a IH]; cbn [String.append].
  - now destruct (rstrip_with drop b).
  - rewrite !rstrip_with_cons, IH.
    destruct (rstrip_with drop b); [reflexivity|].
    cbn [String.append]. now destruct a.
Qed.

Lemma rstrip_with_last drop a c :
  drop c = false ->
  rstrip_with drop (a ++ String c "")%string = (a ++ String c "")%string.
Proof.
  intros H. rewrite rstrip_with_app. cbn. now rewrite H.
Qed.

(** What is left after a right strip is empty or ends with a character of
    the text that is not stripped. *)
Lemma rstrip_with_shape drop s :
  rstrip_with drop s = ""
  \/ exists a c, rstrip_with drop s = (a ++ String c "")%string
                 /\ drop c = false /\ has_char c s = true.
Proof.
  induction s as [|d s IH]; [now left|].
  rewrite rstrip_with_cons.
  destruct IH as [E|(a & c & E & Hc & Hin)]; rewrite E.
  - destruct (drop d) eqn:D; [now left|].
    right. exists "", d. cbn. now rewrite Ascii.eqb_refl.
  - right. exists (String d a), c.
    split; [now destruct a|]. split; [exact Hc|].
    cbn. now rewrite Hin, orb_true_r.
Qed.

Lemma strip_fixed c0 r a c :
  is_space c0 = false -> is_space c = false ->
  String c0 r = (a ++ String c "")%string ->
  strip (String c0 r) = String c0 r.
Proof.
  intros H0 Hc E. unfold strip, rstrip.
  rewrite E, (rstrip_with_last _ _ _ Hc), <- E. cbn. now rewrite H0.
Qed.

Section Formats.

Variable d : Timestamp.

Lemma strftime_date_shape :
  exists c0 r a c,
    strftime_date d = String c0 r
    /\ strftime_date d = (a ++ String c "")%string
    /\ is_decimal c0 = true /\ is_decimal c = true.
Proof.
  exists (digit_char (year d / 10 / 10 / 10)). eexists.
  exists (fixed_digits 4 (year d) ++ "-" ++ fixed_digits 2 (month d) ++ "-"
          ++ fixed_digits 1 (day d / 10))%string, (digit_char (day d)).
  split; [reflexivity|]. split; [reflexivity|].
  split; apply digit_char_decimal.
Qed.

Lemma strftime_seconds_shape :
  exists c0 r a c,
    strftime_seconds d = String c0 r
    /\ strftime_seconds d = (a ++ String c "")%string
    /\ is_decimal c0 = true /\ is_decimal c = true.
Proof.
  exists (digit_char (year d / 10 / 10 / 10)). eexists.
  exists (strftime_date d ++ " " ++ fixed_digits 2 (hour d) ++ ":"
          ++ fixed_digits 2 (minute d) ++ ":"
          ++ fixed_digits 1 (second d / 10))%string, (digit_char (second d)).
  split; [reflexivity|]. split; [reflexivity|].
  split; apply digit_char_decimal.
Qed.

(** With microseconds, trailing zeros and then a trailing point are
    stripped: either the seconds form is left, or a fraction that ends with
    a digit. *)
Lemma strftime_micro_stripped :
  let s := rstrip_char "." (rstrip_char "0" (strftime_micro d)) in
  s = strftime_seconds d
  \/ exists a c, s = (strftime_seconds d ++ "." ++ a ++ String c "")%string
                 /\ is_decimal c = true.
Proof.
  destruct strftime_seconds_shape as (c0 & r & a0 & cl & _ & Ea & _ & Hcl).
  cbv zeta. unfold rstrip_char, strftime_micro.
  rewrite rstrip_with_app.
  change ("." ++ fixed_digits 6 (microsecond d))%string
    with (String "." (fixed_digits 6 (microsecond d))).
  rewrite rstrip_with_cons.
  destruct (rstrip_with_shape (Ascii.eqb "0") (fixed_digits 6 (microsecond d)))
    as [E|(a & c & E & Hc & Hin)]; rewrite E.
  - left. change (if Ascii.eqb "0" "." then EmptyString else String "." "")
      with (String "." "").
    cbv iota. rewrite rstrip_with_app.
    change (rstrip_with (Ascii.eqb ".") (String "." "")) with EmptyString.
    cbv iota. rewrite Ea. apply rstrip_with_last.
    now destruct (decimal_is_plain _ Hcl) as (_ & H & _).
  - right. exists a, c.
    pose proof (fixed_digits_chars _ _ _ Hin) as Dc.
    split; [|exact Dc].
    destruct (a ++ String c "")%string as [|x y] eqn:Ey;
      [destruct a; discriminate|].
    cbv iota. rewrite <- Ey.
    assert (K : (strftime_seconds d ++ String "." (a ++ String c ""))%string
                = ((strftime_seconds d ++ String "." a) ++ String c "")%string).
    { now rewrite append_assoc. }
    change ("." ++ a ++ String c "")%string with (String "." (a ++ String c "")).
    rewrite K. rewrite rstrip_with_last; [reflexivity|].
    now destruct (decimal_is_plain _ Dc) as (_ & H & _).
Qed.

Lemma format_date_shape b :
  exists c0 r a c,
    format_date b d = String c0 r
    /\ format_date b d = (a ++ String c "")%string
    /\ is_decimal c0 = true /\ is_decimal c = true.
Proof.
  unfold format_date. destruct b; [|apply strftime_date_shape].
  destruct (0 <? microsecond d)%N; [|apply strftime_seconds_shape].
  destruct strftime_seconds_shape as (c0 & r & a0 & cl & E0 & Ea & H0 & Hcl).
  destruct strftime_micro_stripped as [E|(a & c & E & Hc)]; cbv zeta in E; rewrite E.
  - now exists c0, r, a0, cl.
  - exists c0, (r ++ "." ++ a ++ String c "")%string,
      (strftime_seconds d ++ "." ++ a)%string, c.
    split; [now rewrite E0|].
    split; [now rewrite append_assoc|]. now split.
Qed.

Lemma format_date_stripped b : strip (format_date b d) = format_date b d.
Proof.
  destruct (format_date_shape b) as (c0 & r & a & c & E0 & Ea & H0 & Hc).
  rewrite E0. apply (strip_fixed c0 r a c).
  - now destruct (decimal_is_plain _ H0).
  - now destruct (decimal_is_plain _ Hc).
  - now rewrite <- E0.
Qed.

(** A formatted date holds digits, hyphens, a space, colons and a point. *)
Lemma format_date_plain b c :
  c = "$"%char \/ c = ","%char \/ c = "%"%char ->
  has_char c (format_date b d) = false.
Proof.
  intros Hc.
  assert (F : forall w n, has_char c (fixed_digits w n) = false).
  { intros w n. destruct (has_char c (fixed_digits w n)) eqn:E; [|reflexivity].
    apply fixed_digits_chars in E.
    destruct Hc as [-> | [-> | ->]]; discriminate. }
  assert (D : has_char c (strftime_date d) = false).
  { unfold strftime_date. rewrite !has_char_app, !F.
    destruct Hc as [-> | [-> | ->]]; reflexivity. }
  assert (S : has_char c (strftime_seconds d) = false).
  { unfold strftime_seconds. rewrite !has_char_app, !F, D.
    destruct Hc as [-> | [-> | ->]]; reflexivity. }
  unfold format_date. destruct b; [|exact D].
  destruct (0 <? microsecond d)%N; [|exact S].
  unfold rstrip_char. do 2 apply has_char_rstrip_with_false.
  unfold strftime_micro. rewrite !has_char_app, F, S.
  destruct Hc as [-> | [-> | ->]]; reflexivity.
Qed.

End Formats.

End FormatFacts.

Section HeaderFacts.

Lemma apply_rules_cons r rules s :
  apply_rules (r :: rules) s = apply_rules rules (replace (fst r) (snd r) s).
Proof. reflexivity. Qed.

Lemma apply_rules_absent c rules : forall s,
  forallb (fun r => negb (has_char c (snd r))) rules = true ->
  existsb (fun r => Ascii.eqb (fst r) c) rules = true \/ has_char c s = false ->
  has_char c (apply_rules rules s) = false.
Proof.
  induction rules as [|[c0 n0] rules IH]; intros s Hnew Hc.
  - destruct Hc as [Hc|Hc]; [discriminate|exact Hc].
  - rewrite apply_rules_cons. cbn [fst snd].
    cbn [forallb snd] in Hnew. apply andb_true_iff in Hnew as [Hn0 Hnew].
    apply negb_true_iff in Hn0.
    apply IH; [exact Hnew|].
    destruct (Ascii.eqb c0 c) eqn:E0.
    + right. apply Ascii.eqb_eq in E0. subst c0.
      now apply has_char_replace_self.
    + destruct Hc as [Hc|Hc].
      * left. cbn [existsb fst] in Hc. now rewrite E0 in Hc.
      * right. now apply has_char_replace_false.
Qed.

Lemma apply_rules_fixed rules : forall s,
  forallb (fun r => negb (has_char (fst r) s)) rules = true ->
  apply_rules rules s = s.
Proof.
  induction rules as [|[c0 n0] rules IH]; intros s H; [reflexivity|].
  cbn [forallb fst] in H. apply andb_true_iff in H as [H0 H].
  apply negb_true_iff in H0.
  rewrite apply_rules_cons. cbn [fst snd].
  rewrite (replace_absent _ _ _ H0). now apply IH.
Qed.

(** A cleaned header holds none of the characters that the rules replace. *)
Lemma clean_header_free name :
  forallb (fun r => negb (has_char (fst r) (clean_header name))) header_rules = true.
Proof.
  apply forallb_forall. intros [c n] Hin.
  apply negb_true_iff. cbn [fst]. unfold clean_header.
  assert (K : forallb (fun r => negb (has_char c (snd r))) header_rules
              && existsb (fun r => Ascii.eqb (fst r) c) header_rules = true).
  { assert (A : forallb
                  (fun q => forallb (fun r => negb (has_char (fst q) (snd r)))
                              header_rules
                            && existsb (fun r => Ascii.eqb (fst r) (fst q))
                                 header_rules)
                  header_rules = true) by reflexivity.
    rewrite forallb_forall in A. exact (A (c, n) Hin). }
  apply andb_true_iff in K as [K1 K2].
  apply apply_rules_absent; [exact K1|now left].
Qed.

End HeaderFacts.

Section SecondPass.

Variable env : External.


Lemma without_fixed c s :
  let cleaned := without c s in
  without c cleaned = cleaned /\ strip cleaned = cleaned.
Proof.
  cbv zeta. unfold without.
  set (t := replace "," "" (replace c "" s)).
  assert (Hc : has_char c (strip t) = false).
  { apply has_char_strip_false. unfold t.
    apply has_char_replace_false; [|reflexivity].
    now apply has_char_replace_self. }
  assert (Hk : has_char "," (strip t) = false).
  { apply has_char_strip_false. unfold t. now apply has_char_replace_self. }
  rewrite (replace_absent _ _ _ Hc), (replace_absent _ _ _ Hk).
  now rewrite !strip_idem.
Qed.







End SecondPass.

(* ================================================================== *)
(** * The program on concrete frames *)
(* ================================================================== *)

Section Runs.

Import Examples.

(** The end-to-end scenario: the cleaned table, and an audit that passes. *)
Lemma sales_run :
  clean_frame Reference.env sales = Some sales_cleaned
  /\ audit_dataframe Reference.env sales sales_cleaned = empty_state.
Proof. split; vm_compute; reflexivity. Qed.

(** The examples of the date detector. *)
Lemma date_examples :
  detect_and_clean_dates Reference.env (CStr "2024-01-15") "created_at" = CStr "2024-01-15"
  /\ detect_and_clean_dates Reference.env (CStr "20240115") "id" = CStr "20240115"
  /\ detect_and_clean_dates Reference.env (CStr "1/15/2024 9:30") "updated_on"
     = CStr "2024-01-15 09:30:00".
Proof. repeat split; vm_compute; reflexivity. Qed.


(** C2 as the claim words it fails: three of the three present values of
    [scores] are numbers, but they are three of four rows, so the column is
    audited as Text and a hundredfold change of one number goes unnoticed.
    And the role does not settle the statistics compared: the column [flags]
    of booleans is Numeric, its means are compared, the subtraction of its
    minima raises, and the string checks follow. *)
Lemma missing_rows_count_in_the_fraction :
  role_by_present_values Reference.env scores = Numeric
  /\ role_by_rows Reference.env scores scores_changed = Text
  /\ audit_dataframe Reference.env [("score", scores)] [("score", scores_changed)]
     = empty_state
  /\ numeric_warnings Reference.env "score" (to_numeric_coerce Reference.env scores)
       (to_numeric_coerce Reference.env scores_changed)
     = [ MeanChanged "score" (Float64 2) (Float64 101);
         MaxChanged "score" (Float64 3) (Float64 300);
         SumChanged "score" (Float64 6) (Float64 303) ]
  /\ role_by_rows Reference.env flags flags_changed = Numeric
  /\ log (audit_dataframe Reference.env [("flag", flags)] [("flag", flags_changed)])
     = [ MeanChanged "flag" (Float64 0.5) (Float64 1);
         UniqueCountChanged "flag" 2 1 ].
Proof. repeat split; vm_compute; reflexivity. Qed.

(** C8 as the claim words it fails: in the audit of the column [flags]
    against itself the numeric block raises when it subtracts the two
    minima, two booleans; the exception is passed over inside the block, no
    warning is written for the column and the audit passes. *)
Lemma boolean_subtraction_is_passed_over :
  role_by_rows Reference.env flags flags = Numeric
  /\ numeric_checks Reference.env "flag" (to_numeric_coerce Reference.env flags)
       (to_numeric_coerce Reference.env flags) empty_state
     = (empty_state, Some BooleanSubtract)
  /\ log (audit_dataframe Reference.env [("flag", flags)] [("flag", flags)]) = []
  /\ audit_passed (audit_dataframe Reference.env [("flag", flags)] [("flag", flags)])
     = true.
Proof. repeat split; vm_compute; reflexivity. Qed.


(** C10 as the claim words it fails: the third column of the cleaned frame
    [wide_repeated] lies beyond the two columns of [narrow], yet its label
    makes the check of the first pair raise; with another label ([wide]) the
    warning is gone. *)
Lemma column_beyond_the_prefix_adds_a_warning :
  log (audit_dataframe Reference.env narrow wide_repeated)
  = [ColumnCountMismatch 2 3; AuditError "a_b" AmbiguousTruthValue]
  /\ log (audit_dataframe Reference.env narrow wide) = [ColumnCountMismatch 2 3]
  /\ firstn 2 wide_repeated = firstn 2 wide.
Proof. repeat split; vm_compute; reflexivity. Qed.

(** ** The theorems at concrete frames *)

Lemma clean_currency_and_numbers_at_price :
  is_missing (CStr "$1,200.50") = false
  /\ py_float (replace "," "" (replace "$" "" "$1,200.50")) = Some 1200.5%float
  /\ clean_currency_and_numbers Reference.env (CStr "$1,200.50")
     = CStr (strip (replace "," "" (replace "$" "" "$1,200.50"))).
Proof.
  split; [reflexivity|]. split; [reflexivity|].
  exact (proj1 (clean_currency_and_numbers_spec Reference.env
                  (CStr "$1,200.50") eq_refl) 1200.5%float eq_refl).
Defined.

Lemma detect_and_clean_dates_skips_at_id :
  is_missing (CStr "20240115") = false
  /\ is_plain_8_digits (text_of Reference.env (CStr "20240115")) = true
  /\ is_date_column "id" = false
  /\ detect_and_clean_dates Reference.env (CStr "20240115") "id" = CStr "20240115".
Proof.
  split; [reflexivity|]. split; [reflexivity|]. split; [reflexivity|].
  exact (proj1 (detect_and_clean_dates_skips Reference.env (CStr "20240115") "id"
                  eq_refl
                  (or_intror (or_intror (or_introl (conj eq_refl eq_refl)))))).
Defined.

Lemma date_detector_gate_at_sales :
  clean_frame Reference.env sales = Some sales_cleaned
  /\ Forall2 (gate_respected Reference.env) sales sales_cleaned.
Proof.
  split; [vm_compute; reflexivity|].
  apply (date_detector_gate Reference.env sales sales_cleaned).
  vm_compute; reflexivity.
Defined.

Lemma audit_role_of_column_at_flags :
  select [("flag", flags)] "flag" = Series flags
  /\ select [("flag", flags_changed)] "flag" = Series flags_changed
  /\ role_by_rows Reference.env flags flags_changed = Numeric
  /\ numeric_raises Reference.env "flag" (to_numeric_coerce Reference.env flags)
       (to_numeric_coerce Reference.env flags_changed) = true
  /\ column_warnings Reference.env [("flag", flags)] [("flag", flags_changed)]
       ("flag", "flag")
     = emit (negb (Nat.eqb (count isna flags) (count isna flags_changed)))
         (NullCountChanged "flag" (count isna flags) (count isna flags_changed))
       ++ role_warnings Reference.env "flag" flags flags_changed
  /\ role_warnings Reference.env "flag" flags flags_changed
     = numeric_warnings Reference.env "flag" (to_numeric_coerce Reference.env flags)
         (to_numeric_coerce Reference.env flags_changed)
       ++ later_warnings Reference.env "flag" flags flags_changed.
Proof.
  assert (R : role_by_rows Reference.env flags flags_changed = Numeric)
    by (vm_compute; reflexivity).
  assert (N : numeric_raises Reference.env "flag"
                (to_numeric_coerce Reference.env flags)
                (to_numeric_coerce Reference.env flags_changed) = true)
    by (vm_compute; reflexivity).
  split; [reflexivity|]. split; [reflexivity|]. split; [exact R|].
  split; [exact N|].
  pose proof (audit_role_of_column Reference.env
                [("flag", flags)] [("flag", flags_changed)]
                "flag" "flag" flags flags_changed eq_refl eq_refl) as T.
  cbv zeta in T. destruct T as (_ & _ & _ & W & _ & K).
  split; [exact W|].
  exact (proj1 (proj2 (proj2 (proj2 (K R))) N)).
Defined.

Lemma audit_error_is_contained_at_collision :
  combine (columns collided) (columns collided_cleaned)
  = [] ++ ("a b", "a_b") :: [("a_b", "a_b"); ("c", "c")]
  /\ snd (column_checks Reference.env collided collided_cleaned "a b" "a_b"
            empty_state) = Some AmbiguousTruthValue
  /\ log (audit_dataframe Reference.env collided collided_cleaned)
     = log (shape_checks collided collided_cleaned)
       ++ flat_map (column_warnings Reference.env collided collided_cleaned) []
       ++ column_warnings Reference.env collided collided_cleaned ("a b", "a_b")
       ++ flat_map (column_warnings Reference.env collided collided_cleaned)
            [("a_b", "a_b"); ("c", "c")]
  /\ column_warnings Reference.env collided collided_cleaned ("a b", "a_b")
     = [AuditError "a_b" AmbiguousTruthValue]
  /\ audit_passed (audit_dataframe Reference.env collided collided_cleaned) = false.
Proof.
  split; [reflexivity|]. split; [reflexivity|].
  pose proof (audit_error_is_contained Reference.env collided collided_cleaned
                [] [("a_b", "a_b"); ("c", "c")] "a b" "a_b" eq_refl) as T.
  destruct T as (L & E & _).
  split; [exact L|].
  exact (E empty_state AmbiguousTruthValue eq_refl).
Defined.


Lemma audit_stops_at_shorter_frame_at_wide :
  prefix_apart 2 (columns narrow)
  /\ prefix_apart 2 (columns wide_twice)
  /\ List.length (combine (columns narrow) (columns wide_twice)) = 2
  /\ log (audit_dataframe Reference.env narrow wide_twice)
     = log (shape_checks narrow wide_twice)
       ++ flat_map (column_warnings Reference.env (firstn 2 narrow)
                      (firstn 2 wide_twice))
            (combine (columns (firstn 2 narrow)) (columns (firstn 2 wide_twice))).
Proof.
  assert (N : prefix_apart 2 (columns narrow)) by (intros l _ []).
  assert (W : prefix_apart 2 (columns wide_twice)).
  { intros l Hl Hr. cbn in Hl, Hr.
    destruct Hl as [<-|[<-|[]]]; destruct Hr as [E|[E|[]]]; discriminate E. }
  split; [exact N|]. split; [exact W|].
  assert (D : List.length (columns narrow) <> List.length (columns wide_twice))
    by (cbn; lia).
  pose proof (audit_stops_at_shorter_frame Reference.env narrow wide_twice N W D) as T.
  exact (conj (proj1 T) (proj1 (proj2 T))).
Defined.

End Runs.

(* ================================================================== *)
(** * Further properties of the program *)
(* ================================================================== *)

(** ** The comparison [abs(x - y) > tolerance] *)

Module FloatFacts.


(** A difference that is zero or NaN exceeds no tolerance. *)
Lemma differ_of_difference x y :
  match Prim2SF (x - y) with
  | S754_nan | S754_zero _ => True
  | _ => False
  end -> differ x y = false.
Proof.
  unfold differ. rewrite ltb_spec, abs_spec.
  destruct (Prim2SF (x - y)); try contradiction; intros _; vm_compute; reflexivity.
Qed.

Lemma differ_same x : differ x x = false.
Proof.
  apply differ_of_difference. rewrite sub_spec.
  destruct (Prim2SF x) as [s| s | |s m e].
  - destruct s; exact I.
  - destruct s; exact I.
  - exact I.
  - unfold SF64sub, SFsub. rewrite Z.sub_diag. exact I.
Qed.

Lemma is_nan_spec x : is_nan x = true -> Prim2SF x = S754_nan.
Proof.
  unfold is_nan. rewrite eqb_spec.
  destruct (Prim2SF x) as [s| s | |s m e]; auto; intros H; exfalso.
  - destruct s; discriminate.
  - destruct s; discriminate.
  - unfold SFeqb, SFcompare in H. destruct s.
    + rewrite Z.compare_refl, Pos.compare_cont_refl in H. discriminate.
    + rewrite Z.compare_refl, Pos.compare_cont_refl in H. discriminate.
Qed.

Lemma differ_nan x y : is_nan x = true \/ is_nan y = true -> differ x y = false.
Proof.
  intros H. apply differ_of_difference. rewrite sub_spec.
  destruct H as [H|H]; apply is_nan_spec in H; rewrite H.
  - reflexivity.
  - destruct (Prim2SF x); reflexivity.
Qed.

(** The comparison of two statistics. *)
Lemma differs_floats x y : differs (Float64 x) (Float64 y) = Some (differ x y).
Proof. reflexivity. Qed.

Lemma differs_same v : differs v v = None \/ differs v v = Some false.
Proof.
  destruct v as [x|z|z|b]; unfold differs; cbn [scalar_sub scalar_abs].
  - right. change (Some (differ x x) = Some false). now rewrite differ_same.
  - right. rewrite Z.sub_diag. vm_compute. reflexivity.
  - right. rewrite Z.sub_diag. vm_compute. reflexivity.
  - now left.
Qed.

Lemma differs_nan a b :
  scalar_is_nan a = true \/ scalar_is_nan b = true -> differs a b <> Some true.
Proof.
  unfold scalar_is_nan.
  intros [H|H]; apply negb_true_iff in H.
  - destruct a as [x| | |]; try discriminate H. cbn in H.
    apply negb_false_iff in H.
    assert (E : differs (Float64 x) b = Some (differ x (to_float64 b)))
      by now destruct b.
    rewrite E, (differ_nan x _ (or_introl H)). discriminate.
  - destruct b as [y| | |]; try discriminate H. cbn in H.
    apply negb_false_iff in H.
    assert (E : differs a (Float64 y) = Some (differ (to_float64 a) y))
      by now destruct a.
    rewrite E, (differ_nan _ y (or_intror H)). discriminate.
Qed.

End FloatFacts.

Import FloatFacts.

(** ** The audit: verdict, identical frames, numeric warnings *)

Section MoreAudit.

Variable env : External.

Lemma shape_checks_extend df_o df_c :
  shape_checks df_o df_c
  = extend (emit (negb (Nat.eqb (nrows df_o) (nrows df_c)))
              (RowCountMismatch (nrows df_o) (nrows df_c))
            ++ emit (negb (Nat.eqb (List.length (columns df_o))
                             (List.length (columns df_c))))
                 (ColumnCountMismatch (List.length (columns df_o))
                    (List.length (columns df_c))))
      empty_state.
Proof.
  unfold shape_checks, warn_if, emit.
  destruct (negb _), (negb _); reflexivity.
Qed.

(** The whole audit as one list of warnings. *)
Lemma audit_dataframe_warnings df_o df_c :
  exists ws,
    audit_dataframe env df_o df_c = extend ws empty_state
    /\ ws = (emit (negb (Nat.eqb (nrows df_o) (nrows df_c)))
               (RowCountMismatch (nrows df_o) (nrows df_c))
             ++ emit (negb (Nat.eqb (List.length (columns df_o))
                              (List.length (columns df_c))))
                  (ColumnCountMismatch (List.length (columns df_o))
                     (List.length (columns df_c))))
            ++ flat_map (column_warnings env df_o df_c)
                 (combine (columns df_o) (columns df_c)).
Proof.
  eexists. split; [|reflexivity].
  rewrite audit_dataframe_log, shape_checks_extend, extend_extend. reflexivity.
Qed.

Lemma in_emit b (w w' : warning) : In w (emit b w') -> b = true /\ w = w'.
Proof.
  destruct b; cbn; [intros [<-|[]]; auto | intros []].
Qed.

Lemma date_eqb_refl a : date_eqb a a = true.
Proof.
  destruct a as [[y m] d]. unfold date_eqb. now rewrite !N.eqb_refl.
Qed.

Lemma until_raise_same l :
  (forall t, In t l -> snd (fst t) = snd t) -> fst (until_raise l) = [].
Proof.
  induction l as [|[[changed o] c] l IH]; intros H; [reflexivity|].
  cbn [until_raise].
  assert (E : o = c) by exact (H (changed, o, c) (or_introl eq_refl)).
  subst c. destruct (differs_same o) as [-> | ->]; [reflexivity|].
  cbn [fst emit app]. apply IH. intros t Ht. apply H. now right.
Qed.

Lemma later_warnings_same col s : later_warnings env col s s = [].
Proof.
  assert (T : text_warnings env col s s = [])
    by (unfold text_warnings; now rewrite !Nat.eqb_refl).
  unfold later_warnings. destruct (later_role env s s); try exact T.
  destruct (to_datetime_series env s) as [d|]; [|reflexivity].
  unfold date_warnings. rewrite Nat.eqb_refl, !date_eqb_refl. cbn.
  now destruct (_ && _).
Qed.

Lemma role_warnings_same col s : role_warnings env col s s = [].
Proof.
  unfold role_warnings. destruct (role_by_rows env s s);
    try apply later_warnings_same.
  unfold numeric_warnings. rewrite until_raise_same.
  - rewrite later_warnings_same. now destruct (numeric_raises env col _ _).
  - intros t Ht. cbn in Ht.
    repeat (destruct Ht as [<-|Ht]; [reflexivity|]). destruct Ht.
Qed.

Lemma in_until_raise w l :
  In w (fst (until_raise l)) ->
  exists t,
    In t l /\ w = fst (fst t) (snd (fst t)) (snd t)
    /\ differs (snd (fst t)) (snd t) = Some true.
Proof.
  induction l as [|[[changed o] c] l IH]; [intros []|].
  cbn [until_raise]. destruct (differs o c) as [b|] eqn:D; [|intros []].
  cbn [fst]. intros H. apply in_app_iff in H as [H|H].
  - apply in_emit in H as [-> ->]. exists (changed, o, c).
    split; [now left|]. now split.
  - destruct (IH H) as (t & Ht & E & K). exists t. split; [now right|].
    now split.
Qed.

Lemma later_warnings_not_reported col o c w :
  In w (later_warnings env col o c) -> reported w = None.
Proof.
  assert (T : In w (text_warnings env col o c) -> reported w = None).
  { unfold text_warnings. intros H. apply in_app_iff in H as [H|H];
      apply in_emit in H as [_ ->]; reflexivity. }
  unfold later_warnings. destruct (later_role env o c); try exact T.
  destruct (to_datetime_series env o), (to_datetime_series env c);
    try (intros []).
  unfold date_warnings. intros H. apply in_app_iff in H as [H|H].
  { apply in_emit in H as [_ ->]. reflexivity. }
  destruct (_ && _); [|destruct H].
  apply in_app_iff in H as [H|H]; apply in_emit in H as [_ ->]; reflexivity.
Qed.

Lemma select_label df l :
  NoDup (columns df) -> In l (columns df) -> exists s, select df l = Series s.
Proof.
  intros ND Hin. apply in_map_iff in Hin as [[l' s] [<- Hin]].
  exists s. exact (select_nodup df (l', s) ND Hin).
Qed.

Lemma column_warnings_series df_o df_c oc cc o c :
  select df_o oc = Series o -> select df_c cc = Series c ->
  column_warnings env df_o df_c (oc, cc)
  = emit (negb (Nat.eqb (count isna o) (count isna c)))
      (NullCountChanged cc (count isna o) (count isna c))
    ++ role_warnings env cc o c.
Proof.
  intros Ho Hc. unfold column_warnings, audit_column, column_checks.
  rewrite Ho, Hc, typed_checks_extend. unfold warn_if, emit.
  destruct (negb _); reflexivity.
Qed.

Lemma column_warnings_frame df_o df_c oc cc :
  (forall o, select df_o oc <> Series o) \/ (forall c, select df_c cc <> Series c) ->
  exists e, column_warnings env df_o df_c (oc, cc) = [AuditError cc e].
Proof.
  intros H. unfold column_warnings, audit_column, column_checks.
  destruct (select df_o oc) as [o|fo], (select df_c cc) as [c|fc].
  - destruct H as [H|H]; [now destruct (H o) | now destruct (H c)].
  - eexists; reflexivity.
  - eexists; reflexivity.
  - destruct (_ && _); eexists; reflexivity.
Qed.

Lemma flat_map_nil {A B} (f : A -> list B) l :
  flat_map f l = [] <-> forall x, In x l -> f x = [].
Proof.
  induction l as [|a l IH]; cbn.
  - split; [intros _ x []|reflexivity].
  - split.
    + intros H x [<-|Hx]; apply app_eq_nil in H as [H1 H2]; [exact H1|].
      now apply IH.
    + intros H. rewrite (H a (or_introl eq_refl)). apply IH.
      intros x Hx. apply H. now right.
Qed.

Lemma in_combine_same {A} (l : list A) a b :
  In (a, b) (combine l l) <-> a = b /\ In a l.
Proof.
  induction l as [|x l IH]; cbn.
  - tauto.
  - rewrite IH. split.
    + intros [H|[-> H]]; [inversion H; subst; auto|auto].
    + intros [-> [->|H]]; auto.
Qed.

(** X12. [audit_dataframe] returns [True] exactly when it has written no
    warning to the log. *)
Theorem audit_passes_iff_nothing_is_logged df_original df_cleaned :
  audit_passed (audit_dataframe env df_original df_cleaned) = true
  <-> log (audit_dataframe env df_original df_cleaned) = [].
Proof.
  destruct (audit_dataframe_warnings df_original df_cleaned) as [ws [-> _]].
  unfold extend, empty_state. cbn. destruct ws; cbn; split; intros H;
    try reflexivity; discriminate.
Qed.

(** X13. Auditing a frame against itself writes no warning and passes
    exactly when no label occurs twice among its columns; with a repeated
    label the audit fails although nothing was changed. *)
Theorem audit_of_a_frame_against_itself df :
  audit_dataframe env df df = empty_state <-> NoDup (columns df).
Proof.
  rewrite audit_dataframe_log, shape_checks_extend, !Nat.eqb_refl. cbn [negb emit app].
  rewrite extend_nil. split.
  - intros H.
    assert (L : flat_map (column_warnings env df df) (combine (columns df) (columns df)) = []).
    { apply (f_equal log) in H. exact H. }
    apply (NoDup_count_occ' string_dec). intros l Hl.
    assert (W := proj1 (flat_map_nil _ _) L (l, l)
                   (proj2 (in_combine_same _ l l) (conj eq_refl Hl))).
    destruct (select df l) as [s|fr] eqn:E.
    + exact (select_series_once df l s E).
    + destruct (column_warnings_frame df df l l) as [e He].
      { left. intros o. rewrite E. discriminate. }
      rewrite He in W. discriminate.
  - intros ND.
    replace (flat_map _ _) with (@nil warning); [apply extend_nil|].
    symmetry. apply flat_map_nil. intros [a b] Hin.
    apply in_combine_same in Hin as [<- Hin].
    destruct (select_label df a ND Hin) as [s Hs].
    rewrite (column_warnings_series df df a a s s Hs Hs).
    now rewrite Nat.eqb_refl, role_warnings_same.
Qed.

(** X14. A warning about a mean, a minimum, a maximum or a sum is written
    only for two statistics that are both numbers and lie more than the
    tolerance apart: a statistic that is NaN never produces one. *)
Theorem numeric_warning_reports_two_numbers df_original df_cleaned w a b :
  In w (log (audit_dataframe env df_original df_cleaned)) ->
  reported w = Some (a, b) ->
  scalar_is_nan a = false /\ scalar_is_nan b = false /\ differs a b = Some true.
Proof.
  intros Hin R.
  assert (D : differs a b = Some true).
  { destruct (audit_dataframe_warnings df_original df_cleaned) as [ws [E ->]].
    rewrite E in Hin. cbn in Hin.
    rewrite !in_app_iff in Hin. destruct Hin as [[Hin|Hin]|Hin].
    - apply in_emit in Hin as [_ ->]. discriminate.
    - apply in_emit in Hin as [_ ->]. discriminate.
    - apply in_flat_map in Hin as [[oc cc] [_ Hin]].
      destruct (select df_original oc) as [o|fo] eqn:Eo.
      + destruct (select df_cleaned cc) as [c|fc] eqn:Ec.
        * rewrite (column_warnings_series _ _ _ _ _ _ Eo Ec) in Hin.
          apply in_app_iff in Hin as [Hin|Hin].
          { apply in_emit in Hin as [_ ->]. discriminate. }
          assert (L : In w (later_warnings env cc o c) -> differs a b = Some true).
          { intros K. apply later_warnings_not_reported in K. congruence. }
          unfold role_warnings in Hin.
          destruct (role_by_rows env o c); try exact (L Hin).
          apply in_app_iff in Hin as [Hin|Hin].
          -- apply in_until_raise in Hin as (t & Ht & -> & K).
             cbn in Ht.
             repeat (destruct Ht as [<-|Ht];
                     [cbn [fst snd] in *; injection R as <- <-; exact K|]).
             destruct Ht.
          -- destruct (numeric_raises env cc _ _); [exact (L Hin)|destruct Hin].
        * destruct (column_warnings_frame df_original df_cleaned oc cc) as [e He].
          { right. intros c. rewrite Ec. discriminate. }
          rewrite He in Hin. destruct Hin as [<-|[]]. discriminate.
      + destruct (column_warnings_frame df_original df_cleaned oc cc) as [e He].
        { left. intros c. rewrite Eo. discriminate. }
        rewrite He in Hin. destruct Hin as [<-|[]]. discriminate. }
  repeat split; [| |exact D].
  - destruct (scalar_is_nan a) eqn:N; [|reflexivity].
    now destruct (differs_nan a b (or_introl N)).
  - destruct (scalar_is_nan b) eqn:N; [|reflexivity].
    now destruct (differs_nan a b (or_intror N)).
Qed.

End MoreAudit.

(** ** The pipeline: when it succeeds and what it keeps *)

Section MorePipeline.

Variable env : External.

Lemma length_clean_series col s :
  List.length (clean_series env col s) = List.length s.
Proof.
  unfold clean_series. destruct (forallb _ _); now rewrite !length_map.
Qed.

Lemma columns_cleaned df :
  columns (map (cleaned_column env) df) = map clean_header (columns df).
Proof. unfold columns. rewrite !map_map. reflexivity. Qed.

Lemma nrows_cleaned df : nrows (map (cleaned_column env) df) = nrows df.
Proof.
  destruct df as [|[l s] df]; [reflexivity|].
  cbn. now rewrite length_clean_series, length_map.
Qed.

Lemma NoDup_map_source {A B} (f : A -> B) l : NoDup (map f l) -> NoDup l.
Proof.
  induction l as [|a l IH]; cbn; intros H; [constructor|].
  inversion H as [|? ? Hn Hd]; subst. constructor; [|auto].
  intros Hin. apply Hn. now apply in_map.
Qed.

(** X1. The cleaning of a frame goes through exactly when every column
    whose cleaned header is also the cleaned header of another column has no
    rows; with such a column that has rows the column loop raises. *)
Theorem clean_frame_succeeds_iff df_original :
  (exists df, clean_frame env df_original = Some df)
  <-> Forall (fun p =>
                count_occ string_dec (map clean_header (columns df_original))
                  (clean_header (fst p)) = 1
                \/ snd p = []) df_original.
Proof.
  split.
  - intros [df H]. exact (proj1 (clean_frame_some env df_original df H)).
  - intros C. eexists. exact (clean_frame_cleanable env df_original C).
Qed.

(** X2. A cleaned frame has the cleaned headers of the frame that was read,
    in the same order, the same number of rows, and in every column as many
    values as before. *)
Theorem clean_frame_keeps_shape df_original df :
  clean_frame env df_original = Some df ->
  columns df = map clean_header (columns df_original)
  /\ nrows df = nrows df_original
  /\ Forall2 (fun p p' => List.length (snd p') = List.length (snd p)) df_original df.
Proof.
  intros H. destruct (clean_frame_some env df_original df H) as [_ ->].
  split; [apply columns_cleaned|]. split; [apply nrows_cleaned|].
  clear H. induction df_original as [|[l s] r IH]; cbn; constructor.
  - cbn. now rewrite length_clean_series, length_map.
  - apply IH.
Qed.

Lemma in_combine_map {A B} (f : A -> B) l a b :
  In (a, b) (combine l (map f l)) -> b = f a /\ In a l.
Proof.
  induction l as [|x l IH]; cbn; [intros []|].
  intros [H|H]; [inversion H; subst; auto|].
  destruct (IH H). auto.
Qed.

(** X15. When no two columns get the same cleaned header and the audit
    follows the cleaning, every warning comes from the comparison of one
    column and names the cleaned header of a column that was read: no row or
    column count mismatch is reported and no column check raises. *)
Theorem audit_after_cleaning_compares_every_column df_original df w :
  NoDup (map clean_header (columns df_original)) ->
  clean_frame env df_original = Some df ->
  In w (log (audit_dataframe env df_original df)) ->
  exists name,
    In name (columns df_original)
    /\ compared_column w = Some (clean_header name).
Proof.
  intros ND H Hin. destruct (clean_frame_some env df_original df H) as [_ ->].
  destruct (audit_dataframe_warnings env df_original (map (cleaned_column env) df_original))
    as [ws [E ->]].
  rewrite E in Hin. cbn in Hin.
  rewrite nrows_cleaned, columns_cleaned, length_map, !Nat.eqb_refl in Hin.
  cbn in Hin. apply in_flat_map in Hin as [[oc cc] [Hp Hin]].
  destruct (in_combine_map _ _ _ _ Hp) as [-> Ho].
  exists oc. split; [exact Ho|].
  destruct (select_label df_original oc) as [o Eo].
  { exact (NoDup_map_source _ _ ND). }
  { exact Ho. }
  destruct (select_label (map (cleaned_column env) df_original) (clean_header oc))
    as [c Ec].
  { now rewrite columns_cleaned. }
  { rewrite columns_cleaned. now apply in_map. }
  rewrite (column_warnings_series env _ _ _ _ _ _ Eo Ec) in Hin.
  apply in_app_iff in Hin as [Hin|Hin].
  - apply in_emit in Hin as [_ ->]. reflexivity.
  - pose proof (role_warnings_column env (clean_header oc) o c) as F.
    rewrite Forall_forall in F. exact (F w Hin).
Qed.

End MorePipeline.

(** ** Headers: what cleaning leaves in them *)

Section MoreHeaders.

Lemma header_free_strip h :
  forallb (fun r => negb (has_char (fst r) h)) header_rules = true ->
  forallb (fun r => negb (has_char (fst r) (strip h))) header_rules = true.
Proof.
  rewrite !forallb_forall. intros H r Hr. specialize (H r Hr).
  apply negb_true_iff in H. apply negb_true_iff. now apply has_char_strip_false.
Qed.

Lemma clean_header_of_free h :
  forallb (fun r => negb (has_char (fst r) h)) header_rules = true ->
  clean_header h = strip h.
Proof.
  intros H. unfold clean_header. apply apply_rules_fixed. now apply header_free_strip.
Qed.

(** X9. No cleaned header holds a space, a hyphen, or any other of the
    sixteen characters that the replacements look for: the texts put in
    their place bring none of them back. *)
Theorem cleaned_header_has_no_special_character name c :
  In c (map fst header_rules) -> has_char c (clean_header name) = false.
Proof.
  intros Hin. apply in_map_iff in Hin as [r [<- Hr]].
  pose proof (clean_header_free name) as F. rewrite forallb_forall in F.
  specialize (F r Hr). now apply negb_true_iff in F.
Qed.

(** X10. Cleaning a cleaned header can only strip whitespace from its ends,
    and a third cleaning changes nothing. *)
Theorem clean_header_settles name :
  clean_header (clean_header name) = strip (clean_header name)
  /\ clean_header (clean_header (clean_header name))
     = clean_header (clean_header name).
Proof.
  pose proof (clean_header_free name) as F.
  assert (E : clean_header (clean_header name) = strip (clean_header name))
    by now apply clean_header_of_free.
  split; [exact E|]. rewrite E.
  rewrite clean_header_of_free by now apply header_free_strip.
  apply strip_idem.
Qed.

Lemma length_lstrip s : String.length (lstrip s) <= String.length s.
Proof.
  induction s as [|c r IH]; cbn; [lia|]. destruct (is_space c); cbn; lia.
Qed.

Lemma length_rstrip_with drop s :
  String.length (rstrip_with drop s) <= String.length s.
Proof.
  induction s as [|c r IH]; cbn; [lia|].
  destruct (rstrip_with drop r); [destruct (drop c)|]; cbn in *; lia.
Qed.

Lemma length_strip s : String.length (strip s) <= String.length s.
Proof.
  unfold strip, rstrip.
  pose proof (length_lstrip (rstrip_with is_space s)).
  pose proof (length_rstrip_with is_space s). lia.
Qed.

Lemma length_replace_short old new s :
  String.length new <= 1 ->
  String.length (replace old new s) <= String.length s.
Proof.
  intros H. induction s as [|c r IH]; cbn; [lia|].
  destruct (Ascii.eqb c old); cbn; [|lia].
  destruct new as [|a [|b n]]; cbn in *; lia.
Qed.

Lemma apply_rules_short rules : forall s,
  (forall r, In r rules ->
     String.length (snd r) <= 1
     \/ (has_char (fst r) s = false
         /\ forall r', In r' rules -> has_char (fst r) (snd r') = false)) ->
  String.length (apply_rules rules s) <= String.length s.
Proof.
  induction rules as [|r rules IH]; intros s H; [cbn; lia|].
  rewrite apply_rules_cons.
  assert (L : String.length (replace (fst r) (snd r) s) <= String.length s).
  { destruct (H r (or_introl eq_refl)) as [S|[A _]].
    - now apply length_replace_short.
    - rewrite replace_absent by exact A. lia. }
  etransitivity; [apply IH|exact L].
  intros r2 Hr2. destruct (H r2 (or_intror Hr2)) as [S|[A B]]; [now left|right].
  split.
  - apply has_char_replace_false; [exact A|]. apply B. now left.
  - intros r' Hr'. apply B. now right.
Qed.

(** Only the three replacements by a word make a header longer. *)
Lemma plain_header_never_grows name :
  has_char "#" name = false -> has_char "$" name = false ->
  has_char "%" name = false ->
  String.length (clean_header name) <= String.length name.
Proof.
  intros H1 H2 H3. unfold clean_header.
  etransitivity; [apply apply_rules_short|apply length_strip].
  intros r Hr. cbn in Hr.
  repeat (destruct Hr as [<-|Hr];
          [first [ left; cbn; lia
                 | right; split;
                   [ apply has_char_strip_false; assumption
                   | intros r' Hr'; cbn in Hr';
                     repeat (destruct Hr' as [<-|Hr']; [reflexivity|]);
                     destruct Hr' ] ]|]).
  destruct Hr.
Qed.

(** X11. A header listed in the warning about headers of more than 32
    characters is the cleaned form of a header that was itself longer than
    32 characters or held one of [#], [$], [%]. *)
Theorem long_header_origin df h :
  In h (long_headers (clean_column_headers df)) ->
  exists name,
    In name (columns df) /\ h = clean_header name
    /\ 32 < String.length h
    /\ (32 < String.length name \/ has_char "#" name = true
        \/ has_char "$" name = true \/ has_char "%" name = true).
Proof.
  unfold long_headers. intros H. apply filter_In in H as [Hin L].
  apply Nat.ltb_lt in L.
  unfold columns, clean_column_headers in Hin. rewrite map_map in Hin.
  apply in_map_iff in Hin as [p [E Hp]]. cbn [fst] in E. subst h.
  exists (fst p). split; [now apply in_map|]. split; [reflexivity|].
  split; [exact L|].
  destruct (has_char "#" (fst p)) eqn:E1; [auto|].
  destruct (has_char "$" (fst p)) eqn:E2; [auto|].
  destruct (has_char "%" (fst p)) eqn:E3; [auto|].
  left. pose proof (plain_header_never_grows (fst p) E1 E2 E3). lia.
Qed.

End MoreHeaders.

(** ** The text that [float] accepts *)

Module LiteralFacts.

Lemma literal_decimal c : is_decimal c = true -> literal_char c = true.
Proof. unfold literal_char. now intros ->. Qed.

Lemma literal_lower c :
  has_char (lower_char c) "+-._einfatyn" = true -> literal_char c = true.
Proof. unfold literal_char. intros ->. apply orb_true_r. Qed.

Lemma literal_eqb c d :
  Ascii.eqb c d = true -> literal_char d = true -> literal_char c = true.
Proof. intros E. apply Ascii.eqb_eq in E. now subst. Qed.

Lemma all_chars_has p c s :
  all_chars p s = true -> has_char c s = true -> p c = true.
Proof.
  induction s as [|d r IH]; cbn; [discriminate|].
  intros H1 H2. apply andb_true_iff in H1 as [Hd Hr].
  apply orb_true_iff in H2 as [E|H2]; [|auto].
  apply Ascii.eqb_eq in E. now subst.
Qed.

Lemma remove_underscores_literal s : forall prev t,
  remove_underscores prev s = Some t ->
  all_chars literal_char t = true -> all_chars literal_char s = true.
Proof.
  induction s as [|c r IH]; intros prev t H A; [reflexivity|].
  cbn in H. cbn [all_chars]. destruct (Ascii.eqb c "_") eqn:E.
  - destruct (is_decimal prev); [|discriminate].
    rewrite (literal_eqb c "_" E eq_refl). exact (IH c t H A).
  - destruct (Ascii.eqb prev "_" && negb (is_decimal c)); [discriminate|].
    destruct (remove_underscores c r) as [u|] eqn:R; [|discriminate].
    cbn in H. injection H as <-. cbn in A. apply andb_true_iff in A as [A1 A2].
    rewrite A1. exact (IH c u R A2).
Qed.

Lemma take_digits_literal s : forall ds r,
  take_digits s = (ds, r) ->
  all_chars literal_char r = true -> all_chars literal_char s = true.
Proof.
  induction s as [|c t IH]; intros ds r H A.
  - cbn in H. injection H as _ <-. exact A.
  - cbn in H. destruct (is_decimal c) eqn:D.
    + destruct (take_digits t) as [ds' r'] eqn:T. injection H as _ <-.
      cbn. rewrite (literal_decimal c D). exact (IH ds' r' eq_refl A).
    + injection H as _ <-. exact A.
Qed.

Lemma take_sign_literal s neg r :
  take_sign s = (neg, r) ->
  all_chars literal_char r = true -> all_chars literal_char s = true.
Proof.
  unfold take_sign. intros H A.
  destruct s as [|c t]; [injection H as _ <-; exact A|].
  destruct (Ascii.eqb c "-") eqn:E1.
  - apply Ascii.eqb_eq in E1. subst c. injection H as _ <-. cbn. exact A.
  - destruct (Ascii.eqb c "+") eqn:E2.
    + apply Ascii.eqb_eq in E2. subst c. injection H as _ <-. cbn. exact A.
    + assert (r = String c t).
      { apply Ascii.eqb_neq in E1, E2.
        destruct c as [[] [] [] [] [] [] [] []]; try (injection H as _ <-; reflexivity);
          congruence. }
      now subst.
Qed.

Lemma parse_exponent_literal s e :
  parse_exponent s = Some e -> all_chars literal_char s = true.
Proof.
  destruct s as [|c r]; [reflexivity|]. cbn [parse_exponent].
  destruct (Ascii.eqb (lower_char c) "e") eqn:E; [|discriminate].
  destruct (take_sign r) as [neg r1] eqn:S.
  destruct (take_digits r1) as [ds t] eqn:T. intros H.
  destruct ds as [|d ds]; [discriminate|]. destruct t; [|discriminate].
  cbn [all_chars]. apply andb_true_iff. split.
  - apply literal_lower. apply Ascii.eqb_eq in E. now rewrite E.
  - apply (take_sign_literal r neg r1 S).
    exact (take_digits_literal r1 _ _ T eq_refl).
Qed.

Lemma after_point (r1 : string) :
  (exists r, r1 = String "." r)
  \/ match r1 with
     | String "." r => take_digits r
     | _ => ([], r1)
     end = ([], r1).
Proof.
  destruct r1 as [|c r]; [now right|].
  destruct c as [[] [] [] [] [] [] [] []];
    first [right; reflexivity | left; eexists; reflexivity].
Qed.

Lemma parse_decimal_literal s l :
  parse_decimal s = Some l -> all_chars literal_char s = true.
Proof.
  unfold parse_decimal. destruct (take_digits s) as [ip r1] eqn:T1.
  intros H. apply (take_digits_literal s ip r1 T1).
  assert (P : forall fp r2,
             match (ip ++ fp)%list with
             | [] => None
             | (_ :: _) as ds =>
                 match parse_exponent r2 with
                 | Some e => Some (LitDec (digits_to_N ds) (e - Z.of_nat (List.length fp)))
                 | None => None
                 end
             end = Some l -> all_chars literal_char r2 = true).
  { intros fp r2 Q. destruct (ip ++ fp)%list; [discriminate|].
    destruct (parse_exponent r2) eqn:X; [|discriminate].
    exact (parse_exponent_literal r2 _ X). }
  destruct (after_point r1) as [[r ->]|E].
  - destruct (take_digits r) as [fp r2] eqn:T2. cbn [all_chars].
    apply andb_true_iff. split; [reflexivity|].
    exact (take_digits_literal r fp r2 T2 (P fp r2 H)).
  - rewrite E in H. exact (P [] r1 H).
Qed.

Lemma lower_literal s : forall w,
  lower s = w ->
  all_chars (fun c => has_char c "+-._einfatyn") w = true ->
  all_chars literal_char s = true.
Proof.
  induction s as [|c r IH]; intros w E A; [reflexivity|].
  cbn in E. subst w. cbn in A. apply andb_true_iff in A as [A1 A2].
  cbn [all_chars]. rewrite (literal_lower c A1). exact (IH _ eq_refl A2).
Qed.

Lemma parse_literal_literal s x :
  parse_literal s = Some x -> all_chars literal_char s = true.
Proof.
  unfold parse_literal. destruct (take_sign s) as [neg r] eqn:S. intros H.
  apply (take_sign_literal s neg r S).
  destruct (String.eqb (lower r) "inf") eqn:E1.
  { apply String.eqb_eq in E1. exact (lower_literal r _ E1 eq_refl). }
  destruct (String.eqb (lower r) "infinity") eqn:E2.
  { apply String.eqb_eq in E2. exact (lower_literal r _ E2 eq_refl). }
  cbn [orb] in H.
  destruct (String.eqb (lower r) "nan") eqn:E3.
  { apply String.eqb_eq in E3. exact (lower_literal r _ E3 eq_refl). }
  destruct (parse_decimal r) as [l|] eqn:P; [|discriminate].
  exact (parse_decimal_literal r l P).
Qed.

Lemma parse_accepts s f : parse s = Some f -> all_chars literal_char s = true.
Proof.
  unfold parse. destruct (remove_underscores "000" s) as [t|] eqn:R; [|discriminate].
  destruct (parse_literal t) as [x|] eqn:P; [|discriminate]. intros _.
  exact (remove_underscores_literal s _ t R (parse_literal_literal t x P)).
Qed.

Lemma has_char_strip_true c s :
  is_space c = false -> has_char c s = true -> has_char c (strip s) = true.
Proof.
  intros Sp H. unfold strip, rstrip.
  apply has_char_lstrip_true; [exact Sp|].
  now apply has_char_rstrip_with_true.
Qed.

(** [float] refuses text that holds a character foreign to numbers. *)
Lemma py_float_refuses c s :
  is_space c = false -> literal_char c = false -> has_char c s = true ->
  py_float s = None.
Proof.
  intros Sp L H. destruct (py_float s) as [f|] eqn:E; [|reflexivity].
  unfold py_float in E. apply parse_accepts in E.
  rewrite (all_chars_has _ c _ E (has_char_strip_true c s Sp H)) in L.
  discriminate.
Qed.

Lemma has_char_replace_other c old new s :
  Ascii.eqb old c = false -> has_char c s = true ->
  has_char c (replace old new s) = true.
Proof.
  intros N. induction s as [|d r IH]; cbn; [discriminate|].
  intros H. destruct (Ascii.eqb d old) eqn:E.
  - apply Ascii.eqb_eq in E. subst d. rewrite N in H. cbn in H.
    rewrite has_char_app, (IH H). apply orb_true_r.
  - cbn. apply orb_true_iff in H as [->|H]; [reflexivity|].
    rewrite (IH H). apply orb_true_r.
Qed.

Lemma has_char_without c d s :
  is_space c = false -> Ascii.eqb d c = false -> Ascii.eqb "," c = false ->
  has_char c s = true -> has_char c (without d s) = true.
Proof.
  intros Sp N1 N2 H. unfold without. apply has_char_strip_true; [exact Sp|].
  apply has_char_replace_other; [exact N2|].
  now apply has_char_replace_other.
Qed.

End LiteralFacts.

Import LiteralFacts.

(** ** The value cleaners together *)

Section MoreCleaners.

Variable env : External.

Lemma has_char_text_of c value :
  is_space c = false -> has_char c (py_str env value) = true ->
  has_char c (text_of env value) = true.
Proof. intros Sp H. unfold text_of. now apply has_char_strip_true. Qed.

Lemma no_char_unstripped c s :
  is_space c = false -> has_char c (strip s) = false -> has_char c s = false.
Proof.
  intros Sp H. destruct (has_char c s) eqn:E; [|reflexivity].
  rewrite (has_char_strip_true c s Sp E) in H. discriminate.
Qed.

Lemma without_has_no c s : has_char c (without c s) = false.
Proof.
  unfold without. apply has_char_strip_false.
  destruct (Ascii.eqb "," c) eqn:E.
  - apply Ascii.eqb_eq in E. subst c. now apply has_char_replace_self.
  - apply has_char_replace_false.
    + now apply has_char_replace_self.
    + reflexivity.
Qed.

(** X5. Applying the currency cleaner to its own result changes nothing. *)
Theorem clean_currency_and_numbers_idempotent value :
  clean_currency_and_numbers env (clean_currency_and_numbers env value)
  = clean_currency_and_numbers env value.
Proof.
  destruct (isna value) eqn:N.
  - unfold clean_currency_and_numbers at 2. rewrite N.
    unfold clean_currency_and_numbers. now rewrite N.
  - rewrite (clean_currency_unfold env value N).
    destruct (py_float (without "$" (text_of env value))) as [f|] eqn:P.
    + rewrite clean_currency_unfold by reflexivity.
      destruct (without_fixed "$" (text_of env value)) as [W S].
      assert (T : forall t, text_of env (CStr t) = strip t) by reflexivity.
      rewrite !T, S, W, P. reflexivity.
    + rewrite (clean_currency_unfold env value N), P. reflexivity.
Qed.

(** X6. The currency cleaner returns unchanged every value whose text holds
    a percent sign: with the sign left in, the text is no number. *)
Theorem currency_cleaner_skips_percentages value :
  has_char "%" (py_str env value) = true ->
  clean_currency_and_numbers env value = value.
Proof.
  intros H. destruct (isna value) eqn:N.
  - unfold clean_currency_and_numbers. now rewrite N.
  - rewrite (clean_currency_unfold env value N).
    rewrite (py_float_refuses "%"); [reflexivity..|].
    apply has_char_without; try reflexivity.
    now apply has_char_text_of.
Qed.

(** X7. Text that holds both a dollar sign and a percent sign is not turned
    into a number by the percentage cleaner: it comes back as text, without
    percent signs and commas, with its dollar sign. *)
Theorem percentage_cleaner_keeps_dollar_text s :
  has_char "$" s = true -> has_char "%" s = true ->
  clean_percentage env (CStr s) = CStr (without "%" (strip s))
  /\ has_char "$" (without "%" (strip s)) = true.
Proof.
  intros D P.
  assert (K : has_char "$" (without "%" (strip s)) = true).
  { apply has_char_without; try reflexivity. now apply has_char_strip_true. }
  split; [|exact K].
  rewrite clean_percentage_unfold by reflexivity.
  unfold text_of. cbn [py_str].
  rewrite (has_char_strip_true "%" s eq_refl P).
  now rewrite (py_float_refuses "$" _ eq_refl eq_refl K).
Qed.

Lemma clean_percentage_text value x :
  clean_percentage env value = CStr x -> has_char "%" x = false.
Proof.
  destruct (isna value) eqn:N.
  - unfold clean_percentage. rewrite N. intros ->. discriminate.
  - rewrite (clean_percentage_unfold env value N).
    destruct (has_char "%" (text_of env value)) eqn:E.
    + destruct (py_float _); [discriminate|]. intros H. injection H as <-.
      apply without_has_no.
    + intros ->. unfold text_of in E. cbn [py_str] in E.
      now apply no_char_unstripped in E.
Qed.

Lemma detect_and_clean_dates_cases value col :
  detect_and_clean_dates env value col = value
  \/ exists d,
       to_datetime env (text_of env value) = Parsed d
       /\ detect_and_clean_dates env value col
          = CStr (format_date (search_time (text_of env value)) d).
Proof.
  destruct (isna value || String.eqb (text_of env value) "") eqn:M.
  - left. unfold detect_and_clean_dates. unfold text_of in M. now rewrite M.
  - rewrite (detect_and_clean_dates_unfold env value col M).
    destruct (is_rate_column col); [now left|].
    destruct (is_small_decimal _); [now left|].
    destruct (_ && _); [now left|].
    destruct (to_datetime env (text_of env value)) as [d| |]; [|now left..].
    right. exists d. split; reflexivity.
Qed.

(** X3. No text cell of a cleaned frame holds a percent sign. *)
Theorem cleaned_text_has_no_percent_sign df_original df col s x :
  clean_frame env df_original = Some df ->
  In (col, s) df -> In (CStr x) s -> has_char "%" x = false.
Proof.
  intros H Hc Hx. destruct (clean_frame_some env df_original df H) as [_ ->].
  apply in_map_iff in Hc as [[l o] [E _]]. unfold cleaned_column in E.
  cbn [fst snd] in E. injection E as _ <-. unfold clean_series in Hx.
  assert (B : forall y, In y (map (clean_percentage env)
                           (map (clean_currency_and_numbers env) (map strip_cell o))) ->
                        forall t, y = CStr t -> has_char "%" t = false).
  { intros y Hy t ->. apply in_map_iff in Hy as [z [Hz _]].
    exact (clean_percentage_text z t Hz). }
  destruct (forallb _ _).
  - exact (B _ Hx x eq_refl).
  - apply in_map_iff in Hx as [y [Hd Hy]]. cbn beta in Hd.
    destruct (detect_and_clean_dates_cases y (clean_header l)) as [K|[d [_ K]]];
      rewrite K in Hd.
    + exact (B y Hy x Hd).
    + injection Hd as <-. apply FormatFacts.format_date_plain. auto.
Qed.

End MoreCleaners.

(** ** The date detector: what it returns *)

Section MoreDates.

Variable env : External.

Lemma length_app_string a b :
  String.length (a ++ b)%string = String.length a + String.length b.
Proof. induction a as [|c a IH]; cbn; [reflexivity|now rewrite IH]. Qed.

Lemma length_fixed_digits w : forall n, String.length (fixed_digits w n) = w.
Proof.
  induction w as [|w IH]; intros n; cbn; [reflexivity|].
  rewrite length_app_string, IH. cbn. lia.
Qed.

Lemma length_strftime_date d : String.length (strftime_date d) = 10.
Proof.
  unfold strftime_date. rewrite !length_app_string, !length_fixed_digits.
  reflexivity.
Qed.

Lemma length_strftime_seconds d : String.length (strftime_seconds d) = 19.
Proof.
  unfold strftime_seconds.
  rewrite !length_app_string, !length_fixed_digits, length_strftime_date.
  reflexivity.
Qed.

(** X8. The date detector returns its argument, or the text of the date that
    [pd.to_datetime] read: text without surrounding whitespace, of 10
    characters when the value showed no time, and of 19 when it showed one
    and the date has no microseconds. *)
Theorem detect_and_clean_dates_result value col :
  detect_and_clean_dates env value col = value
  \/ exists d,
       let has_time := search_time (text_of env value) in
       to_datetime env (text_of env value) = Parsed d
       /\ detect_and_clean_dates env value col = CStr (format_date has_time d)
       /\ strip (format_date has_time d) = format_date has_time d
       /\ (has_time = false -> String.length (format_date has_time d) = 10)
       /\ (has_time = true -> microsecond d = 0%N ->
           String.length (format_date has_time d) = 19).
Proof.
  destruct (detect_and_clean_dates_cases env value col) as [K|[d [T K]]];
    [now left|right].
  exists d. cbn zeta. split; [exact T|]. split; [exact K|].
  split; [apply FormatFacts.format_date_stripped|]. split.
  - intros ->. apply length_strftime_date.
  - intros -> M. unfold format_date. rewrite M. apply length_strftime_seconds.
Qed.

End MoreDates.

(** ** The loop over the files *)

Section MoreRuns.

Variable env : External.

(** What one turn of the loop adds to the log. *)
Lemma process_file_adds st entry :
  exists entries,
    process_file env st entry
    = {| run_log := run_log st ++ entries;
         written := written st ++ file_output env entry |}
    /\ count is_status entries = 1
    /\ count is_success entries = List.length (file_output env entry)
    /\ (forall df_original df,
          snd entry = ReadOk df_original ->
          clean_frame env df_original = Some df ->
          let audit := audit_dataframe env df_original df in
          exists before,
            entries = before ++ [AuditSection (log audit) (audit_passed audit);
                                 CleanedDimensions (nrows df) (List.length (columns df));
                                 StatusSuccess; OutputLine (fst entry)]).
Proof.
  destruct st as [l w]. destruct entry as [csv_file [df_original|message]].
  - unfold process_file, file_output, clean_frame. cbn [snd fst].
    set (u := match unnamed_cols df_original with [] => [] | cols => [AutoHeaderAlert cols] end).
    set (h := match long_headers (clean_column_headers df_original) with
              | [] => []
              | hs => [LongHeaderWarning (map (fun h => (h, String.length h)) hs)]
              end).
    assert (U : count is_status u = 0 /\ count is_success u = 0).
    { subst u. now destruct (unnamed_cols df_original). }
    assert (Hh : count is_status h = 0 /\ count is_success h = 0).
    { subst h. now destruct (long_headers _). }
    assert (C : forall a b : list log_entry, forall p,
               count p (a ++ b) = count p a + count p b).
    { intros a b p. unfold count. now rewrite filter_app, length_app. }
    destruct (clean_columns env (strip_values (clean_column_headers df_original)))
      as [df|] eqn:E.
    + exists ([FileHeading csv_file;
               OriginalDimensions (nrows df_original)
                 (List.length (columns df_original))] ++ u ++ h
              ++ [AuditSection (log (audit_dataframe env df_original df))
                    (audit_passed (audit_dataframe env df_original df));
                  CleanedDimensions (nrows df) (List.length (columns df));
                  StatusSuccess; OutputLine csv_file]).
      split; [|split; [|split]].
      * subst u h. unfold write, save. cbn.
        destruct (unnamed_cols df_original), (long_headers _); cbn;
          rewrite <- ?app_assoc; reflexivity.
      * rewrite !C. destruct U as [-> _], Hh as [-> _]. reflexivity.
      * rewrite !C. destruct U as [_ ->], Hh as [_ ->]. reflexivity.
      * intros d0 df0 R K. injection R as <-.
        assert (df0 = df) by congruence. subst df0. cbn zeta.
        exists ([FileHeading csv_file;
                 OriginalDimensions (nrows df_original)
                   (List.length (columns df_original))] ++ u ++ h).
        now rewrite <- !app_assoc.
    + exists ([FileHeading csv_file;
               OriginalDimensions (nrows df_original)
                 (List.length (columns df_original))] ++ u ++ h
              ++ [ErrorLine CleaningError]).
      split; [|split; [|split]].
      * subst u h. unfold write, save. cbn.
        destruct (unnamed_cols df_original), (long_headers _); cbn;
          rewrite <- ?app_assoc, ?app_nil_r; reflexivity.
      * rewrite !C. destruct U as [-> _], Hh as [-> _]. reflexivity.
      * rewrite !C. destruct U as [_ ->], Hh as [_ ->]. reflexivity.
      * intros d0 df0 R K. injection R as <-. congruence.
  - exists [FileHeading csv_file; ErrorLine (ReadError message)].
    split; [|split; [|split]]; try reflexivity.
    + unfold process_file, write, file_output. cbn.
      now rewrite <- app_assoc, app_nil_r.
    + intros d0 df0 R. discriminate.
Qed.

Lemma count_app {A} (p : A -> bool) a b : count p (a ++ b) = count p a + count p b.
Proof. unfold count. now rewrite filter_app, length_app. Qed.

(** The loop over the files, from any state. *)
Lemma process_files_adds files : forall st,
  exists entries,
    fold_left (process_file env) files st
    = {| run_log := run_log st ++ entries;
         written := written st ++ flat_map (file_output env) files |}
    /\ count is_status entries = List.length files
    /\ count is_success entries = List.length (flat_map (file_output env) files)
    /\ (forall csv_file df_original df,
          In (csv_file, ReadOk df_original) files ->
          clean_frame env df_original = Some df ->
          let audit := audit_dataframe env df_original df in
          exists before after,
            entries = before ++ [AuditSection (log audit) (audit_passed audit);
                                 CleanedDimensions (nrows df) (List.length (columns df));
                                 StatusSuccess; OutputLine csv_file] ++ after).
Proof.
  induction files as [|e files IH]; intros st.
  - exists []. cbn. rewrite !app_nil_r. destruct st. repeat split. intros ? ? ? [].
  - cbn [fold_left].
    destruct (process_file_adds st e) as [es [E [S1 [S2 S3]]]]. rewrite E.
    destruct (IH {| run_log := run_log st ++ es;
                    written := written st ++ file_output env e |})
      as [fs [F [T1 [T2 T3]]]].
    rewrite F. cbn [run_log written]. exists (es ++ fs).
    split; [|split; [|split]].
    + cbn [flat_map]. now rewrite !app_assoc.
    + rewrite count_app, S1, T1. reflexivity.
    + cbn [flat_map]. rewrite count_app, length_app, S2, T2. reflexivity.
    + intros csv_file df_original df [->|Hin] K.
      * destruct (S3 df_original df eq_refl K) as [before B]. cbn zeta.
        exists before, fs. rewrite B. cbn [fst]. now rewrite <- !app_assoc.
      * destruct (T3 csv_file df_original df Hin K) as [before [after B]].
        cbn zeta. exists (es ++ before), after. rewrite B.
        now rewrite <- !app_assoc.
Qed.

Lemma run_unfold listing :
  let csv_files := filter (fun entry => is_csv (fst entry)) listing in
  exists entries,
    clean_csv_files env listing
    = {| run_log := LogHeading :: entries;
         written := flat_map (file_output env) csv_files |}
    /\ count is_status entries = List.length csv_files
    /\ count is_success entries = List.length (flat_map (file_output env) csv_files)
    /\ (forall csv_file df_original df,
          In (csv_file, ReadOk df_original) csv_files ->
          clean_frame env df_original = Some df ->
          let audit := audit_dataframe env df_original df in
          exists before after,
            entries = before ++ [AuditSection (log audit) (audit_passed audit);
                                 CleanedDimensions (nrows df) (List.length (columns df));
                                 StatusSuccess; OutputLine csv_file] ++ after).
Proof.
  cbn zeta. unfold clean_csv_files.
  destruct (filter (fun entry => is_csv (fst entry)) listing) as [|e files] eqn:F.
  - exists [NoCsvFiles]. repeat split. intros ? ? ? [].
  - set (st := write [FoundFiles _] _).
    destruct (process_files_adds (e :: files) st) as [es [E [S1 [S2 S3]]]].
    rewrite E. exists (FoundFiles (List.length (e :: files)) :: es ++ [Completed]).
    split; [|split; [|split]].
    + subst st. unfold write. cbn. rewrite <- ?app_assoc. reflexivity.
    + change (FoundFiles (List.length (e :: files)) :: es ++ [Completed])
        with ([FoundFiles (List.length (e :: files))] ++ es ++ [Completed]).
      rewrite !count_app, S1. cbn. lia.
    + change (FoundFiles (List.length (e :: files)) :: es ++ [Completed])
        with ([FoundFiles (List.length (e :: files))] ++ es ++ [Completed]).
      rewrite !count_app, S2. cbn. lia.
    + intros csv_file df_original df Hin K.
      destruct (S3 csv_file df_original df Hin K) as [before [after B]].
      cbn zeta. exists (FoundFiles (List.length (e :: files)) :: before), (after ++ [Completed]).
      rewrite B. cbn. now rewrite <- !app_assoc.
Qed.

(** X16. A cleaned frame is written under a name exactly when the listing
    has that name with the suffix [.csv], reading it gave a frame, and the
    cleaning of that frame went through; the other entries of the listing
    play no part. *)
Theorem cleaned_files_written listing csv_file df :
  In (csv_file, df) (written (clean_csv_files env listing))
  <-> exists df_original,
        In (csv_file, ReadOk df_original) listing
        /\ is_csv csv_file = true
        /\ clean_frame env df_original = Some df.
Proof.
  destruct (run_unfold listing) as [es [-> _]]. cbn [written].
  rewrite in_flat_map. split.
  - intros [[name r] [Hin Ho]]. apply filter_In in Hin as [Hin C].
    unfold file_output in Ho. cbn [fst snd] in *.
    destruct r as [df_original|m]; [|destruct Ho].
    destruct (clean_frame env df_original) as [d|] eqn:K; [|destruct Ho].
    destruct Ho as [Ho|[]]. injection Ho as <- <-.
    exists df_original. auto.
  - intros [df_original [Hin [C K]]].
    exists (csv_file, ReadOk df_original). split.
    + apply filter_In. auto.
    + unfold file_output. cbn [fst snd]. rewrite K. now left.
Qed.

(** X17. The log has one status entry, success or error, for each name of
    the listing with the suffix [.csv], and as many successes as files
    written. *)
Theorem one_status_per_file listing :
  count is_status (run_log (clean_csv_files env listing))
  = List.length (filter (fun entry => is_csv (fst entry)) listing)
  /\ count is_success (run_log (clean_csv_files env listing))
     = List.length (written (clean_csv_files env listing)).
Proof.
  destruct (run_unfold listing) as [es [-> [S1 [S2 _]]]].
  cbn [run_log written].
  change (LogHeading :: es) with ([LogHeading] ++ es).
  rewrite !count_app, S1, S2. split; reflexivity.
Qed.

(** X18. A file that was read and cleaned is written and logged as a
    success whatever the audit found: the log shows the warnings and the
    verdict of the audit, then the dimensions, which are those of the file
    read, the status and the output. *)
Theorem file_is_saved_whatever_the_audit_says listing csv_file df_original df :
  In (csv_file, ReadOk df_original) listing ->
  is_csv csv_file = true ->
  clean_frame env df_original = Some df ->
  let audit := audit_dataframe env df_original df in
  let st := clean_csv_files env listing in
  In (csv_file, df) (written st)
  /\ exists before after,
       run_log st
       = before ++ [AuditSection (log audit) (audit_passed audit);
                    CleanedDimensions (nrows df_original)
                      (List.length (columns df_original));
                    StatusSuccess; OutputLine csv_file] ++ after.
Proof.
  intros Hin C K. cbn zeta.
  destruct (run_unfold listing) as [es [-> [_ [_ S3]]]]. cbn [run_log written].
  split.
  - apply in_flat_map. exists (csv_file, ReadOk df_original). split.
    + apply filter_In. auto.
    + unfold file_output. cbn [fst snd]. rewrite K. now left.
  -
destruct (S3 csv_file df_original df) as [before [after B]]; [|exact K|].
    { apply filter_In. auto. }
    exists (LogHeading :: before), after. rewrite B.
    destruct (clean_frame_some env df_original df K) as [_ ->].
    rewrite nrows_cleaned, columns_cleaned, length_map. reflexivity.
Qed.

End MoreRuns.

(** ** Integers *)

Module IntegerFacts.

Lemma decimal_cases c :
  is_decimal c = true ->
  is_space c = false /\ Ascii.eqb c "_" = false /\ Ascii.eqb c "$" = false
  /\ Ascii.eqb c "," = false /\ Ascii.eqb c "%" = false
  /\ take_sign (String c "") = (false, String c "")
  /\ Ascii.eqb (lower_char c) "i" = false /\ Ascii.eqb (lower_char c) "n" = false.
Proof.
  destruct c as [[] [] [] [] [] [] [] []]; intros H; try discriminate H;
    repeat split; reflexivity.
Qed.

Lemma take_sign_decimal c r :
  is_decimal c = true -> take_sign (String c r) = (false, String c r).
Proof.
  destruct c as [[] [] [] [] [] [] [] []]; intros H; try discriminate H; reflexivity.
Qed.

Lemma rstrip_no_space s :
  all_chars (fun c => negb (is_space c)) s = true -> rstrip_with is_space s = s.
Proof.
  induction s as [|c r IH]; [reflexivity|]. cbn. intros H.
  apply andb_true_iff in H as [Hc Hr]. rewrite (IH Hr).
  apply negb_true_iff in Hc. rewrite Hc. now destruct r.
Qed.

Lemma strip_no_space s :
  all_chars (fun c => negb (is_space c)) s = true -> strip s = s.
Proof.
  intros H. unfold strip, rstrip. rewrite (rstrip_no_space s H).
  destruct s as [|c r]; [reflexivity|]. cbn in *.
  apply andb_true_iff in H as [Hc _]. apply negb_true_iff in Hc. now rewrite Hc.
Qed.

Lemma all_chars_impl (p q : ascii -> bool) s :
  (forall c, p c = true -> q c = true) ->
  all_chars p s = true -> all_chars q s = true.
Proof.
  intros I. induction s as [|c r IH]; [reflexivity|]. cbn. intros H.
  apply andb_true_iff in H as [Hc Hr]. now rewrite (I c Hc), (IH Hr).
Qed.

Lemma all_chars_absent p c s :
  p c = false -> all_chars p s = true -> has_char c s = false.
Proof.
  intros N H. destruct (has_char c s) eqn:E; [|reflexivity].
  rewrite (LiteralFacts.all_chars_has p c s H E) in N. discriminate.
Qed.

Lemma remove_underscores_digits s : forall prev,
  Ascii.eqb prev "_" = false ->
  all_chars is_decimal s = true -> remove_underscores prev s = Some s.
Proof.
  induction s as [|c r IH]; intros prev P H; cbn.
  - now rewrite P.
  - cbn in H. apply andb_true_iff in H as [Hc Hr].
    destruct (decimal_cases c Hc) as [_ [U _]]. rewrite U, Hc, andb_false_r.
    now rewrite (IH c U Hr).
Qed.

Lemma take_digits_digits s :
  all_chars is_decimal s = true ->
  exists ds, take_digits s = (ds, ""%string) /\ List.length ds = String.length s.
Proof.
  induction s as [|c r IH]; cbn; intros H.
  - now exists [].
  - apply andb_true_iff in H as [Hc Hr]. rewrite Hc.
    destruct (IH Hr) as [ds [-> L]]. exists (digit_value c :: ds). cbn. now rewrite L.
Qed.

Lemma parse_decimal_digits c r :
  all_chars is_decimal (String c r) = true ->
  exists l, parse_decimal (String c r) = Some l.
Proof.
  intros H. unfold parse_decimal.
  destruct (take_digits_digits _ H) as [ds [-> L]].
  destruct ds as [|d ds]; [discriminate|]. cbn. eexists. reflexivity.
Qed.

Lemma parse_literal_digits c r :
  all_chars is_decimal (String c r) = true ->
  take_sign (String c r) = (false, String c r) ->
  exists l, parse_literal (String c r) = Some (false, l)
            /\ parse_literal (String "-" (String c r)) = Some (true, l).
Proof.
  intros H S. destruct (parse_decimal_digits c r H) as [l P].
  assert (Hc : is_decimal c = true) by (cbn in H; now apply andb_true_iff in H).
  destruct (decimal_cases c Hc) as [_ [_ [_ [_ [_ [_ [I N]]]]]]].
  exists l. unfold parse_literal. rewrite S. cbn [take_sign].
  cbn [lower String.eqb]. rewrite I, N. cbn [orb]. rewrite P. split; reflexivity.
Qed.

Lemma parse_digits c r :
  all_chars is_decimal (String c r) = true ->
  (exists f, parse (String c r) = Some f)
  /\ (exists f, parse (String "-" (String c r)) = Some f).
Proof.
  intros H.
  assert (Hc : is_decimal c = true) by (cbn in H; now apply andb_true_iff in H).
  destruct (parse_literal_digits c r H (take_sign_decimal c r Hc)) as [l [P1 P2]].
  unfold parse. split.
  - rewrite (remove_underscores_digits _ "000" eq_refl H), P1. eexists; reflexivity.
  - assert (M : remove_underscores "000" (String "-" (String c r))
                 = option_map (String "-") (remove_underscores "-" (String c r)))
      by reflexivity.
    rewrite M, (remove_underscores_digits _ "-" eq_refl H). cbn [option_map].
    rewrite P2. eexists; reflexivity.
Qed.

Lemma string_of_uint_digits d :
  all_chars is_decimal (NilEmpty.string_of_uint d) = true.
Proof. induction d; cbn; auto. Qed.

Lemma string_of_uint_nonempty d :
  d <> Decimal.Nil -> exists c r, NilEmpty.string_of_uint d = String c r.
Proof. destruct d; cbn; intros H; try congruence; eexists; eexists; reflexivity. Qed.

(** The decimal text of an integer: digits after an optional minus sign. *)
Lemma string_of_int_shape z :
  exists c r,
    all_chars is_decimal (String c r) = true
    /\ (NilZero.string_of_int (Z.to_int z) = String c r
        \/ NilZero.string_of_int (Z.to_int z) = String "-" (String c r)).
Proof.
  destruct z as [|p|p]; cbn [Z.to_int NilZero.string_of_int].
  - exists "0"%char, ""%string. split; [reflexivity|now left].
  - pose proof (Unsigned.to_uint_nonnil p) as N.
    destruct (string_of_uint_nonempty _ N) as [c [r E]].
    exists c, r. rewrite <- E. split; [apply string_of_uint_digits|left].
    unfold NilZero.string_of_uint. destruct (Pos.to_uint p); [congruence|reflexivity..].
  - pose proof (Unsigned.to_uint_nonnil p) as N.
    destruct (string_of_uint_nonempty _ N) as [c [r E]].
    exists c, r. rewrite <- E. split; [apply string_of_uint_digits|right].
    unfold NilZero.string_of_uint. destruct (Pos.to_uint p); [congruence|reflexivity..].
Qed.

(** Such text is what [float] reads, and the cleaners find nothing to remove
    in it. *)
Lemma integer_text s c r :
  all_chars is_decimal (String c r) = true ->
  s = String c r \/ s = String "-" (String c r) ->
  strip s = s /\ has_char "$" s = false /\ has_char "," s = false
  /\ has_char "%" s = false /\ exists f, py_float s = Some f.
Proof.
  intros H E.
  assert (P : all_chars (fun c => negb (is_space c)
                                  && negb (Ascii.eqb c "$") && negb (Ascii.eqb c ",")
                                  && negb (Ascii.eqb c "%")) s = true).
  { assert (Q : all_chars (fun c => negb (is_space c)
                                  && negb (Ascii.eqb c "$") && negb (Ascii.eqb c ",")
                                  && negb (Ascii.eqb c "%")) (String c r) = true).
    { apply (all_chars_impl is_decimal); [|exact H]. intros x Hx.
      destruct (decimal_cases x Hx) as [-> [_ [-> [-> [-> _]]]]]. reflexivity. }
    destruct E as [->| ->]; [exact Q|].
    cbn [all_chars]. apply andb_true_iff. split; [reflexivity|exact Q]. }
  assert (S : strip s = s).
  { apply strip_no_space. revert P. apply all_chars_impl.
    intros x Hx. now destruct (is_space x). }
  split; [exact S|].
  split; [exact (all_chars_absent _ "$" s eq_refl P)|].
  split; [exact (all_chars_absent _ "," s eq_refl P)|].
  split; [exact (all_chars_absent _ "%" s eq_refl P)|].
  unfold py_float. rewrite S.
  destruct (parse_digits c r H) as [P1 P2]. now destruct E as [->| ->].
Qed.

End IntegerFacts.

Section MoreIntegers.

Variable env : External.

(** X4. The currency cleaner returns an integer as text, its decimal
    digits after a minus sign if it is negative, and the percentage cleaner
    leaves that text as it is. *)
Theorem integers_become_text z :
  clean_currency_and_numbers env (CInt z) = CStr (py_str env (CInt z))
  /\ clean_percentage env (CStr (py_str env (CInt z))) = CStr (py_str env (CInt z)).
Proof.
  cbn [py_str].
  destruct (IntegerFacts.string_of_int_shape z) as [c [r [H E]]].
  destruct (IntegerFacts.integer_text _ c r H E) as [S [D [K [P [f F]]]]].
  set (s := NilZero.string_of_int (Z.to_int z)) in *.
  assert (W : without "$" s = s).
  { unfold without. now rewrite (replace_absent _ _ _ D), (replace_absent _ _ _ K). }
  split.
  - rewrite clean_currency_unfold by reflexivity.
    unfold text_of. cbn [py_str]. fold s. rewrite S, W, F. reflexivity.
  - rewrite clean_percentage_unfold by reflexivity.
    unfold text_of. cbn [py_str]. now rewrite S, P.
Qed.

End MoreIntegers.

(** ** The properties at concrete frames *)

Section MoreRunsAt.

Import Examples.

Lemma clean_frame_keeps_shape_at_sales :
  clean_frame Reference.env sales = Some sales_cleaned
  /\ columns sales_cleaned = map clean_header (columns sales)
  /\ nrows sales_cleaned = nrows sales
  /\ Forall2 (fun p p' => List.length (snd p') = List.length (snd p))
       sales sales_cleaned.
Proof.
  split; [vm_compute; reflexivity|].
  apply (clean_frame_keeps_shape Reference.env sales sales_cleaned).
  vm_compute; reflexivity.
Defined.

Lemma cleaned_text_has_no_percent_sign_at_surveyed :
  clean_frame Reference.env surveyed = Some surveyed_cleaned
  /\ In ("Share_of_revenue_pct_from_new_customers", [CFloat 0.05; CStr "about 5"])
       surveyed_cleaned
  /\ In (CStr "about 5") [CFloat 0.05; CStr "about 5"]
  /\ has_char "%" "about 5" = false.
Proof.
  assert (K : clean_frame Reference.env surveyed = Some surveyed_cleaned)
    by (vm_compute; reflexivity).
  assert (C : In ("Share_of_revenue_pct_from_new_customers",
                  [CFloat 0.05; CStr "about 5"]) surveyed_cleaned)
    by (left; reflexivity).
  assert (X : In (CStr "about 5") [CFloat 0.05; CStr "about 5"])
    by (right; left; reflexivity).
  split; [exact K|]. split; [exact C|]. split; [exact X|].
  exact (cleaned_text_has_no_percent_sign Reference.env surveyed surveyed_cleaned
           _ _ "about 5" K C X).
Defined.

Lemma currency_cleaner_skips_percentages_at_both_signs :
  has_char "%" (py_str Reference.env (CStr "$1,200%")) = true
  /\ clean_currency_and_numbers Reference.env (CStr "$1,200%") = CStr "$1,200%".
Proof.
  split; [reflexivity|].
  exact (currency_cleaner_skips_percentages Reference.env (CStr "$1,200%") eq_refl).
Defined.

Lemma percentage_cleaner_keeps_dollar_text_at_both_signs :
  has_char "$" "$1,200%" = true
  /\ has_char "%" "$1,200%" = true
  /\ without "%" (strip "$1,200%") = "$1200"
  /\ clean_percentage Reference.env (CStr "$1,200%")
     = CStr (without "%" (strip "$1,200%"))
  /\ has_char "$" (without "%" (strip "$1,200%")) = true.
Proof.
  split; [reflexivity|]. split; [reflexivity|]. split; [reflexivity|].
  exact (percentage_cleaner_keeps_dollar_text Reference.env "$1,200%"
           eq_refl eq_refl).
Defined.

Lemma cleaned_header_has_no_special_character_at_revenue :
  In "%"%char (map fst header_rules)
  /\ has_char "%" (clean_header "Revenue (%)") = false.
Proof.
  assert (H : In "%"%char (map fst header_rules))
    by (cbn; right; right; right; right; left; reflexivity).
  split; [exact H|].
  exact (cleaned_header_has_no_special_character "Revenue (%)" "%" H).
Defined.

Lemma long_header_origin_at_surveyed :
  In "Share_of_revenue_pct_from_new_customers"
    (long_headers (clean_column_headers surveyed))
  /\ exists name,
       In name (columns surveyed)
       /\ "Share_of_revenue_pct_from_new_customers" = clean_header name
       /\ 32 < String.length "Share_of_revenue_pct_from_new_customers"
       /\ (32 < String.length name \/ has_char "#" name = true
           \/ has_char "$" name = true \/ has_char "%" name = true).
Proof.
  assert (H : In "Share_of_revenue_pct_from_new_customers"
                (long_headers (clean_column_headers surveyed)))
    by (left; reflexivity).
  split; [exact H|].
  exact (long_header_origin surveyed _ H).
Defined.

Lemma numeric_warning_reports_two_numbers_at_counts :
  In (MaxChanged "n" (Int64 2) (Int64 200))
    (log (audit_dataframe Reference.env counts counts_changed))
  /\ reported (MaxChanged "n" (Int64 2) (Int64 200)) = Some (Int64 2, Int64 200)
  /\ scalar_is_nan (Int64 2) = false /\ scalar_is_nan (Int64 200) = false
  /\ differs (Int64 2) (Int64 200) = Some true.
Proof.
  assert (H : In (MaxChanged "n" (Int64 2) (Int64 200))
                (log (audit_dataframe Reference.env counts counts_changed)))
    by (vm_compute; right; left; reflexivity).
  split; [exact H|]. split; [reflexivity|].
  exact (numeric_warning_reports_two_numbers Reference.env counts counts_changed
           _ (Int64 2) (Int64 200) H eq_refl).
Defined.

Lemma audit_after_cleaning_at_prices :
  NoDup (map clean_header (columns prices))
  /\ clean_frame Reference.env prices = Some prices_cleaned
  /\ In (UniqueCountChanged "Price" 2 1)
       (log (audit_dataframe Reference.env prices prices_cleaned))
  /\ exists name,
       In name (columns prices)
       /\ compared_column (UniqueCountChanged "Price" 2 1)
          = Some (clean_header name).
Proof.
  assert (N : NoDup (map clean_header (columns prices)))
    by (repeat constructor; intros []).
  assert (K : clean_frame Reference.env prices = Some prices_cleaned)
    by (vm_compute; reflexivity).
  assert (H : In (UniqueCountChanged "Price" 2 1)
                (log (audit_dataframe Reference.env prices prices_cleaned)))
    by (vm_compute; left; reflexivity).
  split; [exact N|]. split; [exact K|]. split; [exact H|].
  exact (audit_after_cleaning_compares_every_column Reference.env prices
           prices_cleaned _ N K H).
Defined.

Lemma file_is_saved_at_prices :
  In ("prices.csv", ReadOk prices) folder
  /\ is_csv "prices.csv" = true
  /\ clean_frame Reference.env prices = Some prices_cleaned
  /\ audit_passed (audit_dataframe Reference.env prices prices_cleaned) = false
  /\ In ("prices.csv", prices_cleaned) (written (clean_csv_files Reference.env folder))
  /\ exists before after,
       run_log (clean_csv_files Reference.env folder)
       = before
         ++ [AuditSection (log (audit_dataframe Reference.env prices prices_cleaned))
               (audit_passed (audit_dataframe Reference.env prices prices_cleaned));
             CleanedDimensions (nrows prices) (List.length (columns prices));
             StatusSuccess; OutputLine "prices.csv"] ++ after.
Proof.
  assert (H : In ("prices.csv", ReadOk prices) folder)
    by (right; right; right; left; reflexivity).
  assert (K : clean_frame Reference.env prices = Some prices_cleaned)
    by (vm_compute; reflexivity).
  split; [exact H|]. split; [reflexivity|]. split; [exact K|].
  split; [vm_compute; reflexivity|].
  exact (file_is_saved_whatever_the_audit_says Reference.env folder "prices.csv"
           prices prices_cleaned H eq_refl K).
Defined.

End MoreRunsAt.
